(** * UDP port scanner: probe dispatch, response classification and retry policy

    A shallow embedding of [udp_scanner.c] and [udp_scanner_extended.c].
    The two programs share their control flow and differ in the protocol
    database, in the text of the per-port output lines and in whether
    failed system calls are reported with [perror]; the embedding takes
    the program as a parameter ([program]) wherever they differ.

    The operating system is an oracle ([OS]): it fixes the result of every
    system call the scanner issues, so a statement quantified over all
    oracles holds for every behaviour of the network and of the kernel.
    The scanner's own state (the global [stats], what it has written on
    stdout and stderr, and the system calls it has issued) is threaded
    through a small state monad. *)

From Stdlib Require Import Floats.
From Stdlib Require Import ZArith List String Ascii DecimalString Lia Bool.
From Stdlib Require Import Strings.Byte.
Import ListNotations.

Local Open Scope string_scope.
Local Open Scope Z_scope.

(** ** Constants *)

Definition MAX_PACKET_SIZE : Z := 65536.
Definition TIMEOUT_SEC : Z := 2.
Definition TIMEOUT_USEC : Z := 0.
Definition MAX_RETRIES : nat := 2.

(** From <netinet/ip_icmp.h>. *)
Definition ICMP_UNREACH : Z := 3.
Definition ICMP_UNREACH_PORT : Z := 3.

(** ** The protocol database *)

(** [udp_probe_t].  [service_name] and the fifth field are C strings that
    are [NULL] in the terminating entry; the fifth field is called
    [expected_response] in udp_scanner.c (where it is never read) and
    [rfc_reference] in udp_scanner_extended.c.  The [NULL] payload of the
    terminating entry is written [[]]: that entry is never returned. *)
Record udp_probe_t := mk_probe {
  port_of : Z;
  service_name : option string;
  payload : list byte;
  payload_len : Z;
  rfc_reference : option string
}.

(** [sizeof] of a byte array; a string literal's array includes its
    terminating NUL. *)
Definition sizeof (a : list byte) : Z := Z.of_nat (List.length a).

(** [strlen]: the number of bytes before the first NUL. *)
Fixpoint strlen (a : list byte) : Z :=
  match a with
  | [] => 0
  | x00 :: _ => 0
  | _ :: rest => 1 + strlen rest
  end.

(** Payloads and protocol database of [udp_scanner.c]. *)
Module Basic.

Definition dns_probe : list byte :=
  [x00; x00; x01; x00; x00; x01; x00; x00; x00; x00; x00; x00;
   x07; x76; x65; x72; x73; x69; x6f; x6e; x04; x62; x69; x6e;
   x64; x00; x00; x10; x00; x03].

Definition ntp_probe : list byte :=
  [x1b; x00; x00; x00; x00; x00; x00; x00; x00; x00; x00; x00;
   x00; x00; x00; x00; x00; x00; x00; x00; x00; x00; x00; x00;
   x00; x00; x00; x00; x00; x00; x00; x00; x00; x00; x00; x00;
   x00; x00; x00; x00].

Definition snmp_probe : list byte :=
  [x30; x26; x02; x01; x00; x04; x06; x70; x75; x62; x6c; x69;
   x63; xa0; x19; x02; x04; x00; x00; x00; x01; x02; x01; x00;
   x02; x01; x00; x30; x0b; x30; x09; x06; x05; x2b; x06; x01;
   x02; x01; x05; x00].

Definition dhcp_probe : list byte :=
  [x01; x01; x06; x00; x00; x00; x00; x01; x00; x00; x00; x00;
   x00; x00; x00; x00; x00; x00; x00; x00; x00; x00; x00; x00;
   x00; x00; x00; x00; x00; x00; x00; x00; x00; x00; x00; x00;
   x00; x00; x00; x00; x00; x00; x00; x00; x00; x00; x00; x00;
   x00; x00; x00; x00; x00; x00; x00; x00; x00; x00; x00; x00;
   x00; x00; x00; x00; x00; x00; x00; x00; x00; x00; x00; x00;
   x00; x00; x00; x00; x00; x00; x00; x00; x00; x00; x00; x00;
   x00; x00; x00; x00; x00; x00; x00; x00; x00; x00; x00; x00;
   x00; x00; x00; x00; x00; x00; x00; x00; x00; x00; x00; x00;
   x00; x00; x00; x00; x00; x00; x00; x00; x00; x00; x00; x00;
   x00; x00; x00; x00; x00; x00; x00; x00; x00; x00; x00; x00;
   x00; x00; x00; x00; x00; x00; x00; x00; x00; x00; x00; x00;
   x00; x00; x00; x00; x00; x00; x00; x00; x00; x00; x00; x00;
   x00; x00; x00; x00; x00; x00; x00; x00; x00; x00; x00; x00;
   x00; x00; x00; x00; x00; x00; x00; x00; x00; x00; x00; x00;
   x00; x00; x00; x00; x00; x00; x00; x00; x00; x00; x00; x00;
   x00; x00; x00; x00; x00; x00; x00; x00; x00; x00; x00; x00;
   x00; x00; x00; x00; x00; x00; x00; x00; x00; x00; x00; x00;
   x00; x00; x00; x00; x00; x00; x00; x00; x00; x00; x00; x00;
   x00; x00; x00; x00; x00; x00; x00; x00; x63; x82; x53; x63;
   x35; x01; x01; xff].

Definition netbios_probe : list byte :=
  [x00; x00; x00; x10; x00; x01; x00; x00; x00; x00; x00; x00;
   x20; x43; x4b; x41; x41; x41; x41; x41; x41; x41; x41; x41;
   x41; x41; x41; x41; x41; x41; x41; x41; x41; x41; x41; x41;
   x41; x41; x41; x41; x41; x41; x41; x41; x00; x00; x21; x00;
   x01].

Definition sip_probe : list byte :=
  [x4f; x50; x54; x49; x4f; x4e; x53; x20; x73; x69; x70; x3a;
   x6e; x6d; x20; x53; x49; x50; x2f; x32; x2e; x30; x0d; x0a;
   x56; x69; x61; x3a; x20; x53; x49; x50; x2f; x32; x2e; x30;
   x2f; x55; x44; x50; x20; x6e; x6d; x3b; x62; x72; x61; x6e;
   x63; x68; x3d; x66; x6f; x6f; x0d; x0a; x46; x72; x6f; x6d;
   x3a; x20; x3c; x73; x69; x70; x3a; x6e; x6d; x40; x6e; x6d;
   x3e; x3b; x74; x61; x67; x3d; x72; x6f; x6f; x74; x0d; x0a;
   x54; x6f; x3a; x20; x3c; x73; x69; x70; x3a; x6e; x6d; x32;
   x40; x6e; x6d; x32; x3e; x0d; x0a; x43; x61; x6c; x6c; x2d;
   x49; x44; x3a; x20; x35; x30; x30; x30; x30; x0d; x0a; x43;
   x53; x65; x71; x3a; x20; x34; x32; x20; x4f; x50; x54; x49;
   x4f; x4e; x53; x0d; x0a; x4d; x61; x78; x2d; x46; x6f; x72;
   x77; x61; x72; x64; x73; x3a; x20; x37; x30; x0d; x0a; x43;
   x6f; x6e; x74; x65; x6e; x74; x2d; x4c; x65; x6e; x67; x74;
   x68; x3a; x20; x30; x0d; x0a; x0d; x0a; x00].

Definition empty_probe : list byte :=
  [x00].

Definition udp_probes : list udp_probe_t :=
  [ mk_probe 53 (Some "DNS") dns_probe (sizeof dns_probe)
      (Some "DNS response");
    mk_probe 123 (Some "NTP") ntp_probe (sizeof ntp_probe)
      (Some "NTP response");
    mk_probe 161 (Some "SNMP") snmp_probe (sizeof snmp_probe)
      (Some "SNMP response");
    mk_probe 67 (Some "DHCP") dhcp_probe (sizeof dhcp_probe)
      (Some "DHCP response");
    mk_probe 68 (Some "DHCP") dhcp_probe (sizeof dhcp_probe)
      (Some "DHCP response");
    mk_probe 137 (Some "NetBIOS") netbios_probe (sizeof netbios_probe)
      (Some "NetBIOS response");
    mk_probe 138 (Some "NetBIOS") netbios_probe (sizeof netbios_probe)
      (Some "NetBIOS response");
    mk_probe 5060 (Some "SIP") sip_probe (strlen sip_probe)
      (Some "SIP response");
    mk_probe 69 (Some "TFTP") empty_probe 0 (Some "TFTP response");
    mk_probe 514 (Some "Syslog") empty_probe 0 (Some "Syslog response");
    mk_probe 520 (Some "RIP") empty_probe 0 (Some "RIP response");
    mk_probe 1900 (Some "SSDP") empty_probe 0 (Some "SSDP response");
    mk_probe 0 None [] 0 None ].

End Basic.

(** Payloads and protocol database of [udp_scanner_extended.c]. *)
Module Extended.

Definition echo_probe : list byte :=
  [x0d; x0a; x0d; x0a; x00].

Definition dns_status_probe : list byte :=
  [x00; x00; x10; x00; x00; x00; x00; x00; x00; x00; x00; x00].

Definition dns_version_probe : list byte :=
  [x00; x00; x01; x00; x00; x01; x00; x00; x00; x00; x00; x00;
   x07; x76; x65; x72; x73; x69; x6f; x6e; x04; x62; x69; x6e;
   x64; x00; x00; x10; x00; x03].

Definition tftp_probe : list byte :=
  [x00; x01; x6e; x65; x74; x61; x73; x63; x69; x69; x00; x6f;
   x63; x74; x65; x74; x00; x00].

Definition rpc_probe : list byte :=
  [x72; xfe; x1d; x13; x00; x00; x00; x00; x00; x00; x00; x02;
   x00; x01; x86; xa0; x00; x01; x97; x7c; x00; x00; x00; x00;
   x00; x00; x00; x00; x00; x00; x00; x00; x00; x00; x00; x00;
   x00; x00; x00; x00].

Definition ntp_probe : list byte :=
  [xe3; x00; x04; xfa; x00; x01; x00; x00; x00; x01; x00; x00;
   x00; x00; x00; x00; x00; x00; x00; x00; x00; x00; x00; x00;
   x00; x00; x00; x00; x00; x00; x00; x00; x00; x00; x00; x00;
   x00; x00; x00; x00; xc5; x4f; x23; x4b; x71; xb1; x52; xf3].

Definition snmp_v1_probe : list byte :=
  [x30; x26; x02; x01; x00; x04; x06; x70; x75; x62; x6c; x69;
   x63; xa0; x19; x02; x04; x00; x00; x00; x01; x02; x01; x00;
   x02; x01; x00; x30; x0b; x30; x09; x06; x05; x2b; x06; x01;
   x02; x01; x05; x00].

Definition snmp_v3_probe : list byte :=
  [x30; x3a; x02; x01; x03; x30; x0f; x02; x02; x4a; x69; x02;
   x03; x00; xff; xe3; x04; x01; x04; x02; x01; x03; x04; x10;
   x30; x0e; x04; x00; x02; x01; x00; x02; x01; x00; x04; x00;
   x04; x00; x04; x00; x30; x12; x04; x00; x04; x00; xa0; x0c;
   x02; x02; x37; xf0; x02; x01; x00; x02; x01; x00; x30; x00].

Definition netbios_probe : list byte :=
  [x80; xf0; x00; x10; x00; x01; x00; x00; x00; x00; x00; x00;
   x20; x43; x4b; x41; x41; x41; x41; x41; x41; x41; x41; x41;
   x41; x41; x41; x41; x41; x41; x41; x41; x41; x41; x41; x41;
   x41; x41; x41; x41; x41; x41; x41; x41; x41; x00; x00; x21;
   x00; x01].

Definition dhcp_probe : list byte :=
  [x01; x01; x06; x00; x01; x23; x45; x67; x00; x00; x00; x00;
   xff; xff; xff; xff; x00; x00; x00; x00; x00; x00; x00; x00;
   x00; x00; x00; x00; x00; x0e; x35; xd4; xd8; x51; x00; x00;
   x00; x00; x00; x00; x00; x00; x00; x00; x00; x00; x00; x00;
   x00; x00; x00; x00; x00; x00; x00; x00; x00; x00; x00; x00;
   x00; x00; x00; x00; x00; x00; x00; x00; x00; x00; x00; x00;
   x00; x00; x00; x00; x00; x00; x00; x00; x00; x00; x00; x00;
   x00; x00; x00; x00; x00; x00; x00; x00; x00; x00; x00; x00;
   x00; x00; x00; x00; x00; x00; x00; x00; x00; x00; x00; x00;
   x00; x00; x00; x00; x00; x00; x00; x00; x00; x00; x00; x00;
   x00; x00; x00; x00; x00; x00; x00; x00; x00; x00; x00; x00;
   x00; x00; x00; x00; x00; x00; x00; x00; x00; x00; x00; x00;
   x00; x00; x00; x00; x00; x00; x00; x00; x00; x00; x00; x00;
   x00; x00; x00; x00; x00; x00; x00; x00; x00; x00; x00; x00;
   x00; x00; x00; x00; x00; x00; x00; x00; x00; x00; x00; x00;
   x00; x00; x00; x00; x00; x00; x00; x00; x00; x00; x00; x00;
   x00; x00; x00; x00; x00; x00; x00; x00; x00; x00; x00; x00;
   x00; x00; x00; x00; x00; x00; x00; x00; x00; x00; x00; x00;
   x00; x00; x00; x00; x00; x00; x00; x00; x00; x00; x00; x00;
   x00; x00; x00; x00; x63; x82; x53; x63; x35; x01; x08; xff].

Definition xdmcp_probe : list byte :=
  [x00; x01; x00; x02; x00; x01; x00; x00].

Definition cldap_probe : list byte :=
  [x30; x84; x00; x00; x00; x2d; x02; x01; x07; x63; x84; x00;
   x00; x00; x24; x04; x00; x0a; x01; x00; x0a; x01; x00; x02;
   x01; x00; x02; x01; x64; x01; x01; x00; x87; x0b; x6f; x62;
   x6a; x65; x63; x74; x43; x6c; x61; x73; x73; x30; x84; x00;
   x00; x00; x00].

Definition slp_probe : list byte :=
  [x02; x01; x00; x00; x36; x20; x00; x00; x00; x00; x00; x01;
   x00; x02; x65; x6e; x00; x00; x00; x15; x73; x65; x72; x76;
   x69; x63; x65; x3a; x73; x65; x72; x76; x69; x63; x65; x2d;
   x61; x67; x65; x6e; x74; x00; x07; x64; x65; x66; x61; x75;
   x6c; x74; x00; x00; x00; x00].

Definition dtls_probe : list byte :=
  [x16; xfe; xff; x00; x00; x00; x00; x00; x00; x00; x00; x00;
   x36; x01; x00; x00; x2a; x00; x00; x00; x00; x00; x00; x00;
   x2a; xfe; xfd; x00; x00; x00; x00; x7c; x77; x40; x1e; x8a;
   xc8; x22; xa0; xa0; x18; xff; x93; x08; xca; xac; x0a; x64;
   x2f; xc9; x22; x64; xbc; x08; xa8; x16; x89; x19; x3f; x00;
   x00; x00; x02; x00; x2f; x01; x00].

Definition ike_probe : list byte :=
  [x00; x11; x22; x33; x44; x55; x66; x77; x00; x00; x00; x00;
   x00; x00; x00; x00; x01; x10; x02; x00; x00; x00; x00; x00;
   x00; x00; x00; xc0; x00; x00; x00; xa4; x00; x00; x00; x01;
   x00; x00; x00; x01; x00; x00; x00; x98; x01; x01; x00; x04;
   x03; x00; x00; x24; x01; x01; x00; x00; x80; x01; x00; x05;
   x80; x02; x00; x02; x80; x03; x00; x01; x80; x04; x00; x02;
   x80; x0b; x00; x01; x00; x0c; x00; x04; x00; x00; x0e; x10].

Definition rip_probe : list byte :=
  [x01; x01; x00; x00; x00; x00; x00; x00; x00; x00; x00; x00;
   x00; x00; x00; x00; x00; x00; x00; x00; x00; x00; x00; x10].

Definition ipmi_probe : list byte :=
  [x06; x00; xff; x06; x00; x00; x11; xbe; x80; x00; x00; x00].

Definition openvpn_probe : list byte :=
  [x38; x01; x02; x03; x04; x05; x06; x07; x08; x00; x00; x00;
   x00; x00].

Definition citrix_probe : list byte :=
  [x1e; x00; x01; x30; x02; xfd; xa8; xe3; x00; x00; x00; x00;
   x00; x00; x00; x00; x00; x00; x00; x00; x00; x00; x00; x00;
   x00; x00; x00; x00; x00; x00].

Definition radius_probe : list byte :=
  [x01; x00; x00; x14; x00; x00; x00; x00; x00; x00; x00; x00;
   x00; x00; x00; x00; x00; x00; x00; x00].

Definition l2tp_probe : list byte :=
  [xc8; x02; x00; x3c; x00; x00; x00; x00; x00; x00; x00; x00;
   x80; x08; x00; x00; x00; x00; x00; x01; x80; x08; x00; x00;
   x00; x02; x01; x00; x80; x0e; x00; x00; x00; x07; x6e; x78;
   x70; x2d; x73; x63; x61; x6e; x80; x0a; x00; x00; x00; x03;
   x00; x00; x00; x03; x80; x08; x00; x00; x00; x09; x00; x00].

Definition ssdp_probe : list byte :=
  [x4d; x2d; x53; x45; x41; x52; x43; x48; x20; x2a; x20; x48;
   x54; x54; x50; x2f; x31; x2e; x31; x0d; x0a; x48; x6f; x73;
   x74; x3a; x20; x32; x33; x39; x2e; x32; x35; x35; x2e; x32;
   x35; x35; x2e; x32; x35; x30; x3a; x31; x39; x30; x30; x0d;
   x0a; x4d; x61; x6e; x3a; x20; x22; x73; x73; x64; x70; x3a;
   x64; x69; x73; x63; x6f; x76; x65; x72; x22; x0d; x0a; x4d;
   x58; x3a; x20; x35; x0d; x0a; x53; x54; x3a; x20; x73; x73;
   x64; x70; x3a; x61; x6c; x6c; x0d; x0a; x0d; x0a; x00].

Definition nfs_probe : list byte :=
  [x00; x00; x00; x00; x00; x00; x00; x00; x00; x00; x00; x02;
   x00; x01; x86; xa3; x00; x00; x00; x02; x00; x00; x00; x00;
   x00; x00; x00; x00; x00; x00; x00; x00; x00; x00; x00; x00;
   x00; x00; x00; x00].

Definition gtp_probe : list byte :=
  [x32; x01; x00; x04; x00; x00; x42; x00; x13; x37; x00; x00;
   x00].

Definition stun_probe : list byte :=
  [x00; x01; x00; x00; x21; x12; xa4; x42; x00; x00; x00; x00;
   x00; x00; x00; x00; x00; x00; x00; x00].

Definition natpmp_probe : list byte :=
  [x00; x00; x00].

Definition mdns_probe : list byte :=
  [x00; x00; x00; x00; x00; x01; x00; x00; x00; x00; x00; x00;
   x09; x5f; x73; x65; x72; x76; x69; x63; x65; x73; x07; x5f;
   x64; x6e; x73; x2d; x73; x64; x04; x5f; x75; x64; x70; x05;
   x6c; x6f; x63; x61; x6c; x00; x00; x0c; x00; x01].

Definition coap_probe : list byte :=
  [x40; x01; x01; xce; xbb; x2e; x77; x65; x6c; x6c; x2d; x6b;
   x6e; x6f; x77; x6e; x04; x63; x6f; x72; x65; x00].

Definition memcached_probe : list byte :=
  [x00; x01; x00; x00; x00; x01; x00; x00; x76; x65; x72; x73;
   x69; x6f; x6e; x0d; x0a; x00].

Definition quake3_probe : list byte :=
  [xff; xff; xff; xff; x67; x65; x74; x73; x74; x61; x74; x75;
   x73; x00].

Definition steam_probe : list byte :=
  [xff; xff; xff; xff; x54; x53; x6f; x75; x72; x63; x65; x20;
   x45; x6e; x67; x69; x6e; x65; x20; x51; x75; x65; x72; x79;
   x00; x00].

Definition sip_probe : list byte :=
  [x4f; x50; x54; x49; x4f; x4e; x53; x20; x73; x69; x70; x3a;
   x6e; x6d; x20; x53; x49; x50; x2f; x32; x2e; x30; x0d; x0a;
   x56; x69; x61; x3a; x20; x53; x49; x50; x2f; x32; x2e; x30;
   x2f; x55; x44; x50; x20; x6e; x6d; x3b; x62; x72; x61; x6e;
   x63; x68; x3d; x66; x6f; x6f; x0d; x0a; x46; x72; x6f; x6d;
   x3a; x20; x3c; x73; x69; x70; x3a; x6e; x6d; x40; x6e; x6d;
   x3e; x3b; x74; x61; x67; x3d; x72; x6f; x6f; x74; x0d; x0a;
   x54; x6f; x3a; x20; x3c; x73; x69; x70; x3a; x6e; x6d; x32;
   x40; x6e; x6d; x32; x3e; x0d; x0a; x43; x61; x6c; x6c; x2d;
   x49; x44; x3a; x20; x35; x30; x30; x30; x30; x0d; x0a; x43;
   x53; x65; x71; x3a; x20; x34; x32; x20; x4f; x50; x54; x49;
   x4f; x4e; x53; x0d; x0a; x4d; x61; x78; x2d; x46; x6f; x72;
   x77; x61; x72; x64; x73; x3a; x20; x37; x30; x0d; x0a; x43;
   x6f; x6e; x74; x65; x6e; x74; x2d; x4c; x65; x6e; x67; x74;
   x68; x3a; x20; x30; x0d; x0a; x0d; x0a; x00].

Definition vxworks_probe : list byte :=
  [x00; x00; x00; x00; x00; x00; x00; x00; x00; x00; x00; x02;
   x55; x55; x55; x55; x00; x00; x00; x01; x00; x00; x00; x00;
   x00; x00; x00; x00; x00; x00; x00; x00; x00; x00; x00; x00;
   x00; x00; x00; x00; xff; xff; x55; x13; x00; x00; x00; x30;
   x00; x00; x00; x01; x00; x00; x00; x02; x00; x00; x00; x00;
   x00; x00; x00; x00].

Definition kad_probe : list byte :=
  [xe4; x60; x00].

Definition dcerpc_probe : list byte :=
  [x05; x00; x0b; x03; x10; x00; x00; x00; x48; x00; x00; x00;
   x01; x00; x00; x00; xb8; x10; xb8; x10; x00; x00; x00; x00;
   x01; x00; x00; x00; x00; x00; x01; x00; x01; x23; x45; x67;
   x89; xab; xcd; xef; x01; x23; x45; x67; x89; xab; xcd; xef;
   xe7; x03; x00; x00; xfe; xdc; xba; x98; x76; x54; x32; x10;
   x01; x23; x45; x67; x89; xab; xcd; xef; xe7; x03; x00; x00].

Definition empty_probe : list byte :=
  [x00].

Definition udp_probes : list udp_probe_t :=
  [ mk_probe 7 (Some "Echo") echo_probe (sizeof echo_probe - 1)
      (Some "RFC 862");
    mk_probe 53 (Some "DNS") dns_status_probe (sizeof dns_status_probe)
      (Some "RFC 1035");
    mk_probe 53 (Some "DNS") dns_version_probe (sizeof dns_version_probe)
      (Some "RFC 1035");
    mk_probe 67 (Some "DHCP Server") dhcp_probe (sizeof dhcp_probe)
      (Some "RFC 2131");
    mk_probe 68 (Some "DHCP Client") dhcp_probe (sizeof dhcp_probe)
      (Some "RFC 2131");
    mk_probe 69 (Some "TFTP") tftp_probe (sizeof tftp_probe - 1)
      (Some "RFC 1350");
    mk_probe 111 (Some "RPC/Portmap") rpc_probe (sizeof rpc_probe)
      (Some "RFC 1831");
    mk_probe 123 (Some "NTP") ntp_probe (sizeof ntp_probe) (Some "RFC 5905");
    mk_probe 135 (Some "MS-RPC") dcerpc_probe (sizeof dcerpc_probe)
      (Some "MS-RPC");
    mk_probe 137 (Some "NetBIOS-NS") netbios_probe (sizeof netbios_probe)
      (Some "RFC 1002");
    mk_probe 138 (Some "NetBIOS-DGM") netbios_probe (sizeof netbios_probe)
      (Some "RFC 1002");
    mk_probe 161 (Some "SNMP") snmp_v1_probe (sizeof snmp_v1_probe)
      (Some "RFC 1157");
    mk_probe 162 (Some "SNMP Trap") snmp_v1_probe (sizeof snmp_v1_probe)
      (Some "RFC 1157");
    mk_probe 177 (Some "XDMCP") xdmcp_probe (sizeof xdmcp_probe - 1)
      (Some "X11");
    mk_probe 389 (Some "CLDAP") cldap_probe (sizeof cldap_probe)
      (Some "RFC 1798");
    mk_probe 427 (Some "SLP") slp_probe (sizeof slp_probe) (Some "RFC 2608");
    mk_probe 443 (Some "DTLS") dtls_probe (sizeof dtls_probe)
      (Some "RFC 6347");
    mk_probe 500 (Some "IKE/IPSec") ike_probe (sizeof ike_probe)
      (Some "RFC 2409");
    mk_probe 514 (Some "Syslog") empty_probe 0 (Some "RFC 5424");
    mk_probe 520 (Some "RIP") rip_probe (sizeof rip_probe) (Some "RFC 2453");
    mk_probe 623 (Some "IPMI") ipmi_probe (sizeof ipmi_probe) (Some "IPMI");
    mk_probe 1194 (Some "OpenVPN") openvpn_probe (sizeof openvpn_probe - 1)
      (Some "OpenVPN");
    mk_probe 1604 (Some "Citrix") citrix_probe (sizeof citrix_probe)
      (Some "Citrix ICA");
    mk_probe 1645 (Some "RADIUS") radius_probe (sizeof radius_probe)
      (Some "RFC 2865");
    mk_probe 1701 (Some "L2TP") l2tp_probe (sizeof l2tp_probe)
      (Some "RFC 2661");
    mk_probe 1812 (Some "RADIUS") radius_probe (sizeof radius_probe)
      (Some "RFC 2865");
    mk_probe 1900 (Some "SSDP/UPnP") ssdp_probe (strlen ssdp_probe)
      (Some "UPnP");
    mk_probe 2049 (Some "NFS") nfs_probe (sizeof nfs_probe) (Some "RFC 1094");
    mk_probe 2123 (Some "GTP-C") gtp_probe (sizeof gtp_probe - 1)
      (Some "3GPP");
    mk_probe 2152 (Some "GTP-U") gtp_probe (sizeof gtp_probe - 1)
      (Some "3GPP");
    mk_probe 3478 (Some "STUN") stun_probe (sizeof stun_probe)
      (Some "RFC 5389");
    mk_probe 3784 (Some "Ventrilo") empty_probe 0 (Some "Ventrilo");
    mk_probe 4500 (Some "IPSec NAT-T") ike_probe (sizeof ike_probe)
      (Some "RFC 3947");
    mk_probe 4665 (Some "eDonkey") kad_probe (sizeof kad_probe - 1)
      (Some "Kademlia");
    mk_probe 5060 (Some "SIP") sip_probe (strlen sip_probe) (Some "RFC 3261");
    mk_probe 5351 (Some "NAT-PMP") natpmp_probe (sizeof natpmp_probe - 1)
      (Some "NAT-PMP");
    mk_probe 5353 (Some "mDNS") mdns_probe (sizeof mdns_probe)
      (Some "RFC 6762");
    mk_probe 5683 (Some "CoAP") coap_probe (sizeof coap_probe - 1)
      (Some "RFC 7252");
    mk_probe 6481 (Some "STDiscovery") empty_probe 0 (Some "Sun ST");
    mk_probe 8767 (Some "TeamSpeak2") empty_probe 0 (Some "TeamSpeak");
    mk_probe 9987 (Some "TeamSpeak3") empty_probe 0 (Some "TeamSpeak");
    mk_probe 10080 (Some "Amanda") empty_probe 0 (Some "Amanda");
    mk_probe 11211 (Some "Memcached") memcached_probe
      (sizeof memcached_probe - 1) (Some "Memcached");
    mk_probe 17185 (Some "VxWorks") vxworks_probe (sizeof vxworks_probe)
      (Some "VxWorks");
    mk_probe 26000 (Some "Quake3") quake3_probe (sizeof quake3_probe - 1)
      (Some "Quake");
    mk_probe 27015 (Some "Steam") steam_probe (sizeof steam_probe - 1)
      (Some "Source");
    mk_probe 27960 (Some "Quake3") quake3_probe (sizeof quake3_probe - 1)
      (Some "Quake");
    mk_probe 64738 (Some "Mumble") empty_probe 0 (Some "Mumble");
    mk_probe 0 None [] 0 None ].

End Extended.


(** ** The two programs *)

Inductive program := udp_scanner | udp_scanner_extended.

Definition udp_probes (prog : program) : list udp_probe_t :=
  match prog with
  | udp_scanner => Basic.udp_probes
  | udp_scanner_extended => Extended.udp_probes
  end.

Definition empty_probe (prog : program) : list byte :=
  match prog with
  | udp_scanner => Basic.empty_probe
  | udp_scanner_extended => Extended.empty_probe
  end.

(** ** Scanner state *)

(** [scan_stats_t].  The counters are C [int]s; a run adds at most two to
    a counter per port and scans at most 65535 ports, so they are kept as
    unbounded integers.  The fields [start_time] and [end_time] are written
    by [gettimeofday] alone and read by [print_statistics] alone: they are
    not kept in the record, their content is read off the log of system
    calls ([stored_time]). *)
Record scan_stats_t := mk_stats {
  total_ports : Z;
  open_ports : Z;
  closed_ports : Z;
  filtered_ports : Z
}.

(** [struct timeval]; both fields are [long]. *)
Record timeval := mk_timeval {
  tv_sec : Z;
  tv_usec : Z
}.

(** The two [struct timeval] fields of [stats]. *)
Inductive time_field := start_time | end_time.

Inductive sock_type := SOCK_DGRAM | SOCK_RAW.

(** The system calls the scanner issues, with the arguments that matter. *)
Inductive syscall :=
| sys_socket (ty : sock_type)
| sys_sendto (sockfd : Z) (target_ip : string) (port : Z) (data : list byte)
| sys_select (udp_sock icmp_sock : Z) (tv_sec tv_usec : Z)
| sys_recvfrom (sockfd : Z)
| sys_close (fd : Z)
| sys_usleep (usec : Z)
| sys_geteuid
| sys_gettimeofday (field : time_field).

(** The state a run threads through: the global [stats], one entry per
    [printf] call ([stdout]) and per [perror] / [fprintf(stderr, ...)] call
    ([stderr]), and the system calls issued so far.  The three logs are
    kept most recent first. *)
Record state := mk_state {
  stats : scan_stats_t;
  stdout : list string;
  stderr : list string;
  calls : list syscall
}.

Definition initial_state : state := mk_state (mk_stats 0 0 0 0) [] [] [].

(** ** The operating system as an oracle *)

(** What [select] reports: its return value and, for a positive return
    value, which of the two descriptors is left set in [readfds]. *)
Record select_result := mk_select {
  sel_ret : Z;
  udp_ready : bool;
  icmp_ready : bool
}.

(** What [recvfrom] delivers: an error (return value -1) or one datagram. *)
Inductive recv_result :=
| recv_error
| recv_datagram (d : list byte).

(** The results of the system calls, by position: [os_socket k ty] is what
    the [k]-th call of [socket] returns when it asks for a socket of type
    [ty], [os_sendto k] and [os_select k] what the [k]-th [sendto] and
    [select] return; [os_recv_udp k] and [os_recv_icmp k] are what a
    [recvfrom] on the UDP, respectively raw, socket delivers after the
    [k]-th [select]
    ([receive_response] reads each socket at most once per [select]);
    [os_stack k] is the indeterminate content of the local [buffer] of that
    call of [receive_response]; [os_gettimeofday k] is the time the [k]-th
    call of [gettimeofday] stores. *)
Record OS := mk_os {
  os_geteuid : Z;
  os_socket : nat -> sock_type -> Z;
  os_sendto : nat -> Z;
  os_select : nat -> select_result;
  os_recv_udp : nat -> recv_result;
  os_recv_icmp : nat -> recv_result;
  os_stack : nat -> nat -> byte;
  os_gettimeofday : nat -> timeval
}.

Fixpoint count_socket (cs : list syscall) : nat :=
  match cs with
  | [] => O
  | sys_socket _ :: rest => S (count_socket rest)
  | _ :: rest => count_socket rest
  end.

Fixpoint count_sendto (cs : list syscall) : nat :=
  match cs with
  | [] => O
  | sys_sendto _ _ _ _ :: rest => S (count_sendto rest)
  | _ :: rest => count_sendto rest
  end.

Fixpoint count_select (cs : list syscall) : nat :=
  match cs with
  | [] => O
  | sys_select _ _ _ _ :: rest => S (count_select rest)
  | _ :: rest => count_select rest
  end.

Fixpoint count_gettimeofday (cs : list syscall) : nat :=
  match cs with
  | [] => O
  | sys_gettimeofday _ :: rest => S (count_gettimeofday rest)
  | _ :: rest => count_gettimeofday rest
  end.

(** ** A state monad for the scanner *)

Definition M (A : Type) : Type := state -> A * state.

Definition ret {A : Type} (a : A) : M A := fun s => (a, s).

Definition bind {A B : Type} (m : M A) (k : A -> M B) : M B :=
  fun s => k (fst (m s)) (snd (m s)).

Declare Scope scan_scope.
Delimit Scope scan_scope with scan.
Notation "x <- m ;; k" := (bind m (fun x => k))
  (at level 61, m at next level, right associativity) : scan_scope.
Notation "m ;; k" := (bind m (fun _ => k))
  (at level 61, right associativity) : scan_scope.
Local Open Scope scan_scope.

Definition set_stats (f : scan_stats_t -> scan_stats_t) : M unit :=
  fun s => (tt, mk_state (f (stats s)) (stdout s) (stderr s) (calls s)).

Definition printf (text : string) : M unit :=
  fun s => (tt, mk_state (stats s) (text :: stdout s) (stderr s) (calls s)).

Definition eprintf (text : string) : M unit :=
  fun s => (tt, mk_state (stats s) (stdout s) (text :: stderr s) (calls s)).

Definition issue (c : syscall) : M unit :=
  fun s => (tt, mk_state (stats s) (stdout s) (stderr s) (c :: calls s)).

(** [printf] conversions. *)
Definition fmt_d (z : Z) : string := NilZero.string_of_int (Z.to_int z).
Definition nl : string := String (ascii_of_nat 10) EmptyString.

(** *** Doubles *)

(** A C [double] is a binary64 number and is kept as one.  [s64] is the
    range of a [long]; [to_double] is the conversion of an [int] or a
    [long] to [double], which rounds to nearest. *)
Definition s64 (z : Z) : Z := (z + 2 ^ 63) mod 2 ^ 64 - 2 ^ 63.

Definition to_double (z : Z) : float :=
  let magnitude :=
    if Z.abs z <? 2 ^ 63 then of_uint63 (Uint63.of_Z (Z.abs z))
    else 0x1p63%float in
  if z <? 0 then PrimFloat.opp magnitude else magnitude.

(** [num / den] to the nearest integer, a tie going to the even one. *)
Definition round_half_even (num den : Z) : Z :=
  let q := num / den in
  let r := num mod den in
  if 2 * r <? den then q
  else if den <? 2 * r then q + 1
  else if Z.even q then q else q + 1.

Definition two_digits (z : Z) : string :=
  (if z <? 10 then "0" else "") ++ fmt_d z.

(** [%.2f]: the exact value [m * 2 ^ e] of the double rounded to
    hundredths, ties to even, as glibc prints it; an infinity prints as
    [inf], and a NaN, which here can only be the quotient 0/0, as [-nan]
    (the sign x86-64 gives that quotient). *)
Definition fmt_f (x : float) : string :=
  match Prim2SF x with
  | S754_nan => "-nan"
  | S754_infinity s => if s then "-inf" else "inf"
  | S754_zero s => if s then "-0.00" else "0.00"
  | S754_finite s m e =>
      let hundredths :=
        if 0 <=? e then Z.pos m * 2 ^ e * 100
        else round_half_even (Z.pos m * 100) (2 ^ (- e)) in
      (if s then "-" else "")
        ++ fmt_d (hundredths / 100) ++ "." ++ two_digits (hundredths mod 100)
  end.

(** [s ? s : dflt] on a C string. *)
Definition or_default (s : option string) (dflt : string) : string :=
  match s with Some x => x | None => dflt end.

(** ** The scanner *)

Section Scanner.

Variable prog : program.
Variable os : OS.

(** [atoi] of the C library. *)
Variable atoi : string -> Z.

(** *** System calls *)

Definition socket (ty : sock_type) : M Z :=
  fun s => (os_socket os (count_socket (calls s)) ty,
            snd (issue (sys_socket ty) s)).

Definition sendto (sockfd : Z) (target_ip : string) (port : Z)
    (data : list byte) : M Z :=
  fun s => (os_sendto os (count_sendto (calls s)),
            snd (issue (sys_sendto sockfd target_ip port data) s)).

Definition select (udp_sock icmp_sock tv_sec tv_usec : Z) : M select_result :=
  fun s => (os_select os (count_select (calls s)),
            snd (issue (sys_select udp_sock icmp_sock tv_sec tv_usec) s)).

(** The [select] call a [recvfrom] follows. *)
Definition last_select (s : state) : nat := Nat.pred (count_select (calls s)).

Definition recvfrom_udp (sockfd : Z) : M recv_result :=
  fun s => (os_recv_udp os (last_select s),
            snd (issue (sys_recvfrom sockfd) s)).

Definition recvfrom_icmp (sockfd : Z) : M recv_result :=
  fun s => (os_recv_icmp os (last_select s),
            snd (issue (sys_recvfrom sockfd) s)).

Definition close (fd : Z) : M unit := issue (sys_close fd).
Definition usleep (usec : Z) : M unit := issue (sys_usleep usec).
Definition gettimeofday (field : time_field) : M unit :=
  issue (sys_gettimeofday field).

(** [stats.start_time] and [stats.end_time] as the calls logged so far
    leave them: what the last [gettimeofday] into the field stored, and
    zero, from [stats = {0}], before the first. *)
Fixpoint stored_time (field : time_field) (cs : list syscall) : timeval :=
  match cs with
  | [] => mk_timeval 0 0
  | sys_gettimeofday f :: rest =>
      match field, f with
      | start_time, start_time | end_time, end_time =>
          os_gettimeofday os (count_gettimeofday rest)
      | _, _ => stored_time field rest
      end
  | _ :: rest => stored_time field rest
  end.

Definition read_time (field : time_field) : M timeval :=
  fun s => (stored_time field (calls s), s).
Definition geteuid : M Z :=
  fun s => (os_geteuid os, snd (issue sys_geteuid s)).

(** The return value [n] of [recvfrom] into a buffer of [MAX_PACKET_SIZE]
    bytes. *)
Definition recv_len (r : recv_result) : Z :=
  match r with
  | recv_error => -1
  | recv_datagram d => Z.min (sizeof d) MAX_PACKET_SIZE
  end.

(** [buffer[i]] after a [recvfrom] that returned [r]: a byte of the
    datagram below the length received, otherwise what the stack held. *)
Definition buffer_at (r : recv_result) (garbage : nat -> byte) (i : Z) : Z :=
  let stale := garbage (Z.to_nat i) in
  Z.of_N (Byte.to_N
    match r with
    | recv_error => stale
    | recv_datagram d =>
        if i <? recv_len r then nth (Z.to_nat i) d stale else stale
    end).

(** [perror] writes its argument and the text for [errno] on stderr; only
    udp_scanner.c calls it. *)
Definition perror (msg : string) : M unit :=
  match prog with
  | udp_scanner => eprintf msg
  | udp_scanner_extended => ret tt
  end.

(** [htons] keeps the low 16 bits of its argument. *)
Definition htons (port : Z) : Z := port mod 65536.

(** *** The per-port output lines *)

Definition line_open_filtered (port : Z) (service_name rfc : option string)
    : string :=
  match prog with
  | udp_scanner =>
      "[OPEN|FILTERED] Port " ++ fmt_d port ++ "/udp "
        ++ or_default service_name "unknown" ++ " (no response)" ++ nl
  | udp_scanner_extended =>
      "[OPEN|FILTERED] Port " ++ fmt_d port ++ "/udp "
        ++ or_default service_name "unknown"
        ++ " (" ++ or_default rfc "" ++ ")" ++ nl
  end.

Definition line_open (port : Z) (service_name rfc : option string) (n : Z)
    : string :=
  match prog with
  | udp_scanner =>
      "[OPEN] Port " ++ fmt_d port ++ "/udp "
        ++ or_default service_name "unknown"
        ++ " (service responded: " ++ fmt_d n ++ " bytes)" ++ nl
  | udp_scanner_extended =>
      "[OPEN] Port " ++ fmt_d port ++ "/udp "
        ++ or_default service_name "unknown"
        ++ " (" ++ or_default rfc "" ++ ") - " ++ fmt_d n ++ " bytes" ++ nl
  end.

Definition line_closed (port : Z) : string :=
  match prog with
  | udp_scanner =>
      "[CLOSED] Port " ++ fmt_d port ++ "/udp (ICMP port unreachable)" ++ nl
  | udp_scanner_extended =>
      "[CLOSED] Port " ++ fmt_d port ++ "/udp" ++ nl
  end.

Definition line_filtered (port icmp_type icmp_code : Z) : string :=
  match prog with
  | udp_scanner =>
      "[FILTERED] Port " ++ fmt_d port ++ "/udp (ICMP unreachable type "
        ++ fmt_d icmp_type ++ ", code " ++ fmt_d icmp_code ++ ")" ++ nl
  | udp_scanner_extended =>
      "[FILTERED] Port " ++ fmt_d port ++ "/udp (ICMP code "
        ++ fmt_d icmp_code ++ ")" ++ nl
  end.

(** *** [get_probe_for_port] *)

(** The walk stops at the first entry whose [service_name] is [NULL]. *)
Fixpoint find_probe (table : list udp_probe_t) (port : Z)
    : option udp_probe_t :=
  match table with
  | [] => None
  | e :: rest =>
      match service_name e with
      | None => None
      | Some _ => if port_of e =? port then Some e else find_probe rest port
      end
  end.

Definition get_probe_for_port (port : Z) : option udp_probe_t :=
  find_probe (udp_probes prog) port.

(** *** [send_udp_probe] *)

Definition send_udp_probe (sockfd : Z) (target_ip : string) (port : Z)
    (payload : list byte) (payload_len : Z) : M Z :=
  r <- (if payload_len >? 0
        then sendto sockfd target_ip (htons port)
               (firstn (Z.to_nat payload_len) payload)
        else sendto sockfd target_ip (htons port) []) ;;
  if r <? 0 then perror "sendto" ;; ret (-1)
  else ret 0.

(** *** [receive_response] *)

Definition incr_open (st : scan_stats_t) : scan_stats_t :=
  mk_stats (total_ports st) (open_ports st + 1) (closed_ports st)
    (filtered_ports st).

Definition incr_closed (st : scan_stats_t) : scan_stats_t :=
  mk_stats (total_ports st) (open_ports st) (closed_ports st + 1)
    (filtered_ports st).

Definition incr_filtered (st : scan_stats_t) : scan_stats_t :=
  mk_stats (total_ports st) (open_ports st) (closed_ports st)
    (filtered_ports st + 1).

Definition incr_total (st : scan_stats_t) : scan_stats_t :=
  mk_stats (total_ports st + 1) (open_ports st) (closed_ports st)
    (filtered_ports st).

(** [ip_hdr->ip_hl]: the low four bits of the first byte of the datagram. *)
Definition ip_hl (first_byte : Z) : Z := Z.land first_byte 15.

(** The first block: the UDP socket.  [Some v] stands for [return v]. *)
Definition check_udp (r : select_result) (udp_sock port : Z)
    (service_name rfc : option string) : M (option Z) :=
  if udp_ready r then
    d <- recvfrom_udp udp_sock ;;
    let n := recv_len d in
    if n >? 0 then
      printf (line_open port service_name rfc n) ;;
      set_stats incr_open ;;
      ret (Some 0)
    else ret None
  else ret None.

(** [buffer + (ip_hdr->ip_hl << 2)], as an index into [buffer]. *)
Definition icmp_hdr (buffer : Z -> Z) : Z := Z.shiftl (ip_hl (buffer 0)) 2.

(** [icmp_hdr->icmp_type] and [icmp_hdr->icmp_code]: the first two bytes of
    the ICMP header. *)
Definition icmp_type (buffer : Z -> Z) : Z := buffer (icmp_hdr buffer).
Definition icmp_code (buffer : Z -> Z) : Z := buffer (icmp_hdr buffer + 1).

(** The second block: the raw socket. *)
Definition check_icmp (r : select_result) (icmp_sock port : Z)
    : M (option Z) :=
  if icmp_ready r then
    garbage <- (fun s => (os_stack os (last_select s), s)) ;;
    d <- recvfrom_icmp icmp_sock ;;
    let n := recv_len d in
    if n >? 0 then
      let buffer := buffer_at d garbage in
      let icmp_type := icmp_type buffer in
      let icmp_code := icmp_code buffer in
      if icmp_type =? ICMP_UNREACH then
        if icmp_code =? ICMP_UNREACH_PORT then
          printf (line_closed port) ;;
          set_stats incr_closed ;;
          ret (Some 2)
        else
          printf (line_filtered port icmp_type icmp_code) ;;
          set_stats incr_filtered ;;
          ret (Some 3)
      else ret None
    else ret None
  else ret None.

Definition receive_response (udp_sock icmp_sock port : Z)
    (service_name rfc : option string) : M Z :=
  r <- select udp_sock icmp_sock TIMEOUT_SEC TIMEOUT_USEC ;;
  if sel_ret r <? 0 then
    perror "select" ;;
    ret (-1)
  else if sel_ret r =? 0 then
    printf (line_open_filtered port service_name rfc) ;;
    set_stats incr_filtered ;;
    ret 1
  else
    u <- check_udp r udp_sock port service_name rfc ;;
    match u with
    | Some v => ret v
    | None =>
        i <- check_icmp r icmp_sock port ;;
        match i with
        | Some v => ret v
        | None => ret (-1)
        end
    end.

(** *** [scan_udp_port] *)

(** The retry loop [for (int i = 0; i < MAX_RETRIES; i++)], by the number
    of iterations left.  The result says whether the loop left the function
    through the [return] of a failed send. *)
Fixpoint probe_loop (left : nat) (udp_sock icmp_sock : Z) (target_ip : string)
    (port : Z) (payload : list byte) (payload_len : Z)
    (service_name rfc : option string) : M bool :=
  match left with
  | O => ret false
  | S left' =>
      sent <- send_udp_probe udp_sock target_ip port payload payload_len ;;
      if sent <? 0 then
        close udp_sock ;;
        close icmp_sock ;;
        ret true
      else
        result <- receive_response udp_sock icmp_sock port service_name rfc ;;
        if (result =? 0) || (result =? 2) then ret false
        else probe_loop left' udp_sock icmp_sock target_ip port payload
               payload_len service_name rfc
  end.

Definition scan_udp_port (target_ip : string) (port : Z) : M unit :=
  udp_sock <- socket SOCK_DGRAM ;;
  if udp_sock <? 0 then
    perror "UDP socket creation failed"
  else
    icmp_sock <- socket SOCK_RAW ;;
    if icmp_sock <? 0 then
      perror "ICMP socket creation failed (need root)" ;;
      close udp_sock
    else
      let probe := get_probe_for_port port in
      let payload :=
        match probe with Some p => payload p | None => empty_probe prog end in
      let payload_len :=
        match probe with Some p => payload_len p | None => 0 end in
      let service_name :=
        match probe with Some p => service_name p | None => None end in
      let rfc :=
        match prog with
        | udp_scanner => None
        | udp_scanner_extended =>
            match probe with Some p => rfc_reference p | None => None end
        end in
      returned <- probe_loop MAX_RETRIES udp_sock icmp_sock target_ip port
                    payload payload_len service_name rfc ;;
      if returned then ret tt
      else
        close udp_sock ;;
        close icmp_sock.

(** *** [print_usage] and [print_statistics] *)

Definition print_usage (prog_name : string) : M unit :=
  match prog with
  | udp_scanner =>
      printf ("UDP Port Scanner with Protocol-Specific Probes" ++ nl) ;;
      printf ("Usage: " ++ prog_name ++ " <target_ip> <start_port> <end_port>"
                ++ nl) ;;
      printf (nl ++ "Examples:" ++ nl) ;;
      printf ("  " ++ prog_name
                ++ " 192.168.1.1 1 1000          # Scan ports 1-1000" ++ nl) ;;
      printf ("  " ++ prog_name
                ++ " 10.0.0.1 53 53              # Scan DNS port" ++ nl) ;;
      printf ("  " ++ prog_name
                ++ " 192.168.1.1 1 65535         # Full port scan" ++ nl) ;;
      printf (nl ++ "Note: Requires root/sudo for ICMP detection" ++ nl)
  | udp_scanner_extended =>
      printf ("Extended UDP Port Scanner with 50+ Protocol Probes" ++ nl) ;;
      printf ("Usage: " ++ prog_name ++ " <target_ip> <start_port> <end_port>"
                ++ nl) ;;
      printf (nl
                ++ "Supported Protocols: DNS, NTP, SNMP, DHCP, NetBIOS, SIP, RPC,"
                ++ nl) ;;
      printf ("  LDAP, IKE, RADIUS, L2TP, NFS, STUN, CoAP, mDNS, Memcached,"
                ++ nl) ;;
      printf ("  OpenVPN, Citrix, GTP, VxWorks, Quake, Steam, and more..."
                ++ nl) ;;
      printf (nl ++ "Note: Requires root/sudo for ICMP detection" ++ nl)
  end.

(** [elapsed]: the difference of the [tv_sec] fields plus the difference
    of the [tv_usec] fields over [1000000.0].  Both differences are taken
    on [long]s; the second is divided as a [double] and the first is
    converted for the sum. *)
Definition elapsed_between (start finish : timeval) : float :=
  (to_double (s64 (tv_sec finish - tv_sec start))
   + to_double (s64 (tv_usec finish - tv_usec start)) / 1000000.0)%float.

Definition print_statistics : M unit :=
  gettimeofday end_time ;;
  finish <- read_time end_time ;;
  start <- read_time start_time ;;
  let elapsed := elapsed_between start finish in
  printf (nl ++ "=== Scan Statistics ===" ++ nl) ;;
  st <- (fun s => (stats s, s)) ;;
  printf ("Total ports scanned: " ++ fmt_d (total_ports st) ++ nl) ;;
  printf ("Open ports: " ++ fmt_d (open_ports st) ++ nl) ;;
  printf ("Closed ports: " ++ fmt_d (closed_ports st) ++ nl) ;;
  printf ("Filtered/Open|Filtered: " ++ fmt_d (filtered_ports st) ++ nl) ;;
  printf ("Scan duration: " ++ fmt_f elapsed ++ " seconds" ++ nl) ;;
  printf ("Scan rate: "
            ++ fmt_f (to_double (total_ports st) / elapsed)%float
            ++ " ports/sec" ++ nl).

(** *** [main] *)

(** The scan loop [for (port = start_port; port <= end_port; port++)].
    [fuel] bounds the number of iterations; [main] supplies
    [end_port - start_port + 1], which the loop never exhausts before its
    own condition fails ([scan_ports_fuel]). *)
Fixpoint scan_ports (fuel : nat) (target_ip : string) (port end_port : Z)
    : M unit :=
  match fuel with
  | O => ret tt
  | S fuel' =>
      if port <=? end_port then
        scan_udp_port target_ip port ;;
        set_stats incr_total ;;
        usleep 10000 ;;
        scan_ports fuel' target_ip (port + 1) end_port
      else ret tt
  end.

Definition invalid_range (start_port end_port : Z) : bool :=
  (start_port <? 1) || (start_port >? 65535) ||
  (end_port <? 1) || (end_port >? 65535) ||
  (start_port >? end_port).

(** [argc] is the length of [argv]. *)
Definition main (argv : list string) : M Z :=
  if negb (Z.of_nat (List.length argv) =? 4) then
    print_usage (nth 0 argv "") ;;
    ret 1
  else
    let target_ip := nth 1 argv "" in
    let start_port := atoi (nth 2 argv "") in
    let end_port := atoi (nth 3 argv "") in
    if invalid_range start_port end_port then
      eprintf ("Error: Invalid port range (1-65535)" ++ nl) ;;
      ret 1
    else
      uid <- geteuid ;;
      (if negb (uid =? 0) then
         eprintf ("Warning: Not running as root. ICMP detection will fail."
                    ++ nl) ;;
         eprintf ("Run with sudo for accurate results." ++ nl ++ nl)
       else ret tt) ;;
      printf (match prog with
              | udp_scanner => "Starting UDP scan on "
              | udp_scanner_extended => "Starting Extended UDP Scan on "
              end ++ target_ip ++ nl) ;;
      printf ("Scanning ports " ++ fmt_d start_port ++ "-" ++ fmt_d end_port
                ++ nl) ;;
      printf (match prog with
              | udp_scanner =>
                  "Using protocol-specific probes for service detection"
              | udp_scanner_extended =>
                  "Using 50+ RFC-compliant protocol-specific probes"
              end ++ nl ++ nl) ;;
      gettimeofday start_time ;;
      scan_ports (Z.to_nat (end_port - start_port + 1)) target_ip start_port
        end_port ;;
      print_statistics ;;
      ret 0.

End Scanner.

(** *** [checksum] *)

(** Conversions to [unsigned int] and [unsigned short]. *)
Definition u32 (z : Z) : Z := z mod 2 ^ 32.
Definition u16 (z : Z) : Z := z mod 2 ^ 16.

Definition byte_val (b : byte) : Z := Z.of_N (Byte.to_N b).

(** [*buf] read through the [unsigned short *]: the next two bytes of
    memory, put together in the byte order of the host. *)
Definition load16 (big_endian : bool) (buf : list byte) : Z :=
  let b0 := byte_val (nth 0 buf x00) in
  let b1 := byte_val (nth 1 buf x00) in
  if big_endian then 256 * b0 + b1 else b0 + 256 * b1.

(** The loop [for (sum = 0; len > 1; len -= 2) sum += *buf++], on what is
    left of the memory at [buf].  Each round takes two from [len], so
    [len] rounds of fuel are never used up. *)
Fixpoint checksum_loop (fuel : nat) (big_endian : bool) (buf : list byte)
    (len sum : Z) : list byte * Z * Z :=
  match fuel with
  | O => (buf, len, sum)
  | S fuel' =>
      if len >? 1
      then checksum_loop fuel' big_endian (skipn 2 buf) (len - 2)
             (u32 (sum + load16 big_endian buf))
      else (buf, len, sum)
  end.

(** [sum] as the loop and the test for an odd last byte leave it. *)
Definition checksum_sum (big_endian : bool) (b : list byte) (len : Z) : Z :=
  let '(buf, len', sum) :=
    checksum_loop (Z.to_nat len) big_endian b len 0 in
  if len' =? 1 then u32 (sum + byte_val (nth 0 buf x00)) else sum.

(** [checksum(b, len)] on the memory [b] points to.  Bytes past the end of
    [b] read as zero here; in C reading them is undefined. *)
Definition checksum (big_endian : bool) (b : list byte) (len : Z) : Z :=
  let sum := checksum_sum big_endian b len in
  let sum := u32 (Z.shiftr sum 16 + Z.land sum 65535) in
  let sum := u32 (sum + Z.shiftr sum 16) in
  u16 (Z.lnot sum).

(** A decimal [atoi] for concrete runs: optional sign, then digits up to the
    first other character. *)
Definition digit_of (c : ascii) : option Z :=
  let n := Z.of_nat (nat_of_ascii c) in
  if (48 <=? n) && (n <=? 57) then Some (n - 48) else None.

Fixpoint atoi_digits (acc : Z) (s : string) : Z :=
  match s with
  | EmptyString => acc
  | String c rest =>
      match digit_of c with
      | Some d => atoi_digits (10 * acc + d) rest
      | None => acc
      end
  end.

Definition atoi_decimal (s : string) : Z :=
  match s with
  | String "-" rest => - atoi_digits 0 rest
  | String "+" rest => atoi_digits 0 rest
  | _ => atoi_digits 0 s
  end.

(** ** Reading a run *)

(** The verdicts of the design, and the return values of
    [receive_response] that stand for them; [-1] stands for none. *)
Inductive PortVerdict := Open | Closed | OpenOrFiltered | Filtered.

Definition verdict_of (result : Z) : option PortVerdict :=
  match result with
  | 0 => Some Open
  | 1 => Some OpenOrFiltered
  | 2 => Some Closed
  | 3 => Some Filtered
  | _ => None
  end.

(** The [sendto] calls of a log, most recent first. *)
Fixpoint sent (cs : list syscall) : list syscall :=
  match cs with
  | [] => []
  | sys_sendto fd ip port data :: rest =>
      sys_sendto fd ip port data :: sent rest
  | _ :: rest => sent rest
  end.

(** A log without the [recvfrom] calls at its recent end. *)
Fixpoint drop_reads (cs : list syscall) : list syscall :=
  match cs with
  | sys_recvfrom _ :: rest => drop_reads rest
  | _ => cs
  end.

(** [buffer] as the raw-socket read after the [k]-th [select] leaves it. *)
Definition icmp_buffer (os : OS) (k : nat) : Z -> Z :=
  buffer_at (os_recv_icmp os k) (os_stack os k).

(** What the oracle makes of the attempt served by the [k]-th [select]:
    the value [receive_response] returns ([receive_response_spec]). *)
Definition verdict_at (os : OS) (k : nat) : Z :=
  let r := os_select os k in
  if sel_ret r <? 0 then -1
  else if sel_ret r =? 0 then 1
  else if udp_ready r && (recv_len (os_recv_udp os k) >? 0) then 0
  else if icmp_ready r && (recv_len (os_recv_icmp os k) >? 0)
          && (icmp_type (icmp_buffer os k) =? ICMP_UNREACH)
       then (if icmp_code (icmp_buffer os k) =? ICMP_UNREACH_PORT
             then 2 else 3)
  else -1.

(** The output line that goes with a verdict. *)
Definition report_at (prog : program) (os : OS) (k : nat) (port : Z)
    (service_name rfc : option string) : list string :=
  match verdict_at os k with
  | 0 => [line_open prog port service_name rfc (recv_len (os_recv_udp os k))]
  | 1 => [line_open_filtered prog port service_name rfc]
  | 2 => [line_closed prog port]
  | 3 => [line_filtered prog port (icmp_type (icmp_buffer os k))
            (icmp_code (icmp_buffer os k))]
  | _ => []
  end.

(** The counter that goes with a verdict. *)
Definition tally (result : Z) (st : scan_stats_t) : scan_stats_t :=
  match result with
  | 0 => incr_open st
  | 2 => incr_closed st
  | 1 | 3 => incr_filtered st
  | _ => st
  end.

(** The UDP block does not return: the descriptor is not set, or the
    read brings nothing. *)
Definition no_udp_reply (os : OS) (k : nat) : Prop :=
  udp_ready (os_select os k) = false \/ recv_len (os_recv_udp os k) <= 0.

(** The ways the oracle can leave an attempt without a verdict. *)
Definition wait_fails (os : OS) (k : nat) : Prop :=
  sel_ret (os_select os k) < 0.

Definition empty_udp_read (os : OS) (k : nat) : Prop :=
  0 < sel_ret (os_select os k)
  /\ udp_ready (os_select os k) = true
  /\ recv_len (os_recv_udp os k) <= 0
  /\ icmp_ready (os_select os k) = false.

Definition stray_icmp_read (os : OS) (k : nat) : Prop :=
  0 < sel_ret (os_select os k)
  /\ no_udp_reply os k
  /\ icmp_ready (os_select os k) = true
  /\ 0 < recv_len (os_recv_icmp os k)
  /\ icmp_type (icmp_buffer os k) <> ICMP_UNREACH.

(** Definitive and ambiguous results, in the words of the design. *)
Definition definitive (result : Z) : Prop :=
  verdict_of result = Some Open \/ verdict_of result = Some Closed.

Definition ambiguous (result : Z) : Prop :=
  verdict_of result = Some OpenOrFiltered
  \/ verdict_of result = Some Filtered.

(** The bytes [send_udp_probe] hands to [sendto]. *)
Definition probe_data (payload : list byte) (payload_len : Z) : list byte :=
  if payload_len >? 0 then firstn (Z.to_nat payload_len) payload else [].

(** The probe [scan_udp_port] settles on for a port: the first entry of the
    protocol database for it, or the empty probe with no service name. *)
Definition chosen_payload (prog : program) (port : Z) : list byte :=
  match get_probe_for_port prog port with
  | Some p => payload p
  | None => empty_probe prog
  end.

Definition chosen_len (prog : program) (port : Z) : Z :=
  match get_probe_for_port prog port with
  | Some p => payload_len p
  | None => 0
  end.

Definition chosen_service (prog : program) (port : Z) : option string :=
  match get_probe_for_port prog port with
  | Some p => service_name p
  | None => None
  end.

Definition chosen_rfc (prog : program) (port : Z) : option string :=
  match prog with
  | udp_scanner => None
  | udp_scanner_extended =>
      match get_probe_for_port prog port with
      | Some p => rfc_reference p
      | None => None
      end
  end.

(** The state [scan_udp_port] enters its retry loop in. *)
Definition with_sockets (st : state) : state :=
  mk_state (stats st) (stdout st) (stderr st)
    (sys_socket SOCK_RAW :: sys_socket SOCK_DGRAM :: calls st).

(** The state one iteration of the retry loop leaves when its send
    succeeds: the probe is out and the response has been classified. *)
Definition after_attempt (prog : program) (os : OS) (udp_sock icmp_sock : Z)
    (target_ip : string) (port : Z) (payload : list byte) (payload_len : Z)
    (service_name rfc : option string) (st : state) : state :=
  snd (receive_response prog os udp_sock icmp_sock port service_name rfc
         (snd (send_udp_probe prog os udp_sock target_ip port payload
                 payload_len st))).

(** [probe_loop], with the number of iterations as its last parameter. *)
Definition loop (prog : program) (os : OS) (udp_sock icmp_sock : Z)
    (target_ip : string) (port : Z) (payload : list byte) (payload_len : Z)
    (service_name rfc : option string) (left : nat) : M bool :=
  probe_loop prog os left udp_sock icmp_sock target_ip port payload
    payload_len service_name rfc.

(** The state one iteration of the scan loop leaves: the port is scanned,
    counted and the pause taken. *)
Definition after_port (prog : program) (os : OS) (target_ip : string)
    (port : Z) (st : state) : state :=
  snd (usleep 10000
         (snd (set_stats incr_total
                 (snd (scan_udp_port prog os target_ip port st))))).

(** What [main] writes on stderr for a caller who is not root, most
    recent first. *)
Definition warning : list string :=
  ["Run with sudo for accurate results." ++ nl ++ nl;
   "Warning: Not running as root. ICMP detection will fail." ++ nl].

(** A log that has only been added to. *)
Definition grows {A : Type} (now before : list A) : Prop :=
  exists added, now = (added ++ before)%list.

(** The descriptors a log closes and the pauses it takes, most recent
    first. *)
Fixpoint closed (cs : list syscall) : list Z :=
  match cs with
  | [] => []
  | sys_close fd :: rest => fd :: closed rest
  | _ :: rest => closed rest
  end.

Fixpoint pauses (cs : list syscall) : list Z :=
  match cs with
  | [] => []
  | sys_usleep usec :: rest => usec :: pauses rest
  | _ :: rest => pauses rest
  end.

(** The calls a port's scan issues after it has created its UDP socket. *)
Definition inside_scan (c : syscall) : bool :=
  match c with
  | sys_socket SOCK_RAW => true
  | sys_sendto _ _ _ _ => true
  | sys_select _ _ _ _ => true
  | sys_recvfrom _ => true
  | sys_close _ => true
  | _ => false
  end.

(** What one port leaves on the log, most recent first: the pause, the
    calls of its scan, the creation of its UDP socket. *)
Definition port_block (scan : list syscall) : list syscall :=
  (sys_usleep 10000 :: scan ++ [sys_socket SOCK_DGRAM])%list.

(** The sum of the 16-bit words of a buffer, an odd last byte counted as
    it stands: what [checksum] adds up when nothing overflows. *)
Fixpoint word_sum (big_endian : bool) (b : list byte) : Z :=
  match b with
  | [] => 0
  | [b0] => byte_val b0
  | b0 :: b1 :: rest => load16 big_endian [b0; b1] + word_sum big_endian rest
  end.

(** The one's-complement fold of a sum to 16 bits: 0 for 0, otherwise the
    residue modulo 65535 taken in 1..65535. *)
Definition fold16 (sum : Z) : Z :=
  if sum =? 0 then 0 else (sum - 1) mod 65535 + 1.

(** ** Sample oracles *)

(** A sample datagram as a raw socket delivers it: a 20-byte IPv4 header
    (10.0.0.1 to 10.0.0.2, protocol ICMP) followed by an 8-byte ICMP header
    of the given type and code. *)
Definition icmp_datagram (ty code : byte) : list byte :=
  [x45; x00; x00; x1c; x00; x00; x00; x00; x40; x01; x00; x00;
   x0a; x00; x00; x01; x0a; x00; x00; x02;
   ty; code; x00; x00; x00; x00; x00; x00].

(** A clock that starts at 1700000000.900000 s and has advanced by
    3.25 s at each later reading. *)
Definition sample_clock (k : nat) : timeval :=
  match k with
  | O => mk_timeval 1700000000 900000
  | S j => mk_timeval (1700000004 + 3 * Z.of_nat j)
             (150000 + 250000 * Z.of_nat j)
  end.

(** Sockets are created (descriptor 3 for UDP, 4 for the raw socket),
    every send succeeds and the stack holds zeroes; what [select] and the
    reads deliver is left to the caller. *)
Definition os_with (sel : nat -> select_result)
    (udp icmp : nat -> recv_result) : OS :=
  mk_os 0
    (fun _ ty => match ty with SOCK_DGRAM => 3 | SOCK_RAW => 4 end)
    (fun _ => 0) sel udp icmp (fun _ _ => x00) sample_clock.

Definition only_icmp (d : list byte) : OS :=
  os_with (fun _ => mk_select 1 false true)
    (fun _ => recv_error) (fun _ => recv_datagram d).

Definition only_udp (d : list byte) : OS :=
  os_with (fun _ => mk_select 1 true false)
    (fun _ => recv_datagram d) (fun _ => recv_error).

Definition silent : OS :=
  os_with (fun _ => mk_select 0 false false)
    (fun _ => recv_error) (fun _ => recv_error).

(** An ICMP echo reply arrives during the first wait; a UDP reply would be
    there for a second one. *)
Definition stray_then_reply : OS :=
  os_with
    (fun k => match k with
              | O => mk_select 1 false true
              | _ => mk_select 1 true false
              end)
    (fun _ => recv_datagram [x01])
    (fun _ => recv_datagram (icmp_datagram x00 x00)).

Definition failing_wait : OS :=
  os_with (fun _ => mk_select (-1) false false)
    (fun _ => recv_error) (fun _ => recv_error).

(** An oracle that refuses raw sockets to a caller who is not root. *)
Definition unprivileged (o : OS) : OS :=
  mk_os 1000
    (fun k ty => match ty with SOCK_DGRAM => 3 | SOCK_RAW => -1 end)
    (os_sendto o) (os_select o) (os_recv_udp o) (os_recv_icmp o)
    (os_stack o) (os_gettimeofday o).

(** The first port answers its first probe; nothing is heard after that. *)
Definition reply_then_silence : OS :=
  os_with
    (fun k => match k with
              | O => mk_select 1 true false
              | _ => mk_select 0 false false
              end)
    (fun _ => recv_datagram [x01; x02]) (fun _ => recv_error).

(** Both sockets are readable: a UDP reply and an ICMP port-unreachable
    have arrived during the same wait. *)
Definition both_arrive : OS :=
  os_with (fun _ => mk_select 2 true true)
    (fun _ => recv_datagram [x01; x02; x03])
    (fun _ => recv_datagram (icmp_datagram x03 x03)).

(** The raw socket delivers a single byte, 0x45, into a buffer whose
    stack memory holds 3 everywhere. *)
Definition one_byte_datagram : OS :=
  mk_os 0 (fun _ ty => match ty with SOCK_DGRAM => 3 | SOCK_RAW => 4 end)
    (fun _ => 0) (fun _ => mk_select 1 false true) (fun _ => recv_error)
    (fun _ => recv_datagram [x45]) (fun _ _ => x03) sample_clock.

(** Every [sendto] fails. *)
Definition send_refused : OS :=
  mk_os 0 (fun _ ty => match ty with SOCK_DGRAM => 3 | SOCK_RAW => 4 end)
    (fun _ => -1) (fun _ => mk_select 0 false false) (fun _ => recv_error)
    (fun _ => recv_error) (fun _ _ => x00) sample_clock.

(** * Properties *)

(** ** The protocol database *)

(** The first entry for a port is the one used; a port without an entry
    gets the empty probe. *)
Example dns_probe_basic :
  chosen_service udp_scanner 53 = Some "DNS"
  /\ probe_data (chosen_payload udp_scanner 53) (chosen_len udp_scanner 53)
     = Basic.dns_probe.
Proof. split; reflexivity. Qed.

Example dns_probe_extended :
  chosen_rfc udp_scanner_extended 53 = Some "RFC 1035"
  /\ probe_data (chosen_payload udp_scanner_extended 53)
       (chosen_len udp_scanner_extended 53)
     = Extended.dns_status_probe.
Proof. split; reflexivity. Qed.

Example echo_probe_drops_the_nul :
  probe_data (chosen_payload udp_scanner_extended 7)
    (chosen_len udp_scanner_extended 7)
  = [x0d; x0a; x0d; x0a].
Proof. reflexivity. Qed.

Example no_probe_for_port_9 :
  get_probe_for_port udp_scanner 9 = None
  /\ probe_data (chosen_payload udp_scanner 9) (chosen_len udp_scanner 9)
     = [].
Proof. split; reflexivity. Qed.

(** ** The classifier *)

Ltac simp_scan :=
  cbn [fst snd stats stdout stderr calls count_select count_sendto
       count_socket sent drop_reads Nat.pred andb orb negb app].

Ltac run_scan :=
  unfold receive_response, check_udp, check_icmp, send_udp_probe, perror,
    bind, ret, select, sendto, socket, recvfrom_udp, recvfrom_icmp, close,
    usleep, gettimeofday, geteuid, issue, printf, eprintf, set_stats,
    last_select;
  simp_scan.

(** [receive_response] against the oracle: what it returns, counts and
    prints is read off the [select] it issues and the reads that follow
    it; it issues that one [select], with the fixed timeout, and after it
    only reads. *)
Lemma receive_response_spec (prog : program) (os : OS)
    (udp_sock icmp_sock port : Z) (service_name rfc : option string)
    (st : state) :
  let k := count_select (calls st) in
  let res := receive_response prog os udp_sock icmp_sock port service_name
               rfc st in
  fst res = verdict_at os k
  /\ stats (snd res) = tally (verdict_at os k) (stats st)
  /\ stdout (snd res)
     = (report_at prog os k port service_name rfc ++ stdout st)%list
  /\ count_select (calls (snd res)) = S k
  /\ sent (calls (snd res)) = sent (calls st)
  /\ count_socket (calls (snd res)) = count_socket (calls st)
  /\ drop_reads (calls (snd res))
     = sys_select udp_sock icmp_sock TIMEOUT_SEC TIMEOUT_USEC :: calls st.
Proof.
  intros k res; subst res k.
  unfold report_at, verdict_at, icmp_buffer.
  destruct st as [sts out err cs].
  run_scan.
  destruct (sel_ret (os_select os (count_select cs)) <? 0);
    [ destruct prog; repeat split; reflexivity | ].
  destruct (sel_ret (os_select os (count_select cs)) =? 0);
    [ repeat split; reflexivity | ].
  destruct (udp_ready (os_select os (count_select cs))); simp_scan;
    destruct (recv_len (os_recv_udp os (count_select cs)) >? 0); simp_scan;
    try (repeat split; reflexivity);
    destruct (icmp_ready (os_select os (count_select cs))); simp_scan;
    try (repeat split; reflexivity);
    destruct (recv_len (os_recv_icmp os (count_select cs)) >? 0); simp_scan;
    try (repeat split; reflexivity);
    destruct (icmp_type (buffer_at (os_recv_icmp os (count_select cs))
                           (os_stack os (count_select cs)))
                =? ICMP_UNREACH); simp_scan;
    try (repeat split; reflexivity);
    destruct (icmp_code (buffer_at (os_recv_icmp os (count_select cs))
                           (os_stack os (count_select cs)))
                =? ICMP_UNREACH_PORT); simp_scan;
    repeat split; reflexivity.
Qed.

(** How [verdict_at] reads the oracle, case by case. *)

Lemma verdict_at_error (os : OS) (k : nat) :
  sel_ret (os_select os k) < 0 -> verdict_at os k = -1.
Proof.
  intro H. unfold verdict_at.
  apply Z.ltb_lt in H. rewrite H. reflexivity.
Qed.

Lemma verdict_at_timeout (os : OS) (k : nat) :
  sel_ret (os_select os k) = 0 -> verdict_at os k = 1.
Proof.
  intro H. unfold verdict_at. rewrite H. reflexivity.
Qed.

Lemma verdict_at_ready (os : OS) (k : nat) :
  0 < sel_ret (os_select os k) ->
  verdict_at os k =
    if udp_ready (os_select os k) && (recv_len (os_recv_udp os k) >? 0)
    then 0
    else if icmp_ready (os_select os k)
            && (recv_len (os_recv_icmp os k) >? 0)
            && (icmp_type (icmp_buffer os k) =? ICMP_UNREACH)
         then (if icmp_code (icmp_buffer os k) =? ICMP_UNREACH_PORT
               then 2 else 3)
    else -1.
Proof.
  intro H. unfold verdict_at.
  assert (Hn : (sel_ret (os_select os k) <? 0) = false)
    by (apply Z.ltb_ge; lia).
  assert (Hz : (sel_ret (os_select os k) =? 0) = false)
    by (apply Z.eqb_neq; lia).
  rewrite Hn, Hz. reflexivity.
Qed.

Lemma no_udp_reply_test (os : OS) (k : nat) :
  no_udp_reply os k ->
  udp_ready (os_select os k) && (recv_len (os_recv_udp os k) >? 0) = false.
Proof.
  intros [H | H].
  - rewrite H. reflexivity.
  - apply andb_false_iff. right. rewrite Z.gtb_ltb. apply Z.ltb_ge. exact H.
Qed.

Lemma verdict_at_udp (os : OS) (k : nat) :
  0 < sel_ret (os_select os k) ->
  udp_ready (os_select os k) = true ->
  0 < recv_len (os_recv_udp os k) ->
  verdict_at os k = 0.
Proof.
  intros Hs Hu Hn. rewrite verdict_at_ready by exact Hs.
  rewrite Hu. replace (recv_len (os_recv_udp os k) >? 0) with true.
  - reflexivity.
  - symmetry. rewrite Z.gtb_ltb. apply Z.ltb_lt. exact Hn.
Qed.

Lemma verdict_at_icmp (os : OS) (k : nat) :
  0 < sel_ret (os_select os k) ->
  no_udp_reply os k ->
  icmp_ready (os_select os k) = true ->
  0 < recv_len (os_recv_icmp os k) ->
  verdict_at os k =
    if icmp_type (icmp_buffer os k) =? ICMP_UNREACH
    then (if icmp_code (icmp_buffer os k) =? ICMP_UNREACH_PORT
          then 2 else 3)
    else -1.
Proof.
  intros Hs Hu Hi Hn. rewrite verdict_at_ready by exact Hs.
  rewrite (no_udp_reply_test os k Hu), Hi.
  replace (recv_len (os_recv_icmp os k) >? 0) with true.
  - reflexivity.
  - symmetry. rewrite Z.gtb_ltb. apply Z.ltb_lt. exact Hn.
Qed.

(** C1: when the raw-socket read brings a datagram whose ICMP type is
    destination-unreachable, [receive_response] returns 2 (Closed) for code
    port-unreachable and 3 (Filtered) for every other code; the Filtered
    line carries the code observed (and, in udp_scanner.c, the type). *)
Theorem icmp_unreachable_verdict (prog : program) (os : OS)
    (udp_sock icmp_sock port : Z) (service_name rfc : option string)
    (st : state) :
  0 < sel_ret (os_select os (count_select (calls st))) ->
  no_udp_reply os (count_select (calls st)) ->
  icmp_ready (os_select os (count_select (calls st))) = true ->
  0 < recv_len (os_recv_icmp os (count_select (calls st))) ->
  icmp_type (icmp_buffer os (count_select (calls st))) = ICMP_UNREACH ->
  (icmp_code (icmp_buffer os (count_select (calls st))) = ICMP_UNREACH_PORT ->
     verdict_of (fst (receive_response prog os udp_sock icmp_sock port
                        service_name rfc st)) = Some Closed
     /\ stdout (snd (receive_response prog os udp_sock icmp_sock port
                       service_name rfc st))
        = line_closed prog port :: stdout st)
  /\ (icmp_code (icmp_buffer os (count_select (calls st)))
        <> ICMP_UNREACH_PORT ->
     verdict_of (fst (receive_response prog os udp_sock icmp_sock port
                        service_name rfc st)) = Some Filtered
     /\ stdout (snd (receive_response prog os udp_sock icmp_sock port
                       service_name rfc st))
        = line_filtered prog port ICMP_UNREACH
            (icmp_code (icmp_buffer os (count_select (calls st))))
          :: stdout st).
Proof.
  intros Hs Hu Hi Hn Ht.
  destruct (receive_response_spec prog os udp_sock icmp_sock port
              service_name rfc st) as (Hv & _ & Ho & _).
  rewrite Hv, Ho. unfold report_at.
  rewrite (verdict_at_icmp os _ Hs Hu Hi Hn), Ht, Z.eqb_refl.
  split; intro Hc.
  - rewrite Hc, Z.eqb_refl. split; reflexivity.
  - apply Z.eqb_neq in Hc. rewrite Hc. split; reflexivity.
Qed.

Lemma icmp_unreachable_verdict_witness :
  verdict_of (fst (receive_response udp_scanner
                     (only_icmp (icmp_datagram x03 x01)) 3 4 53 (Some "DNS")
                     None initial_state)) = Some Filtered
  /\ stdout (snd (receive_response udp_scanner
                    (only_icmp (icmp_datagram x03 x01)) 3 4 53 (Some "DNS")
                    None initial_state))
     = [line_filtered udp_scanner 53 ICMP_UNREACH 1].
Proof.
  apply (icmp_unreachable_verdict udp_scanner
           (only_icmp (icmp_datagram x03 x01)) 3 4 53 (Some "DNS") None
           initial_state).
  - reflexivity.
  - left. reflexivity.
  - reflexivity.
  - reflexivity.
  - reflexivity.
  - vm_compute. discriminate.
Defined.

(** C2, as stated, fails: a zero-length datagram read from the UDP socket
    does not give Open.  With nothing on the raw socket the attempt ends
    with no verdict, prints nothing and counts nothing. *)
Lemma zero_length_reply_not_open :
  udp_ready (os_select (only_udp []) 0) = true
  /\ recv_len (os_recv_udp (only_udp []) 0) = 0
  /\ fst (receive_response udp_scanner (only_udp []) 3 4 53 (Some "DNS")
            None initial_state) = -1
  /\ fst (receive_response udp_scanner_extended (only_udp []) 3 4 53
            (Some "DNS") (Some "RFC 1035") initial_state) = -1
  /\ snd (receive_response udp_scanner (only_udp []) 3 4 53 (Some "DNS")
            None initial_state)
     = mk_state (mk_stats 0 0 0 0) [] []
         [sys_recvfrom 3; sys_select 3 4 2 0].
Proof.
  repeat split; reflexivity.
Qed.

(** C2, amended: a datagram of positive length read from the UDP socket
    gives Open with that length on the output line and one more open port.
    A read that returns zero or less gives no Open and leaves the open
    counter alone: the classifier goes on to the raw socket, which it reads
    when [select] has marked it, and an ICMP destination-unreachable found
    there gives Closed or Filtered by its code; in every other case the
    attempt ends with no verdict, nothing printed and no counter changed. *)
Theorem udp_reply_verdict (prog : program) (os : OS)
    (udp_sock icmp_sock port : Z) (service_name rfc : option string)
    (st : state) :
  0 < sel_ret (os_select os (count_select (calls st))) ->
  udp_ready (os_select os (count_select (calls st))) = true ->
  (0 < recv_len (os_recv_udp os (count_select (calls st))) ->
     verdict_of (fst (receive_response prog os udp_sock icmp_sock port
                        service_name rfc st)) = Some Open
     /\ stdout (snd (receive_response prog os udp_sock icmp_sock port
                       service_name rfc st))
        = line_open prog port service_name rfc
            (recv_len (os_recv_udp os (count_select (calls st))))
          :: stdout st
     /\ stats (snd (receive_response prog os udp_sock icmp_sock port
                      service_name rfc st))
        = incr_open (stats st))
  /\ (recv_len (os_recv_udp os (count_select (calls st))) <= 0 ->
     verdict_of (fst (receive_response prog os udp_sock icmp_sock port
                        service_name rfc st)) <> Some Open
     /\ open_ports (stats (snd (receive_response prog os udp_sock icmp_sock
                                  port service_name rfc st)))
        = open_ports (stats st)
     /\ fst (receive_response prog os udp_sock icmp_sock port service_name
               rfc st)
        = (if icmp_ready (os_select os (count_select (calls st)))
              && (recv_len (os_recv_icmp os (count_select (calls st))) >? 0)
              && (icmp_type (icmp_buffer os (count_select (calls st)))
                    =? ICMP_UNREACH)
           then (if icmp_code (icmp_buffer os (count_select (calls st)))
                      =? ICMP_UNREACH_PORT
                 then 2 else 3)
           else -1)
     /\ calls (snd (receive_response prog os udp_sock icmp_sock port
                      service_name rfc st))
        = ((if icmp_ready (os_select os (count_select (calls st)))
            then [sys_recvfrom icmp_sock] else [])
             ++ sys_recvfrom udp_sock
             :: sys_select udp_sock icmp_sock TIMEOUT_SEC TIMEOUT_USEC
             :: calls st)%list
     /\ (fst (receive_response prog os udp_sock icmp_sock port service_name
                rfc st) = -1 ->
         stats (snd (receive_response prog os udp_sock icmp_sock port
                       service_name rfc st)) = stats st
         /\ stdout (snd (receive_response prog os udp_sock icmp_sock port
                           service_name rfc st)) = stdout st
         /\ stderr (snd (receive_response prog os udp_sock icmp_sock port
                           service_name rfc st)) = stderr st)).
Proof.
  intros Hs Hu.
  split; intro Hn.
  - destruct (receive_response_spec prog os udp_sock icmp_sock port
                service_name rfc st) as (Hv & Ht & Ho & _).
    rewrite Hv, Ht, Ho. unfold report_at.
    rewrite (verdict_at_udp os _ Hs Hu Hn). repeat split; reflexivity.
  - assert (Hneg : (sel_ret (os_select os (count_select (calls st))) <? 0)
                   = false) by (apply Z.ltb_ge; lia).
    assert (Hzero : (sel_ret (os_select os (count_select (calls st))) =? 0)
                    = false) by (apply Z.eqb_neq; lia).
    assert (Hlen : (recv_len (os_recv_udp os (count_select (calls st))) >? 0)
                   = false) by (rewrite Z.gtb_ltb; apply Z.ltb_ge; exact Hn).
    unfold icmp_buffer.
    destruct st as [sts out err cs]. simpl calls in *.
    run_scan. rewrite Hneg, Hzero, Hu. simp_scan. rewrite Hlen. simp_scan.
    destruct (icmp_ready (os_select os (count_select cs))); simp_scan;
      [ destruct (recv_len (os_recv_icmp os (count_select cs)) >? 0);
        simp_scan;
        [ destruct (icmp_type (buffer_at (os_recv_icmp os (count_select cs))
                                 (os_stack os (count_select cs)))
                      =? ICMP_UNREACH); simp_scan;
          [ destruct (icmp_code
                        (buffer_at (os_recv_icmp os (count_select cs))
                           (os_stack os (count_select cs)))
                      =? ICMP_UNREACH_PORT); simp_scan | ] | ] | ];
      repeat split;
      first [ reflexivity | discriminate | intro; discriminate
            | intros _; repeat split; reflexivity ].
Qed.

Lemma udp_reply_verdict_witness :
  verdict_of (fst (receive_response udp_scanner (only_udp [x01; x02]) 3 4 53
                     (Some "DNS") None initial_state)) = Some Open
  /\ stdout (snd (receive_response udp_scanner (only_udp [x01; x02]) 3 4 53
                    (Some "DNS") None initial_state))
     = [line_open udp_scanner 53 (Some "DNS") None 2]
  /\ stats (snd (receive_response udp_scanner (only_udp [x01; x02]) 3 4 53
                   (Some "DNS") None initial_state))
     = mk_stats 0 1 0 0.
Proof.
  apply (udp_reply_verdict udp_scanner (only_udp [x01; x02]) 3 4 53
           (Some "DNS") None initial_state); reflexivity.
Defined.

(** C3: when [select] returns 0 (the deadline passed with neither socket
    readable), [receive_response] returns 1 (OpenOrFiltered) whatever the
    port and the probe, after one wait of [TIMEOUT_SEC] seconds and without
    reading either socket. *)
Theorem timeout_verdict (prog : program) (os : OS)
    (udp_sock icmp_sock port : Z) (service_name rfc : option string)
    (st : state) :
  sel_ret (os_select os (count_select (calls st))) = 0 ->
  verdict_of (fst (receive_response prog os udp_sock icmp_sock port
                     service_name rfc st)) = Some OpenOrFiltered
  /\ stdout (snd (receive_response prog os udp_sock icmp_sock port
                    service_name rfc st))
     = line_open_filtered prog port service_name rfc :: stdout st
  /\ calls (snd (receive_response prog os udp_sock icmp_sock port
                   service_name rfc st))
     = sys_select udp_sock icmp_sock TIMEOUT_SEC TIMEOUT_USEC :: calls st.
Proof.
  intro Hz.
  destruct (receive_response_spec prog os udp_sock icmp_sock port
              service_name rfc st) as (Hv & _ & Ho & _).
  rewrite Hv, Ho. unfold report_at.
  rewrite (verdict_at_timeout os _ Hz).
  repeat split.
  destruct st as [sts out err cs]. run_scan.
  cbn [calls] in Hz. rewrite Hz. reflexivity.
Qed.

Lemma timeout_verdict_witness :
  verdict_of (fst (receive_response udp_scanner_extended silent 3 4 53
                     (Some "DNS") (Some "RFC 1035") initial_state))
    = Some OpenOrFiltered
  /\ stdout (snd (receive_response udp_scanner_extended silent 3 4 53
                    (Some "DNS") (Some "RFC 1035") initial_state))
     = [line_open_filtered udp_scanner_extended 53 (Some "DNS")
          (Some "RFC 1035")]
  /\ calls (snd (receive_response udp_scanner_extended silent 3 4 53
                   (Some "DNS") (Some "RFC 1035") initial_state))
     = [sys_select 3 4 TIMEOUT_SEC TIMEOUT_USEC].
Proof.
  apply (timeout_verdict udp_scanner_extended silent 3 4 53 (Some "DNS")
           (Some "RFC 1035") initial_state).
  reflexivity.
Defined.

(** ** The prober *)

Lemma count_sendto_sent (cs : list syscall) :
  count_sendto cs = List.length (sent cs).
Proof.
  induction cs as [| c cs IH]; [ reflexivity | ].
  destruct c; cbn [count_sendto sent List.length]; congruence.
Qed.

Lemma send_udp_probe_spec (prog : program) (os : OS) (sockfd : Z)
    (target_ip : string) (port : Z) (payload : list byte) (payload_len : Z)
    (st : state) :
  let res := send_udp_probe prog os sockfd target_ip port payload
               payload_len st in
  fst res = (if os_sendto os (count_sendto (calls st)) <? 0 then -1 else 0)
  /\ stats (snd res) = stats st
  /\ stdout (snd res) = stdout st
  /\ sent (calls (snd res))
     = sys_sendto sockfd target_ip (htons port)
         (probe_data payload payload_len) :: sent (calls st)
  /\ count_select (calls (snd res)) = count_select (calls st)
  /\ count_socket (calls (snd res)) = count_socket (calls st).
Proof.
  intro res; subst res. unfold probe_data.
  destruct st as [sts out err cs]. run_scan.
  destruct (payload_len >? 0); simp_scan;
    destruct (os_sendto os (count_sendto cs) <? 0); simp_scan;
    destruct prog; repeat split; reflexivity.
Qed.

Section Attempt.

Variables (prog : program) (os : OS) (udp_sock icmp_sock : Z)
  (target_ip : string) (port : Z) (payload : list byte) (payload_len : Z)
  (service_name rfc : option string).

Local Abbreviation rounds :=
  (loop prog os udp_sock icmp_sock target_ip port payload payload_len
     service_name rfc).
Local Abbreviation attempted :=
  (after_attempt prog os udp_sock icmp_sock target_ip port payload
     payload_len service_name rfc).

Lemma after_attempt_spec (st : state) :
  stats (attempted st)
    = tally (verdict_at os (count_select (calls st))) (stats st)
  /\ stdout (attempted st)
     = (report_at prog os (count_select (calls st)) port service_name rfc
          ++ stdout st)%list
  /\ sent (calls (attempted st))
     = sys_sendto udp_sock target_ip (htons port)
         (probe_data payload payload_len) :: sent (calls st)
  /\ count_select (calls (attempted st)) = S (count_select (calls st))
  /\ count_socket (calls (attempted st)) = count_socket (calls st).
Proof.
  unfold after_attempt.
  destruct (send_udp_probe_spec prog os udp_sock target_ip port payload
              payload_len st) as (_ & Hs & Ho & Hc & Hk & Hx).
  destruct (receive_response_spec prog os udp_sock icmp_sock port
              service_name rfc
              (snd (send_udp_probe prog os udp_sock target_ip port payload
                      payload_len st)))
    as (_ & Hs' & Ho' & Hk' & Hc' & Hx' & _).
  rewrite Hs', Ho', Hk', Hc', Hx', Hs, Ho, Hk, Hc, Hx.
  repeat split; reflexivity.
Qed.

(** A definitive verdict (0, Open, or 2, Closed) ends the loop. *)
Lemma loop_definitive (left : nat) (st : state) :
  0 <= os_sendto os (count_sendto (calls st)) ->
  verdict_at os (count_select (calls st)) = 0
    \/ verdict_at os (count_select (calls st)) = 2 ->
  rounds (S left) st = (false, attempted st).
Proof.
  intros Hsend Hv.
  unfold loop, after_attempt. cbn [probe_loop]. unfold bind at 1.
  destruct (send_udp_probe_spec prog os udp_sock target_ip port payload
              payload_len st) as (Hr & _ & _ & _ & Hk & _).
  rewrite Hr.
  replace (os_sendto os (count_sendto (calls st)) <? 0) with false
    by (symmetry; apply Z.ltb_ge; exact Hsend).
  cbn [Z.ltb Z.compare]. unfold bind at 1.
  destruct (receive_response_spec prog os udp_sock icmp_sock port
              service_name rfc
              (snd (send_udp_probe prog os udp_sock target_ip port payload
                      payload_len st))) as (Hv' & _).
  rewrite Hv', Hk.
  destruct Hv as [Hv | Hv]; rewrite Hv; reflexivity.
Qed.

(** Any other result, a verdict or none, sends the loop round again. *)
Lemma loop_retry (left : nat) (st : state) :
  0 <= os_sendto os (count_sendto (calls st)) ->
  verdict_at os (count_select (calls st)) <> 0 ->
  verdict_at os (count_select (calls st)) <> 2 ->
  rounds (S left) st = rounds left (attempted st).
Proof.
  intros Hsend Hv0 Hv2.
  unfold loop, after_attempt. cbn [probe_loop]. unfold bind at 1.
  destruct (send_udp_probe_spec prog os udp_sock target_ip port payload
              payload_len st) as (Hr & _ & _ & _ & Hk & _).
  rewrite Hr.
  replace (os_sendto os (count_sendto (calls st)) <? 0) with false
    by (symmetry; apply Z.ltb_ge; exact Hsend).
  cbn [Z.ltb Z.compare]. unfold bind at 1.
  destruct (receive_response_spec prog os udp_sock icmp_sock port
              service_name rfc
              (snd (send_udp_probe prog os udp_sock target_ip port payload
                      payload_len st))) as (Hv' & _).
  rewrite Hv', Hk.
  apply Z.eqb_neq in Hv0, Hv2. rewrite Hv0, Hv2. reflexivity.
Qed.

End Attempt.

Lemma tally_total (v : Z) (sts : scan_stats_t) :
  total_ports (tally v sts) = total_ports sts.
Proof.
  destruct v as [| p | p]; try reflexivity.
  destruct p as [[| |] | [| |] |]; reflexivity.
Qed.

Section Loop.

Variables (prog : program) (os : OS) (udp_sock icmp_sock : Z)
  (target_ip : string) (port : Z) (payload : list byte) (payload_len : Z)
  (service_name rfc : option string).

Let rounds := loop prog os udp_sock icmp_sock target_ip port payload
              payload_len service_name rfc.
Let attempted := after_attempt prog os udp_sock icmp_sock target_ip port
                       payload payload_len service_name rfc.
Let probe := sys_sendto udp_sock target_ip (htons port)
               (probe_data payload payload_len).

(** A failed send leaves the function at once: the sockets are closed and
    nothing is classified. *)
Lemma loop_send_fails (left : nat) (st : state) :
  os_sendto os (count_sendto (calls st)) < 0 ->
  fst (rounds (S left) st) = true
  /\ stats (snd (rounds (S left) st)) = stats st
  /\ stdout (snd (rounds (S left) st)) = stdout st
  /\ sent (calls (snd (rounds (S left) st))) = probe :: sent (calls st)
  /\ count_select (calls (snd (rounds (S left) st))) = count_select (calls st)
  /\ count_socket (calls (snd (rounds (S left) st))) = count_socket (calls st).
Proof.
  intro Hsend.
  destruct (send_udp_probe_spec prog os udp_sock target_ip port payload
              payload_len st) as (Hr & Hs & Ho & Hc & Hk & Hx).
  set (s1 := snd (send_udp_probe prog os udp_sock target_ip port payload
                    payload_len st)) in *.
  assert (E : rounds (S left) st
              = (true, mk_state (stats s1) (stdout s1) (stderr s1)
                         (sys_close icmp_sock :: sys_close udp_sock
                            :: calls s1))).
  { subst rounds. unfold loop. cbn [probe_loop]. unfold bind at 1.
    rewrite Hr.
    replace (os_sendto os (count_sendto (calls st)) <? 0) with true
      by (symmetry; apply Z.ltb_lt; exact Hsend).
    reflexivity. }
  rewrite E. simp_scan. subst probe.
  rewrite Hs, Ho, Hc, Hk, Hx. repeat split; reflexivity.
Qed.

(** The last iteration ends the rounds whatever it observes. *)
Lemma loop_last (st : state) :
  0 <= os_sendto os (count_sendto (calls st)) ->
  rounds 1 st = (false, attempted st).
Proof.
  intro Hsend. subst rounds attempted.
  destruct (Z.eq_dec (verdict_at os (count_select (calls st))) 0) as [H0 | H0];
    [ apply loop_definitive; [ exact Hsend | left; exact H0 ] | ].
  destruct (Z.eq_dec (verdict_at os (count_select (calls st))) 2) as [H2 | H2];
    [ apply loop_definitive; [ exact Hsend | right; exact H2 ] | ].
  rewrite loop_retry by assumption. reflexivity.
Qed.

(** What no run of the rounds changes, and how much it can add. *)
Lemma loop_frame (left : nat) (st : state) :
  count_socket (calls (snd (rounds left st))) = count_socket (calls st)
  /\ total_ports (stats (snd (rounds left st))) = total_ports (stats st)
  /\ (List.length (sent (calls (snd (rounds left st))))
      <= List.length (sent (calls st)) + left)%nat
  /\ (count_select (calls (snd (rounds left st)))
      <= count_select (calls st) + left)%nat.
Proof.
  revert st. induction left as [| left IH]; intro st.
  - subst rounds. cbn. repeat split; lia.
  - destruct (Z.lt_ge_cases (os_sendto os (count_sendto (calls st))) 0)
      as [Hf | Hok].
    + destruct (loop_send_fails left st Hf) as (_ & Hs & _ & Hc & Hk & Hx).
      rewrite Hs, Hc, Hk, Hx. cbn [List.length]. repeat split; lia.
    + assert (Hok' : 0 <= os_sendto os (count_sendto (calls st))) by lia.
      destruct (after_attempt_spec prog os udp_sock icmp_sock target_ip port
                  payload payload_len service_name rfc st)
        as (Hs & _ & Hc & Hk & Hx).
      fold attempted in Hs, Hc, Hk, Hx. fold probe in Hc.
      destruct (Z.eq_dec (verdict_at os (count_select (calls st))) 0)
        as [H0 | H0];
        [ | destruct (Z.eq_dec (verdict_at os (count_select (calls st))) 2)
              as [H2 | H2] ].
      * subst rounds. rewrite loop_definitive by (auto; lia).
        fold attempted. cbn [snd].
        rewrite Hs, Hc, Hk, Hx, tally_total. cbn [List.length].
        repeat split; lia.
      * subst rounds. rewrite loop_definitive by (auto; lia).
        fold attempted. cbn [snd].
        rewrite Hs, Hc, Hk, Hx, tally_total. cbn [List.length].
        repeat split; lia.
      * subst rounds. rewrite loop_retry by assumption.
        fold attempted.
        destruct (IH (attempted st)) as (Ix & It & Ic & Ik).
        rewrite Hs, Hc, Hk, Hx, tally_total in *. cbn [List.length] in *.
        repeat split; try assumption; lia.
Qed.

End Loop.

Section Port.

Variables (prog : program) (os : OS) (target_ip : string) (port : Z).

Let scan := scan_udp_port prog os target_ip port.

(** The UDP socket cannot be created: the port is given up. *)
Lemma scan_without_udp_socket (st : state) :
  os_socket os (count_socket (calls st)) SOCK_DGRAM < 0 ->
  stats (snd (scan st)) = stats st
  /\ stdout (snd (scan st)) = stdout st
  /\ calls (snd (scan st)) = sys_socket SOCK_DGRAM :: calls st.
Proof.
  intro Hu.
  assert (E : scan st = perror prog "UDP socket creation failed"
                          (snd (issue (sys_socket SOCK_DGRAM) st))).
  { subst scan. unfold scan_udp_port, bind at 1.
    unfold socket at 1. cbn [fst snd].
    apply Z.ltb_lt in Hu. rewrite Hu. reflexivity. }
  rewrite E. destruct prog; repeat split; reflexivity.
Qed.

(** The raw socket cannot be created: the UDP socket is closed again and
    the port is given up before anything is sent. *)
Lemma scan_without_raw_socket (st : state) :
  0 <= os_socket os (count_socket (calls st)) SOCK_DGRAM ->
  os_socket os (S (count_socket (calls st))) SOCK_RAW < 0 ->
  stats (snd (scan st)) = stats st
  /\ stdout (snd (scan st)) = stdout st
  /\ calls (snd (scan st))
     = sys_close (os_socket os (count_socket (calls st)) SOCK_DGRAM)
         :: sys_socket SOCK_RAW :: sys_socket SOCK_DGRAM :: calls st.
Proof.
  intros Hu Hi.
  assert (E : scan st
              = (perror prog "ICMP socket creation failed (need root)" ;;
                 close (os_socket os (count_socket (calls st)) SOCK_DGRAM))
                  (with_sockets st)).
  { subst scan. unfold scan_udp_port, bind at 1.
    unfold socket, issue. cbn [fst snd calls count_socket].
    apply Z.ltb_ge in Hu. rewrite Hu.
    unfold bind at 1. cbn [fst snd calls count_socket].
    apply Z.ltb_lt in Hi. rewrite Hi. reflexivity. }
  rewrite E. destruct prog; repeat split; reflexivity.
Qed.

(** Both sockets are created: the port's outcome is that of the retry
    loop, run with the probe the protocol database has for the port. *)
Lemma scan_with_sockets (st : state) :
  0 <= os_socket os (count_socket (calls st)) SOCK_DGRAM ->
  0 <= os_socket os (S (count_socket (calls st))) SOCK_RAW ->
  let done :=
    snd (loop prog os (os_socket os (count_socket (calls st)) SOCK_DGRAM)
           (os_socket os (S (count_socket (calls st))) SOCK_RAW)
           target_ip port (chosen_payload prog port) (chosen_len prog port)
           (chosen_service prog port) (chosen_rfc prog port)
           MAX_RETRIES (with_sockets st)) in
  stats (snd (scan st)) = stats done
  /\ stdout (snd (scan st)) = stdout done
  /\ sent (calls (snd (scan st))) = sent (calls done)
  /\ count_select (calls (snd (scan st))) = count_select (calls done)
  /\ count_socket (calls (snd (scan st))) = count_socket (calls done).
Proof.
  intros Hu Hi.
  set (udp_sock := os_socket os (count_socket (calls st)) SOCK_DGRAM) in *.
  set (icmp_sock := os_socket os (S (count_socket (calls st))) SOCK_RAW) in *.
  assert (E : scan st
              = (returned <- loop prog os udp_sock icmp_sock target_ip port
                               (chosen_payload prog port)
                               (chosen_len prog port)
                               (chosen_service prog port)
                               (chosen_rfc prog port) MAX_RETRIES ;;
                 if returned then ret tt
                 else close udp_sock ;; close icmp_sock) (with_sockets st)).
  { subst scan. unfold scan_udp_port, bind at 1.
    unfold socket, issue. cbn [fst snd calls count_socket].
    fold udp_sock. apply Z.ltb_ge in Hu. rewrite Hu.
    unfold bind at 1. cbn [fst snd calls count_socket].
    fold icmp_sock. apply Z.ltb_ge in Hi. rewrite Hi.
    cbv zeta. unfold loop, with_sockets. reflexivity. }
  cbv zeta.
  rewrite E. unfold bind, close, issue, ret. simp_scan.
  destruct (fst (loop prog os udp_sock icmp_sock target_ip port
                   (chosen_payload prog port) (chosen_len prog port)
                   (chosen_service prog port) (chosen_rfc prog port)
                   MAX_RETRIES (with_sockets st)));
    simp_scan; repeat split; reflexivity.
Qed.

(** What no scan of a port changes, and how much it can add. *)
Lemma scan_frame (st : state) :
  total_ports (stats (snd (scan st))) = total_ports (stats st)
  /\ (List.length (sent (calls (snd (scan st))))
      <= List.length (sent (calls st)) + MAX_RETRIES)%nat
  /\ (count_select (calls (snd (scan st)))
      <= count_select (calls st) + MAX_RETRIES)%nat.
Proof.
  destruct (Z.lt_ge_cases (os_socket os (count_socket (calls st)) SOCK_DGRAM)
              0) as [Hu | Hu].
  - destruct (scan_without_udp_socket st Hu) as (Hs & _ & Hc).
    rewrite Hs, Hc. cbn [sent count_select]. repeat split; lia.
  - destruct (Z.lt_ge_cases
                (os_socket os (S (count_socket (calls st))) SOCK_RAW) 0)
      as [Hi | Hi].
    + destruct (scan_without_raw_socket st) as (Hs & _ & Hc);
        [ lia | exact Hi | ].
      rewrite Hs, Hc. cbn [sent count_select]. repeat split; lia.
    + destruct (scan_with_sockets st) as (Hs & _ & Hc & Hk & _);
        [ lia | lia | ].
      rewrite Hs, Hc, Hk.
      destruct (loop_frame prog os
                  (os_socket os (count_socket (calls st)) SOCK_DGRAM)
                  (os_socket os (S (count_socket (calls st))) SOCK_RAW)
                  target_ip port (chosen_payload prog port)
                  (chosen_len prog port) (chosen_service prog port)
                  (chosen_rfc prog port) MAX_RETRIES (with_sockets st))
        as (_ & Ht & Hl & Hn).
      cbn [with_sockets stats calls sent count_select] in Ht, Hl, Hn.
      repeat split; assumption.
Qed.

End Port.

Lemma verdict_of_cases (v : Z) :
  (v = 0 /\ verdict_of v = Some Open)
  \/ (v = 1 /\ verdict_of v = Some OpenOrFiltered)
  \/ (v = 2 /\ verdict_of v = Some Closed)
  \/ (v = 3 /\ verdict_of v = Some Filtered)
  \/ (v <> 0 /\ v <> 1 /\ v <> 2 /\ v <> 3 /\ verdict_of v = None).
Proof.
  destruct v as [| p | p].
  - left. split; reflexivity.
  - destruct p as [[q | q |] | [q | q |] |]; cbn;
      try (right; right; right; right; repeat split;
           (discriminate || reflexivity));
      auto 10.
  - right; right; right; right. repeat split; (discriminate || reflexivity).
Qed.

Lemma definitive_iff (v : Z) : definitive v <-> v = 0 \/ v = 2.
Proof.
  unfold definitive.
  destruct (verdict_of_cases v)
    as [[E H] | [[E H] | [[E H] | [[E H] | (N0 & N1 & N2 & N3 & H)]]]];
    rewrite H; split; intros [A | A];
    try discriminate; try lia; auto.
Qed.

Lemma ambiguous_iff (v : Z) : ambiguous v <-> v = 1 \/ v = 3.
Proof.
  unfold ambiguous.
  destruct (verdict_of_cases v)
    as [[E H] | [[E H] | [[E H] | [[E H] | (N0 & N1 & N2 & N3 & H)]]]];
    rewrite H; split; intros [A | A];
    try discriminate; try lia; auto.
Qed.

Ltac attempt_facts s As Ao Ac Ak :=
  match goal with
  | |- context [after_attempt ?a ?b ?c ?d ?e ?f ?g ?h ?i ?j s] =>
      destruct (after_attempt_spec a b c d e f g h i j s)
        as (As & Ao & Ac & Ak & _)
  end.

Section Retry.

Variables (prog : program) (os : OS) (target_ip : string) (port : Z).
Variable st : state.

Let udp_sock := os_socket os (count_socket (calls st)) SOCK_DGRAM.
Let icmp_sock := os_socket os (S (count_socket (calls st))) SOCK_RAW.
Let final := snd (scan_udp_port prog os target_ip port st).
Let probe := sys_sendto udp_sock target_ip (htons port)
               (probe_data (chosen_payload prog port) (chosen_len prog port)).
Let report (k : nat) :=
  report_at prog os k port (chosen_service prog port) (chosen_rfc prog port).
Let first := count_select (calls st).

(** One attempt that settles the port. *)
Lemma scan_one_attempt :
  0 <= udp_sock -> 0 <= icmp_sock ->
  0 <= os_sendto os (count_sendto (calls st)) ->
  verdict_at os first = 0 \/ verdict_at os first = 2 ->
  stats final = tally (verdict_at os first) (stats st)
  /\ stdout final = (report first ++ stdout st)%list
  /\ sent (calls final) = probe :: sent (calls st)
  /\ count_select (calls final) = S first.
Proof.
  subst udp_sock icmp_sock final probe report first.
  intros Hu Hi Hsend Hv.
  destruct (scan_with_sockets prog os target_ip port st Hu Hi)
    as (Hs & Ho & Hc & Hk & _).
  rewrite Hs, Ho, Hc, Hk.
  change MAX_RETRIES with 2%nat.
  rewrite loop_definitive by assumption. cbn [snd].
  attempt_facts (with_sockets st) As Ao Ac Ak.
  rewrite As, Ao, Ac, Ak. repeat split; reflexivity.
Qed.

(** Two attempts: the first settles nothing, the second ends the loop
    whatever it observes. *)
Lemma scan_two_attempts :
  0 <= udp_sock -> 0 <= icmp_sock ->
  0 <= os_sendto os (count_sendto (calls st)) ->
  0 <= os_sendto os (S (count_sendto (calls st))) ->
  verdict_at os first <> 0 -> verdict_at os first <> 2 ->
  stats final
    = tally (verdict_at os (S first)) (tally (verdict_at os first) (stats st))
  /\ stdout final = (report (S first) ++ report first ++ stdout st)%list
  /\ sent (calls final) = probe :: probe :: sent (calls st)
  /\ count_select (calls final) = S (S first).
Proof.
  subst udp_sock icmp_sock final probe report first.
  intros Hu Hi Hsend Hsend' Hv0 Hv2.
  destruct (scan_with_sockets prog os target_ip port st Hu Hi)
    as (Hs & Ho & Hc & Hk & _).
  rewrite Hs, Ho, Hc, Hk.
  change MAX_RETRIES with 2%nat.
  rewrite loop_retry by assumption.
  attempt_facts (with_sockets st) As Ao Ac Ak.
  cbn [with_sockets stats stdout calls sent count_select] in As, Ao, Ac, Ak.
  rewrite loop_last.
  - cbn [snd].
    match goal with
    | |- context [stats (after_attempt ?a ?b ?c ?d ?e ?f ?g ?h ?i ?j
                           (after_attempt ?a ?b ?c ?d ?e ?f ?g ?h ?i ?j ?s))] =>
        destruct (after_attempt_spec a b c d e f g h i j
                    (after_attempt a b c d e f g h i j s))
          as (Bs & Bo & Bc & Bk & _)
    end.
    rewrite Bs, Bo, Bc, Bk, As, Ao, Ac, Ak.
    repeat split; reflexivity.
  - rewrite count_sendto_sent, Ac. cbn [List.length].
    rewrite <- count_sendto_sent. exact Hsend'.
Qed.

End Retry.

(** C5: with [MAX_RETRIES] = 2 and both sockets open, a first attempt that
    gives Open or Closed ends the port after one send; a first attempt that
    gives OpenOrFiltered or Filtered makes the prober send the same probe
    once more, and the second attempt ends the port whatever it gives, its
    line being the last one printed for the port; no run sends a third
    time. *)
Theorem retry_policy (prog : program) (os : OS) (target_ip : string)
    (port : Z) (st : state) :
  0 <= os_socket os (count_socket (calls st)) SOCK_DGRAM ->
  0 <= os_socket os (S (count_socket (calls st))) SOCK_RAW ->
  0 <= os_sendto os (count_sendto (calls st)) ->
  let final := snd (scan_udp_port prog os target_ip port st) in
  let probe :=
    sys_sendto (os_socket os (count_socket (calls st)) SOCK_DGRAM) target_ip
      (htons port)
      (probe_data (chosen_payload prog port) (chosen_len prog port)) in
  let report k :=
    report_at prog os k port (chosen_service prog port)
      (chosen_rfc prog port) in
  (definitive (verdict_at os (count_select (calls st))) ->
     sent (calls final) = probe :: sent (calls st)
     /\ count_select (calls final) = S (count_select (calls st))
     /\ stdout final = (report (count_select (calls st)) ++ stdout st)%list)
  /\ (ambiguous (verdict_at os (count_select (calls st))) ->
      0 <= os_sendto os (S (count_sendto (calls st))) ->
      sent (calls final) = probe :: probe :: sent (calls st)
      /\ count_select (calls final) = S (S (count_select (calls st)))
      /\ stdout final
         = (report (S (count_select (calls st)))
              ++ report (count_select (calls st)) ++ stdout st)%list)
  /\ (List.length (sent (calls final))
      <= List.length (sent (calls st)) + 2)%nat.
Proof.
  intros Hu Hi Hsend final probe report. subst final probe report.
  split; [ | split ].
  - intro Hd. apply definitive_iff in Hd.
    destruct (scan_one_attempt prog os target_ip port st Hu Hi Hsend Hd)
      as (_ & Ho & Hc & Hk).
    repeat split; assumption.
  - intros Ha Hsend'. apply ambiguous_iff in Ha.
    destruct (scan_two_attempts prog os target_ip port st Hu Hi Hsend Hsend')
      as (_ & Ho & Hc & Hk); [ lia | lia | ].
    repeat split; assumption.
  - apply (scan_frame prog os target_ip port st).
Qed.

Lemma retry_policy_witness :
  sent (calls (snd (scan_udp_port udp_scanner silent "10.0.0.1" 54
                      initial_state)))
    = [sys_sendto 3 "10.0.0.1" 54 []; sys_sendto 3 "10.0.0.1" 54 []]
  /\ stdout (snd (scan_udp_port udp_scanner silent "10.0.0.1" 54
                    initial_state))
     = [line_open_filtered udp_scanner 54 None None;
        line_open_filtered udp_scanner 54 None None].
Proof.
  destruct (retry_policy udp_scanner silent "10.0.0.1" 54 initial_state)
    as (_ & H & _); [ vm_compute; discriminate .. | ].
  destruct H as (Hc & _ & Ho).
  - left. reflexivity.
  - vm_compute; discriminate.
  - split; [ exact Hc | exact Ho ].
Defined.

(** C4, as stated, fails: after an ICMP datagram of another type the
    classifier does not go on waiting.  The attempt is over after its one
    [select]; the next wait belongs to the prober's second attempt, which
    sends the probe again and starts a full deadline of its own. *)
Lemma stray_icmp_stops_the_wait :
  icmp_type (icmp_buffer stray_then_reply 0) <> ICMP_UNREACH
  /\ receive_response udp_scanner stray_then_reply 3 4 9 None None
       initial_state
     = (-1, mk_state (mk_stats 0 0 0 0) [] []
              [sys_recvfrom 4; sys_select 3 4 TIMEOUT_SEC TIMEOUT_USEC])
  /\ calls (snd (scan_udp_port udp_scanner stray_then_reply "10.0.0.1" 9
                   initial_state))
     = [sys_close 4; sys_close 3;
        sys_recvfrom 3; sys_select 3 4 TIMEOUT_SEC TIMEOUT_USEC;
        sys_sendto 3 "10.0.0.1" 9 [];
        sys_recvfrom 4; sys_select 3 4 TIMEOUT_SEC TIMEOUT_USEC;
        sys_sendto 3 "10.0.0.1" 9 [];
        sys_socket SOCK_RAW; sys_socket SOCK_DGRAM].
Proof.
  repeat split; (discriminate || reflexivity).
Qed.

(** Each of the three leaves the attempt without a verdict. *)
Lemma no_verdict_cases (os : OS) (k : nat) :
  wait_fails os k \/ empty_udp_read os k \/ stray_icmp_read os k ->
  verdict_at os k = -1.
Proof.
  intros [H | [(Hs & Hu & Hn & Hi) | (Hs & Hu & Hi & Hn & Ht)]].
  - apply verdict_at_error. exact H.
  - rewrite verdict_at_ready by exact Hs.
    rewrite (no_udp_reply_test os k (or_intror Hn)), Hi. reflexivity.
  - rewrite (verdict_at_icmp os k Hs Hu Hi Hn).
    apply Z.eqb_neq in Ht. rewrite Ht. reflexivity.
Qed.

(** C4, amended: an ICMP datagram of a type other than
    destination-unreachable gives no verdict and ends the attempt:
    [receive_response] returns -1 at once, having printed and counted
    nothing and waited once.  Waiting goes on only in the prober's next
    attempt: with an attempt left, the probe is sent again and a new wait
    is made; every wait is issued with the full timeout. *)
Theorem stray_icmp_ends_attempt (prog : program) (os : OS) :
  (forall (udp_sock icmp_sock port : Z) (service_name rfc : option string)
          (st : state),
     stray_icmp_read os (count_select (calls st)) ->
     fst (receive_response prog os udp_sock icmp_sock port service_name rfc
            st) = -1
     /\ stdout (snd (receive_response prog os udp_sock icmp_sock port
                       service_name rfc st)) = stdout st
     /\ stats (snd (receive_response prog os udp_sock icmp_sock port
                      service_name rfc st)) = stats st
     /\ count_select (calls (snd (receive_response prog os udp_sock
                                    icmp_sock port service_name rfc st)))
        = S (count_select (calls st)))
  /\ (forall (target_ip : string) (port : Z) (st : state),
        0 <= os_socket os (count_socket (calls st)) SOCK_DGRAM ->
        0 <= os_socket os (S (count_socket (calls st))) SOCK_RAW ->
        0 <= os_sendto os (count_sendto (calls st)) ->
        0 <= os_sendto os (S (count_sendto (calls st))) ->
        stray_icmp_read os (count_select (calls st)) ->
        sent (calls (snd (scan_udp_port prog os target_ip port st)))
        = sys_sendto (os_socket os (count_socket (calls st)) SOCK_DGRAM)
            target_ip (htons port)
            (probe_data (chosen_payload prog port) (chosen_len prog port))
          :: sys_sendto (os_socket os (count_socket (calls st)) SOCK_DGRAM)
               target_ip (htons port)
               (probe_data (chosen_payload prog port)
                  (chosen_len prog port))
          :: sent (calls st)
        /\ count_select (calls (snd (scan_udp_port prog os target_ip port
                                       st)))
           = S (S (count_select (calls st))))
  /\ (forall (udp_sock icmp_sock port : Z)
             (service_name rfc : option string) (st : state),
        drop_reads (calls (snd (receive_response prog os udp_sock icmp_sock
                                  port service_name rfc st)))
        = sys_select udp_sock icmp_sock TIMEOUT_SEC TIMEOUT_USEC
            :: calls st).
Proof.
  split; [ | split ].
  - intros udp_sock icmp_sock port service_name rfc st H.
    destruct (receive_response_spec prog os udp_sock icmp_sock port
                service_name rfc st) as (Hv & Hst & Ho & Hk & _).
    rewrite Hv, Hst, Ho, Hk. unfold report_at.
    rewrite (no_verdict_cases os _ (or_intror (or_intror H))).
    repeat split; reflexivity.
  - intros target_ip port st Hu Hi Hsend Hsend' H.
    pose proof (no_verdict_cases os _ (or_intror (or_intror H))) as Hv.
    destruct (scan_two_attempts prog os target_ip port st Hu Hi Hsend Hsend')
      as (_ & _ & Hc & Hk); try (rewrite Hv; discriminate).
    split; assumption.
  - intros udp_sock icmp_sock port service_name rfc st.
    apply (receive_response_spec prog os udp_sock icmp_sock port
             service_name rfc st).
Qed.

Lemma stray_icmp_ends_attempt_witness :
  (fst (receive_response udp_scanner_extended stray_then_reply 3 4 53
          (Some "DNS") (Some "RFC 1035") initial_state) = -1
   /\ stdout (snd (receive_response udp_scanner_extended stray_then_reply 3
                     4 53 (Some "DNS") (Some "RFC 1035") initial_state))
      = []
   /\ stats (snd (receive_response udp_scanner_extended stray_then_reply 3 4
                    53 (Some "DNS") (Some "RFC 1035") initial_state))
      = mk_stats 0 0 0 0
   /\ count_select (calls (snd (receive_response udp_scanner_extended
                                  stray_then_reply 3 4 53 (Some "DNS")
                                  (Some "RFC 1035") initial_state)))
      = 1%nat)
  /\ sent (calls (snd (scan_udp_port udp_scanner_extended stray_then_reply
                         "10.0.0.1" 9 initial_state)))
     = [sys_sendto 3 "10.0.0.1" 9 []; sys_sendto 3 "10.0.0.1" 9 []]
  /\ count_select (calls (snd (scan_udp_port udp_scanner_extended
                                 stray_then_reply "10.0.0.1" 9
                                 initial_state))) = 2%nat.
Proof.
  assert (S0 : stray_icmp_read stray_then_reply 0).
  { repeat split; try reflexivity.
    - left. reflexivity.
    - vm_compute. discriminate. }
  destruct (stray_icmp_ends_attempt udp_scanner_extended stray_then_reply)
    as (H & G & _).
  split.
  - apply (H 3 4 53 (Some "DNS") (Some "RFC 1035") initial_state). exact S0.
  - apply (G "10.0.0.1" 9 initial_state);
      try (vm_compute; discriminate).
    exact S0.
Defined.

(** With every send succeeding and no attempt giving a verdict, the retry
    loop runs all its iterations and leaves [stats] and stdout alone. *)
Lemma loop_without_verdicts (prog : program) (os : OS)
    (udp_sock icmp_sock : Z) (target_ip : string) (port : Z)
    (payload : list byte) (payload_len : Z)
    (service_name rfc : option string) (left : nat) :
  forall st : state,
  (forall j : nat, (j < left)%nat ->
     0 <= os_sendto os (count_sendto (calls st) + j)
     /\ verdict_at os (count_select (calls st) + j) = -1) ->
  let res := loop prog os udp_sock icmp_sock target_ip port payload
               payload_len service_name rfc left st in
  fst res = false
  /\ stats (snd res) = stats st
  /\ stdout (snd res) = stdout st
  /\ List.length (sent (calls (snd res)))
     = (List.length (sent (calls st)) + left)%nat
  /\ count_select (calls (snd res)) = (count_select (calls st) + left)%nat.
Proof.
  induction left as [| left IH]; intros st H res; subst res.
  - cbn. repeat split; lia.
  - destruct (H O ltac:(lia)) as (Hsend & Hv).
    rewrite Nat.add_0_r in Hsend, Hv.
    rewrite loop_retry by (assumption || (rewrite Hv; discriminate)).
    attempt_facts st As Ao Ac Ak.
    match goal with
    | |- context [loop _ _ _ _ _ _ _ _ _ _ _ ?s] =>
        specialize (IH s); cbv zeta in IH;
        destruct IH as (Ir & Is & Io & Ic & Ik)
    end.
    + intros j Hj. rewrite count_sendto_sent, Ac, Ak. cbn [List.length].
      rewrite <- count_sendto_sent.
      replace (S (count_sendto (calls st)) + j)%nat
        with (count_sendto (calls st) + S j)%nat by lia.
      replace (S (count_select (calls st)) + j)%nat
        with (count_select (calls st) + S j)%nat by lia.
      apply H. lia.
    + rewrite Ir, Is, Io, Ic, Ik, As, Ao, Ac, Ak, Hv.
      unfold report_at. rewrite Hv. cbn [tally app List.length].
      repeat split; lia.
Qed.



(** ** The orchestrator *)

Lemma print_statistics_stats (os : OS) (st : state) :
  stats (snd (print_statistics os st)) = stats st.
Proof. reflexivity. Qed.

Lemma print_statistics_stderr (os : OS) (st : state) :
  stderr (snd (print_statistics os st)) = stderr st.
Proof. reflexivity. Qed.

Lemma print_statistics_calls (os : OS) (st : state) :
  calls (snd (print_statistics os st))
  = sys_gettimeofday end_time :: calls st.
Proof. reflexivity. Qed.

(** The scan loop leaves through its own condition: a unit of fuel beyond
    the number of ports left changes nothing. *)
Lemma scan_ports_fuel (prog : program) (os : OS) (target_ip : string)
    (end_port : Z) (fuel : nat) :
  forall (port : Z) (st : state),
  end_port - port + 1 <= Z.of_nat fuel ->
  scan_ports prog os (S fuel) target_ip port end_port st
  = scan_ports prog os fuel target_ip port end_port st.
Proof.
  induction fuel as [| fuel IH]; intros port st H.
  - cbn [scan_ports].
    replace (port <=? end_port) with false
      by (symmetry; apply Z.leb_gt; lia).
    reflexivity.
  - change (scan_ports prog os (S (S fuel)) target_ip port end_port st)
      with ((if port <=? end_port
             then scan_udp_port prog os target_ip port ;;
                  set_stats incr_total ;;
                  usleep 10000 ;;
                  scan_ports prog os (S fuel) target_ip (port + 1) end_port
             else ret tt) st).
    change (scan_ports prog os (S fuel) target_ip port end_port st)
      with ((if port <=? end_port
             then scan_udp_port prog os target_ip port ;;
                  set_stats incr_total ;;
                  usleep 10000 ;;
                  scan_ports prog os fuel target_ip (port + 1) end_port
             else ret tt) st).
    destruct (port <=? end_port); [ | reflexivity ].
    unfold bind. apply IH. lia.
Qed.

Lemma grows_refl {A : Type} (l : list A) : grows l l.
Proof. exists []. reflexivity. Qed.

Lemma grows_cons {A : Type} (x : A) (now before : list A) :
  grows now before -> grows (x :: now) before.
Proof. intros [added E]. exists (x :: added). rewrite E. reflexivity. Qed.

Lemma grows_trans {A : Type} (l3 l2 l1 : list A) :
  grows l3 l2 -> grows l2 l1 -> grows l3 l1.
Proof.
  intros [a E] [b F]. exists (a ++ b)%list. rewrite E, F.
  apply app_assoc.
Qed.

Lemma grows_In {A : Type} (x : A) (now before : list A) :
  grows now before -> In x before -> In x now.
Proof. intros [added E] H. rewrite E. apply in_or_app. right. exact H. Qed.

Create HintDb scan.
#[local] Hint Resolve grows_refl grows_cons : scan.

Lemma receive_response_stderr (prog : program) (os : OS)
    (udp_sock icmp_sock port : Z) (service_name rfc : option string)
    (st : state) :
  grows (stderr (snd (receive_response prog os udp_sock icmp_sock port
                        service_name rfc st))) (stderr st).
Proof.
  destruct st as [sts out err cs]. run_scan.
  destruct (sel_ret (os_select os (count_select cs)) <? 0);
    [ destruct prog; cbn; auto with scan | ].
  destruct (sel_ret (os_select os (count_select cs)) =? 0);
    [ cbn; auto with scan | ].
  destruct (udp_ready (os_select os (count_select cs))); simp_scan;
    destruct (recv_len (os_recv_udp os (count_select cs)) >? 0); simp_scan;
    auto with scan;
    destruct (icmp_ready (os_select os (count_select cs))); simp_scan;
    auto with scan;
    destruct (recv_len (os_recv_icmp os (count_select cs)) >? 0); simp_scan;
    auto with scan;
    destruct (icmp_type (buffer_at (os_recv_icmp os (count_select cs))
                           (os_stack os (count_select cs)))
                =? ICMP_UNREACH); simp_scan;
    auto with scan;
    destruct (icmp_code (buffer_at (os_recv_icmp os (count_select cs))
                           (os_stack os (count_select cs)))
                =? ICMP_UNREACH_PORT); simp_scan;
    auto with scan.
Qed.

Lemma send_udp_probe_stderr (prog : program) (os : OS) (sockfd : Z)
    (target_ip : string) (port : Z) (payload : list byte) (payload_len : Z)
    (st : state) :
  grows (stderr (snd (send_udp_probe prog os sockfd target_ip port payload
                        payload_len st))) (stderr st).
Proof.
  destruct st as [sts out err cs]. run_scan.
  destruct (payload_len >? 0); simp_scan;
    destruct (os_sendto os (count_sendto cs) <? 0); simp_scan;
    destruct prog; cbn; auto with scan.
Qed.

Lemma probe_loop_stderr (prog : program) (os : OS) (udp_sock icmp_sock : Z)
    (target_ip : string) (port : Z) (payload : list byte) (payload_len : Z)
    (service_name rfc : option string) (left : nat) :
  forall st : state,
  grows (stderr (snd (probe_loop prog os left udp_sock icmp_sock target_ip
                        port payload payload_len service_name rfc st)))
    (stderr st).
Proof.
  induction left as [| left IH]; intro st; [ apply grows_refl | ].
  cbn [probe_loop]. unfold bind at 1.
  pose proof (send_udp_probe_stderr prog os udp_sock target_ip port payload
                payload_len st) as Hsend.
  destruct (fst (send_udp_probe prog os udp_sock target_ip port payload
                   payload_len st) <? 0).
  - exact Hsend.
  - unfold bind at 1.
    pose proof (receive_response_stderr prog os udp_sock icmp_sock port
                  service_name rfc
                  (snd (send_udp_probe prog os udp_sock target_ip port
                          payload payload_len st))) as Hrecv.
    destruct ((fst (receive_response prog os udp_sock icmp_sock port
                      service_name rfc _) =? 0) || _).
    + exact (grows_trans _ _ _ Hrecv Hsend).
    + exact (grows_trans _ _ _ (IH _) (grows_trans _ _ _ Hrecv Hsend)).
Qed.

Lemma scan_udp_port_stderr (prog : program) (os : OS) (target_ip : string)
    (port : Z) (st : state) :
  grows (stderr (snd (scan_udp_port prog os target_ip port st))) (stderr st).
Proof.
  unfold scan_udp_port, bind at 1. unfold socket, issue. cbn [fst snd].
  destruct (os_socket os (count_socket (calls st)) SOCK_DGRAM <? 0).
  - destruct prog; cbn; auto with scan.
  - unfold bind at 1. cbn [fst snd calls count_socket].
    destruct (os_socket os (S (count_socket (calls st))) SOCK_RAW <? 0).
    + destruct prog; cbn; auto with scan.
    + cbv zeta. unfold bind at 1.
      match goal with
      | |- context [probe_loop ?p ?o ?l ?u ?i ?t ?q ?pl ?len ?sn ?r ?s] =>
          pose proof (probe_loop_stderr p o u i t q pl len sn r l s) as H;
          destruct (fst (probe_loop p o l u i t q pl len sn r s))
      end; exact H.
Qed.

Section Run.

Variables (prog : program) (os : OS) (target_ip : string).

Local Abbreviation visited := (after_port prog os target_ip).

Lemma scan_ports_step (fuel : nat) (port end_port : Z) (st : state) :
  port <= end_port ->
  scan_ports prog os (S fuel) target_ip port end_port st
  = scan_ports prog os fuel target_ip (port + 1) end_port (visited port st).
Proof.
  intro H. cbn [scan_ports]. apply Z.leb_le in H. rewrite H. reflexivity.
Qed.

Lemma after_port_spec (port : Z) (st : state) :
  stats (visited port st)
    = incr_total (stats (snd (scan_udp_port prog os target_ip port st)))
  /\ stdout (visited port st)
     = stdout (snd (scan_udp_port prog os target_ip port st))
  /\ stderr (visited port st)
     = stderr (snd (scan_udp_port prog os target_ip port st))
  /\ calls (visited port st)
     = sys_usleep 10000
         :: calls (snd (scan_udp_port prog os target_ip port st)).
Proof. repeat split; reflexivity. Qed.

(** Every port of the range adds one to [total_ports], whatever became of
    its scan. *)
Lemma scan_ports_total (end_port : Z) (fuel : nat) :
  forall (port : Z) (st : state),
  Z.of_nat fuel = end_port - port + 1 ->
  total_ports (stats (snd (scan_ports prog os fuel target_ip port end_port
                             st)))
  = total_ports (stats st) + Z.of_nat fuel.
Proof.
  induction fuel as [| fuel IH]; intros port st H.
  - cbn. lia.
  - rewrite scan_ports_step by lia.
    rewrite IH by lia.
    destruct (after_port_spec port st) as (Hs & _).
    rewrite Hs. cbn [incr_total total_ports].
    destruct (scan_frame prog os target_ip port st) as (Ht & _).
    rewrite Ht. lia.
Qed.

Lemma scan_ports_stderr (end_port : Z) (fuel : nat) :
  forall (port : Z) (st : state),
  grows (stderr (snd (scan_ports prog os fuel target_ip port end_port st)))
    (stderr st).
Proof.
  induction fuel as [| fuel IH]; intros port st; [ apply grows_refl | ].
  destruct (Z.le_gt_cases port end_port) as [H | H].
  - rewrite scan_ports_step by exact H.
    apply (grows_trans _ _ _ (IH _ _)).
    destruct (after_port_spec port st) as (_ & _ & He & _).
    rewrite He. apply scan_udp_port_stderr.
  - cbn [scan_ports].
    replace (port <=? end_port) with false
      by (symmetry; apply Z.leb_gt; lia).
    apply grows_refl.
Qed.

Variable atoi : string -> Z.

(** A run on three arguments that name a valid range: the scan loop runs
    from a state in which nothing has been counted, sent or waited for
    yet, and the run ends with exit code 0. *)
Lemma main_valid (argv : list string) (st : state) :
  List.length argv = 4%nat ->
  invalid_range (atoi (nth 2 argv "")) (atoi (nth 3 argv "")) = false ->
  exists st0 : state,
    main prog os atoi argv st
    = (0, snd (print_statistics os
                 (snd (scan_ports prog os
                         (Z.to_nat (atoi (nth 3 argv "")
                                    - atoi (nth 2 argv "") + 1))
                         (nth 1 argv "") (atoi (nth 2 argv ""))
                         (atoi (nth 3 argv "")) st0))))
    /\ stats st0 = stats st
    /\ sent (calls st0) = sent (calls st)
    /\ count_sendto (calls st0) = count_sendto (calls st)
    /\ count_select (calls st0) = count_select (calls st)
    /\ count_socket (calls st0) = count_socket (calls st)
    /\ (os_geteuid os <> 0 -> stderr st0 = (warning ++ stderr st)%list).
Proof.
  intros Hargc Hrange.
  eexists. split.
  - unfold main. rewrite Hargc. cbn [Z.of_nat Pos.of_succ_nat Pos.succ
                                     Z.eqb Pos.eqb negb].
    rewrite Hrange. unfold bind. cbn [fst snd]. reflexivity.
  - unfold geteuid, gettimeofday, issue, printf, eprintf, ret.
    cbn [fst snd].
    destruct (os_geteuid os =? 0) eqn:Huid; cbn;
      repeat split; try reflexivity.
    intro H. apply Z.eqb_eq in Huid. contradiction.
Qed.

Lemma main_invalid (argv : list string) (st : state) :
  List.length argv = 4%nat ->
  invalid_range (atoi (nth 2 argv "")) (atoi (nth 3 argv "")) = true ->
  main prog os atoi argv st
  = (1, mk_state (stats st) (stdout st)
          (("Error: Invalid port range (1-65535)" ++ nl) :: stderr st)
          (calls st)).
Proof.
  intros Hargc Hrange.
  unfold main. rewrite Hargc. cbn [Z.of_nat Pos.of_succ_nat Pos.succ
                                   Z.eqb Pos.eqb negb].
  rewrite Hrange. reflexivity.
Qed.

End Run.

(** The range test of [main] rejects exactly the ranges that start below
    1, end above 65535 or run backwards. *)
Lemma invalid_range_iff (start_port end_port : Z) :
  invalid_range start_port end_port = true
  <-> start_port < 1 \/ 65535 < end_port \/ end_port < start_port.
Proof.
  unfold invalid_range.
  rewrite !orb_true_iff, !Z.gtb_ltb, !Z.ltb_lt. lia.
Qed.

Lemma valid_range_iff (start_port end_port : Z) :
  invalid_range start_port end_port = false
  <-> 1 <= start_port <= end_port /\ end_port <= 65535.
Proof.
  destruct (invalid_range start_port end_port) eqn:E.
  - apply invalid_range_iff in E. split; [ discriminate | lia ].
  - split; [ intros _ | reflexivity ].
    assert (H : ~ (start_port < 1 \/ 65535 < end_port
                   \/ end_port < start_port)).
    { intro H. apply invalid_range_iff in H. congruence. }
    lia.
Qed.

(** C8: on three arguments, a range that starts below 1, ends above 65535
    or runs backwards makes [main] return 1 without having issued a single
    system call, so before any socket is opened; every other range is
    scanned and [main] returns 0 whatever the ports turned out to be. *)
Theorem exit_codes (prog : program) (os : OS) (atoi : string -> Z)
    (argv : list string) (st : state) :
  List.length argv = 4%nat ->
  (atoi (nth 2 argv "") < 1 \/ 65535 < atoi (nth 3 argv "")
   \/ atoi (nth 3 argv "") < atoi (nth 2 argv "") ->
     fst (main prog os atoi argv st) = 1
     /\ calls (snd (main prog os atoi argv st)) = calls st)
  /\ (~ (atoi (nth 2 argv "") < 1 \/ 65535 < atoi (nth 3 argv "")
         \/ atoi (nth 3 argv "") < atoi (nth 2 argv "")) ->
      fst (main prog os atoi argv st) = 0).
Proof.
  intro Hargc. split; intro H.
  - apply invalid_range_iff in H.
    rewrite (main_invalid prog os atoi argv st Hargc H).
    split; reflexivity.
  - assert (Hv : invalid_range (atoi (nth 2 argv ""))
                   (atoi (nth 3 argv "")) = false).
    { apply valid_range_iff. lia. }
    destruct (main_valid prog os atoi argv st Hargc Hv) as (st0 & E & _).
    rewrite E. reflexivity.
Qed.

Lemma exit_codes_witness :
  fst (main udp_scanner silent atoi_decimal ["scan"; "10.0.0.1"; "0"; "54"]
         initial_state) = 1
  /\ calls (snd (main udp_scanner silent atoi_decimal
                   ["scan"; "10.0.0.1"; "0"; "54"] initial_state)) = [].
Proof.
  destruct (exit_codes udp_scanner silent atoi_decimal
              ["scan"; "10.0.0.1"; "0"; "54"] initial_state) as (H & _).
  - reflexivity.
  - apply H. left. reflexivity.
Defined.

(** C9: a run over a valid range adds one to [total_ports] for every port
    of the range, so [end_port - start_port + 1] in all, also for ports
    whose scan was given up before any verdict; the three outcome counters
    need not add up to it. *)
Theorem total_ports_counts_every_port :
  (forall (prog : program) (os : OS) (atoi : string -> Z)
          (argv : list string) (st : state),
     List.length argv = 4%nat ->
     1 <= atoi (nth 2 argv "") <= atoi (nth 3 argv "")
     /\ atoi (nth 3 argv "") <= 65535 ->
     total_ports (stats (snd (main prog os atoi argv st)))
     = total_ports (stats st)
       + (atoi (nth 3 argv "") - atoi (nth 2 argv "") + 1))
  /\ (exists (prog : program) (os : OS) (argv : list string),
        let sts := stats (snd (main prog os atoi_decimal argv
                                 initial_state)) in
        total_ports sts = 2
        /\ open_ports sts + closed_ports sts + filtered_ports sts
           <> total_ports sts).
Proof.
  split.
  - intros prog os atoi argv st Hargc Hrange.
    assert (Hv : invalid_range (atoi (nth 2 argv ""))
                   (atoi (nth 3 argv "")) = false)
      by (apply valid_range_iff; exact Hrange).
    destruct (main_valid prog os atoi argv st Hargc Hv)
      as (st0 & E & Hs & _).
    rewrite E. cbn [snd]. rewrite print_statistics_stats.
    rewrite scan_ports_total by lia.
    rewrite Hs. lia.
  - exists udp_scanner, (unprivileged silent),
      ["scan"; "10.0.0.1"; "53"; "54"].
    vm_compute. split; [ reflexivity | discriminate ].
Qed.

Lemma total_ports_counts_every_port_witness :
  total_ports (stats (snd (main udp_scanner_extended silent atoi_decimal
                             ["scan"; "10.0.0.1"; "1"; "3"] initial_state)))
  = 3.
Proof.
  destruct total_ports_counts_every_port as (H & _).
  apply (H udp_scanner_extended silent atoi_decimal
           ["scan"; "10.0.0.1"; "1"; "3"] initial_state).
  - reflexivity.
  - vm_compute. repeat split; discriminate.
Defined.

Section Unprivileged.

Variables (prog : program) (os : OS) (target_ip : string).

Hypothesis no_raw : forall k : nat, os_socket os k SOCK_RAW < 0.

(** Without a raw socket a port's scan sends nothing, waits for nothing,
    prints nothing on stdout and counts nothing. *)
Lemma scan_without_raw (port : Z) (st : state) :
  stats (snd (scan_udp_port prog os target_ip port st)) = stats st
  /\ stdout (snd (scan_udp_port prog os target_ip port st)) = stdout st
  /\ sent (calls (snd (scan_udp_port prog os target_ip port st)))
     = sent (calls st)
  /\ count_select (calls (snd (scan_udp_port prog os target_ip port st)))
     = count_select (calls st).
Proof.
  destruct (Z.lt_ge_cases (os_socket os (count_socket (calls st)) SOCK_DGRAM)
              0) as [Hu | Hu].
  - destruct (scan_without_udp_socket prog os target_ip port st Hu)
      as (Hs & Ho & Hc).
    rewrite Hs, Ho, Hc. repeat split; reflexivity.
  - destruct (scan_without_raw_socket prog os target_ip port st)
      as (Hs & Ho & Hc); [ lia | apply no_raw | ].
    rewrite Hs, Ho, Hc. repeat split; reflexivity.
Qed.

Lemma scan_ports_without_raw (end_port : Z) (fuel : nat) :
  forall (port : Z) (st : state),
  Z.of_nat fuel = end_port - port + 1 ->
  stats (snd (scan_ports prog os fuel target_ip port end_port st))
  = mk_stats (total_ports (stats st) + Z.of_nat fuel) (open_ports (stats st))
      (closed_ports (stats st)) (filtered_ports (stats st))
  /\ sent (calls (snd (scan_ports prog os fuel target_ip port end_port st)))
     = sent (calls st)
  /\ count_select (calls (snd (scan_ports prog os fuel target_ip port
                                 end_port st)))
     = count_select (calls st).
Proof.
  induction fuel as [| fuel IH]; intros port st H.
  - cbn [scan_ports ret snd Z.of_nat]. rewrite Z.add_0_r.
    destruct (stats st). repeat split; reflexivity.
  - rewrite scan_ports_step by lia.
    destruct (IH (port + 1) (after_port prog os target_ip port st))
      as (Is & Ic & Ik); [ lia | ].
    rewrite Is, Ic, Ik.
    destruct (after_port_spec prog os target_ip port st)
      as (As & _ & _ & Ac).
    destruct (scan_without_raw port st) as (Hs & _ & Hc & Hk).
    rewrite As, Ac, Hs. cbn [sent count_select]. rewrite Hc, Hk.
    cbn [incr_total total_ports open_ports closed_ports filtered_ports].
    repeat split; try reflexivity.
    f_equal. lia.
Qed.

End Unprivileged.







(** * Further properties *)

(** ** Looking a port up *)

Lemma find_probe_sound (table : list udp_probe_t) (port : Z)
    (e : udp_probe_t) :
  find_probe table port = Some e ->
  port_of e = port /\ service_name e <> None /\ In e table.
Proof.
  induction table as [| x rest IH]; cbn [find_probe]; [ discriminate | ].
  destruct (service_name x) eqn:Hn; [ | discriminate ].
  destruct (port_of x =? port) eqn:Hp.
  - intro H. injection H as <-. apply Z.eqb_eq in Hp.
    repeat split; [ exact Hp | congruence | left; reflexivity ].
  - intro H. destruct (IH H) as (A & B & C).
    repeat split; [ exact A | exact B | right; exact C ].
Qed.

Lemma find_probe_first (before after : list udp_probe_t) (e : udp_probe_t)
    (port : Z) :
  Forall (fun x => service_name x <> None /\ port_of x <> port) before ->
  service_name e <> None -> port_of e = port ->
  find_probe (before ++ e :: after) port = Some e.
Proof.
  intros Hb Hn Hp. induction Hb as [| x before [Hx Hq] _ IH].
  - cbn [app find_probe].
    destruct (service_name e); [ | contradiction ].
    apply Z.eqb_eq in Hp. rewrite Hp. reflexivity.
  - cbn [app find_probe].
    destruct (service_name x); [ | contradiction ].
    apply Z.eqb_neq in Hq. rewrite Hq. exact IH.
Qed.

Lemma find_probe_app_hit (before rest : list udp_probe_t) (port : Z) :
  (exists x, In x before /\ port_of x = port) ->
  find_probe (before ++ rest) port = find_probe before port.
Proof.
  induction before as [| y before IH]; intros (x & Hin & Hp).
  - destruct Hin.
  - cbn [app find_probe].
    destruct (service_name y); [ | reflexivity ].
    destruct (port_of y =? port) eqn:Hy; [ reflexivity | ].
    apply IH. destruct Hin as [-> | Hin].
    + apply Z.eqb_neq in Hy. contradiction.
    + exists x. split; assumption.
Qed.

Lemma find_probe_none_iff (l : list udp_probe_t) (s : udp_probe_t)
    (port : Z) :
  service_name s = None ->
  Forall (fun x => service_name x <> None) l ->
  find_probe (l ++ [s]) port = None
  <-> Forall (fun x => port_of x <> port) l.
Proof.
  intros Hs Hl. induction Hl as [| x l Hx _ IH].
  - cbn [app find_probe]. rewrite Hs. split; [ constructor | reflexivity ].
  - cbn [app find_probe].
    destruct (service_name x); [ | contradiction ].
    destruct (port_of x =? port) eqn:Hp.
    + apply Z.eqb_eq in Hp. split; [ discriminate | ].
      intro H. inversion H. contradiction.
    + apply Z.eqb_neq in Hp. rewrite IH. split.
      * intro H. constructor; assumption.
      * intro H. inversion H. assumption.
Qed.

(** Both protocol databases end in their one entry without a name. *)
Lemma udp_probes_terminated (prog : program) :
  exists l s,
    udp_probes prog = (l ++ [s])%list
    /\ service_name s = None
    /\ Forall (fun x => service_name x <> None) l.
Proof.
  exists (removelast (udp_probes prog)),
    (last (udp_probes prog) (mk_probe 0 None [] 0 None)).
  destruct prog; (split; [ reflexivity | split; [ reflexivity | ] ]);
    apply Forall_forall; intros x Hx;
    cbv [udp_probes Basic.udp_probes Extended.udp_probes removelast] in Hx;
    cbn [In] in Hx;
    repeat (destruct Hx as [<- | Hx]; [ discriminate | ]);
    destruct Hx.
Qed.

(** X1: a probe returned for a port is an entry of the protocol database
    that carries this port and a service name. *)
Theorem lookup_sound (prog : program) (port : Z) (e : udp_probe_t) :
  get_probe_for_port prog port = Some e ->
  port_of e = port /\ service_name e <> None /\ In e (udp_probes prog).
Proof. apply find_probe_sound. Qed.

Lemma lookup_sound_witness :
  port_of (mk_probe 123 (Some "NTP") Basic.ntp_probe
             (sizeof Basic.ntp_probe) (Some "NTP response")) = 123
  /\ service_name (mk_probe 123 (Some "NTP") Basic.ntp_probe
                     (sizeof Basic.ntp_probe) (Some "NTP response")) <> None
  /\ In (mk_probe 123 (Some "NTP") Basic.ntp_probe (sizeof Basic.ntp_probe)
           (Some "NTP response")) (udp_probes udp_scanner).
Proof.
  apply (lookup_sound udp_scanner 123). reflexivity.
Defined.

(** X2: no probe is returned exactly when no named entry of the database
    carries the port; the terminating entry, whose port field is 0, is
    never returned, for port 0 either. *)
Theorem lookup_none_iff (prog : program) (port : Z) :
  get_probe_for_port prog port = None
  <-> (forall e, In e (udp_probes prog) -> service_name e <> None ->
       port_of e <> port).
Proof.
  destruct (udp_probes_terminated prog) as (l & s & E & Hs & Hl).
  unfold get_probe_for_port. rewrite E.
  rewrite (find_probe_none_iff l s port Hs Hl), Forall_forall.
  split; intros H e.
  - intros Hin Hn. apply in_app_or in Hin. destruct Hin as [Hin | [<- | []]].
    + apply H. exact Hin.
    + contradiction.
  - intro Hin. apply H.
    + apply in_or_app. left. exact Hin.
    + rewrite Forall_forall in Hl. apply Hl. exact Hin.
Qed.

(** X3: of several entries for one port the first is the one returned:
    an entry is found for its port when every entry ahead of it is named
    and carries another port. *)
Theorem lookup_first_match (prog : program)
    (before after : list udp_probe_t) (e : udp_probe_t) :
  udp_probes prog = (before ++ e :: after)%list ->
  Forall (fun x => service_name x <> None /\ port_of x <> port_of e)
    before ->
  service_name e <> None ->
  get_probe_for_port prog (port_of e) = Some e.
Proof.
  intros E Hb Hn. unfold get_probe_for_port. rewrite E.
  apply find_probe_first; [ exact Hb | exact Hn | reflexivity ].
Qed.

Lemma lookup_first_match_witness :
  get_probe_for_port udp_scanner_extended 53
  = Some (mk_probe 53 (Some "DNS") Extended.dns_status_probe
            (sizeof Extended.dns_status_probe) (Some "RFC 1035")).
Proof.
  apply (lookup_first_match udp_scanner_extended
           (firstn 1 Extended.udp_probes) (skipn 2 Extended.udp_probes)
           (mk_probe 53 (Some "DNS") Extended.dns_status_probe
              (sizeof Extended.dns_status_probe) (Some "RFC 1035"))).
  - reflexivity.
  - repeat constructor; discriminate.
  - discriminate.
Defined.

(** X4: an entry that stands behind another entry for the same port is
    never returned, whatever port is asked for.  The DNS version.bind
    probe of udp_scanner_extended.c is such an entry. *)
Theorem lookup_shadowed (prog : program)
    (before after : list udp_probe_t) (e first : udp_probe_t) :
  udp_probes prog = (before ++ e :: after)%list ->
  In first before -> port_of first = port_of e -> ~ In e before ->
  forall port : Z, get_probe_for_port prog port <> Some e.
Proof.
  intros E Hin Hp Hnot port H.
  destruct (lookup_sound prog port e H) as (Hport & _ & _).
  unfold get_probe_for_port in H. rewrite E in H.
  rewrite find_probe_app_hit in H
    by (exists first; split; [ exact Hin | congruence ]).
  apply find_probe_sound in H. destruct H as (_ & _ & H).
  contradiction.
Qed.

Lemma lookup_shadowed_witness :
  get_probe_for_port udp_scanner_extended 53
  <> Some (mk_probe 53 (Some "DNS") Extended.dns_version_probe
             (sizeof Extended.dns_version_probe) (Some "RFC 1035")).
Proof.
  refine (lookup_shadowed udp_scanner_extended
            (firstn 2 Extended.udp_probes) (skipn 3 Extended.udp_probes)
            (mk_probe 53 (Some "DNS") Extended.dns_version_probe
               (sizeof Extended.dns_version_probe) (Some "RFC 1035"))
            (mk_probe 53 (Some "DNS") Extended.dns_status_probe
               (sizeof Extended.dns_status_probe) (Some "RFC 1035"))
            _ _ _ _ 53).
  - reflexivity.
  - right. left. reflexivity.
  - reflexivity.
  - intros [H | [H | []]]; discriminate H.
Defined.

Lemma udp_probes_lengths (prog : program) :
  Forall (fun e => 0 <= payload_len e <= sizeof (payload e))
    (udp_probes prog).
Proof.
  apply Forall_forall. intros e He.
  assert (H : forallb (fun e => (0 <=? payload_len e)
                                && (payload_len e <=? sizeof (payload e)))
                (udp_probes prog) = true)
    by (destruct prog; vm_compute; reflexivity).
  rewrite forallb_forall in H. specialize (H e He).
  apply andb_true_iff in H. destruct H as [A B].
  apply Z.leb_le in A, B. split; assumption.
Qed.


(** ** More on the classifier *)

(** X6: a UDP reply wins over anything on the raw socket: once the UDP
    read has brought a datagram, [receive_response] returns 0 without
    reading the raw socket, whether or not [select] reported it readable
    as well. *)
Theorem udp_reply_wins (prog : program) (os : OS)
    (udp_sock icmp_sock port : Z) (service_name rfc : option string)
    (st : state) :
  0 < sel_ret (os_select os (count_select (calls st))) ->
  udp_ready (os_select os (count_select (calls st))) = true ->
  0 < recv_len (os_recv_udp os (count_select (calls st))) ->
  receive_response prog os udp_sock icmp_sock port service_name rfc st
  = (0, mk_state (incr_open (stats st))
          (line_open prog port service_name rfc
             (recv_len (os_recv_udp os (count_select (calls st))))
           :: stdout st)
          (stderr st)
          (sys_recvfrom udp_sock
           :: sys_select udp_sock icmp_sock TIMEOUT_SEC TIMEOUT_USEC
           :: calls st)).
Proof.
  intros Hs Hu Hn. destruct st as [sts out err cs].
  cbn [calls] in Hs, Hu, Hn. run_scan.
  replace (sel_ret (os_select os (count_select cs)) <? 0) with false
    by (symmetry; apply Z.ltb_ge; lia).
  replace (sel_ret (os_select os (count_select cs)) =? 0) with false
    by (symmetry; apply Z.eqb_neq; lia).
  rewrite Hu. simp_scan.
  replace (recv_len (os_recv_udp os (count_select cs)) >? 0) with true
    by (symmetry; rewrite Z.gtb_ltb; apply Z.ltb_lt; exact Hn).
  reflexivity.
Qed.

Lemma udp_reply_wins_witness :
  receive_response udp_scanner both_arrive 3 4 53 (Some "DNS") None
    initial_state
  = (0, mk_state (mk_stats 0 1 0 0)
          [line_open udp_scanner 53 (Some "DNS") None 3] []
          [sys_recvfrom 3; sys_select 3 4 TIMEOUT_SEC TIMEOUT_USEC]).
Proof.
  apply (udp_reply_wins udp_scanner both_arrive 3 4 53 (Some "DNS") None
           initial_state); reflexivity.
Defined.

(** X7: the result of an attempt and the counter it changes depend on
    what the two sockets deliver and on nothing else: not on the port
    being probed, the service expected, the descriptors, or which of the
    two programs runs.  An ICMP port-unreachable that reaches the raw
    socket closes whichever port is being scanned. *)
Theorem verdict_ignores_port (prog prog' : program) (os : OS)
    (udp_sock icmp_sock port udp_sock' icmp_sock' port' : Z)
    (service_name rfc service_name' rfc' : option string) (st : state) :
  fst (receive_response prog os udp_sock icmp_sock port service_name rfc st)
  = fst (receive_response prog' os udp_sock' icmp_sock' port' service_name'
           rfc' st)
  /\ stats (snd (receive_response prog os udp_sock icmp_sock port
                   service_name rfc st))
     = stats (snd (receive_response prog' os udp_sock' icmp_sock' port'
                     service_name' rfc' st)).
Proof.
  destruct (receive_response_spec prog os udp_sock icmp_sock port
              service_name rfc st) as (Hv & Hs & _).
  destruct (receive_response_spec prog' os udp_sock' icmp_sock' port'
              service_name' rfc' st) as (Hv' & Hs' & _).
  rewrite Hv, Hv', Hs, Hs'. split; reflexivity.
Qed.

Lemma byte_val_range (b : byte) : 0 <= byte_val b < 256.
Proof.
  unfold byte_val. pose proof (Byte.to_N_bounded b) as H.
  lia.
Qed.

Lemma buffer_at_byte (r : recv_result) (garbage : nat -> byte) (i : Z) :
  exists b : byte, buffer_at r garbage i = byte_val b.
Proof.
  unfold buffer_at. eexists. reflexivity.
Qed.

(** X8: the ICMP header is looked for at an offset that is a multiple of
    4 between 0 and 60, whatever the first byte of the datagram holds, so
    the type and code are read from within [buffer]. *)
Theorem icmp_header_inside_buffer (r : recv_result) (garbage : nat -> byte) :
  0 <= icmp_hdr (buffer_at r garbage) <= 60
  /\ icmp_hdr (buffer_at r garbage) mod 4 = 0
  /\ icmp_hdr (buffer_at r garbage) + 1 < MAX_PACKET_SIZE.
Proof.
  unfold icmp_hdr, ip_hl, MAX_PACKET_SIZE.
  destruct (buffer_at_byte r garbage 0) as [b ->].
  pose proof (byte_val_range b) as Hb.
  change 15 with (Z.ones 4). rewrite Z.land_ones by lia.
  rewrite Z.shiftl_mul_pow2 by lia.
  change (2 ^ 2) with 4. change (2 ^ 4) with 16.
  pose proof (Z.mod_pos_bound (byte_val b) 16 ltac:(lia)) as Hm.
  rewrite Z.mod_mul by lia. lia.
Qed.

Lemma buffer_at_past (d : list byte) (garbage : nat -> byte) (i : Z) :
  recv_len (recv_datagram d) <= i ->
  buffer_at (recv_datagram d) garbage i = byte_val (garbage (Z.to_nat i)).
Proof.
  intro H. unfold buffer_at.
  replace (i <? recv_len (recv_datagram d)) with false
    by (symmetry; apply Z.ltb_ge; exact H).
  reflexivity.
Qed.

Lemma header_past_the_datagram (d : list byte) (garbage : nat -> byte) :
  sizeof d <= icmp_hdr (buffer_at (recv_datagram d) garbage) ->
  icmp_type (buffer_at (recv_datagram d) garbage)
  = byte_val (garbage (Z.to_nat (icmp_hdr (buffer_at (recv_datagram d)
                                             garbage))))
  /\ icmp_code (buffer_at (recv_datagram d) garbage)
     = byte_val (garbage (Z.to_nat (icmp_hdr (buffer_at (recv_datagram d)
                                                garbage) + 1))).
Proof.
  intro H. unfold icmp_type, icmp_code.
  set (off := icmp_hdr (buffer_at (recv_datagram d) garbage)) in *.
  assert (L : recv_len (recv_datagram d) <= off).
  { cbn [recv_len]. lia. }
  rewrite !buffer_at_past by lia.
  split; reflexivity.
Qed.

(** X9: the length received is not checked against the header offset.  When
    [select] marks the raw socket, the UDP block takes no reply and the
    datagram read from the raw socket is not empty but ends at or before
    the offset its first byte announces, [receive_response] classifies the
    port by what the stack held at that offset before the read: a stale 3
    there makes it return an ICMP unreachable verdict, Closed with its
    line and its counter when the byte after it is 3 too and Filtered
    otherwise; any other stale byte gives no verdict. *)
Theorem short_datagram_reads_stack (prog : program) (os : OS)
    (udp_sock icmp_sock port : Z) (service_name rfc : option string)
    (st : state) (b : byte) (rest : list byte) :
  0 < sel_ret (os_select os (count_select (calls st))) ->
  no_udp_reply os (count_select (calls st)) ->
  icmp_ready (os_select os (count_select (calls st))) = true ->
  os_recv_icmp os (count_select (calls st)) = recv_datagram (b :: rest) ->
  sizeof (b :: rest) <= Z.shiftl (ip_hl (byte_val b)) 2 ->
  fst (receive_response prog os udp_sock icmp_sock port service_name rfc st)
  = (if byte_val (os_stack os (count_select (calls st))
                    (Z.to_nat (Z.shiftl (ip_hl (byte_val b)) 2)))
        =? ICMP_UNREACH
     then (if byte_val (os_stack os (count_select (calls st))
                          (Z.to_nat (Z.shiftl (ip_hl (byte_val b)) 2 + 1)))
              =? ICMP_UNREACH_PORT
           then 2 else 3)
     else -1)
  /\ (byte_val (os_stack os (count_select (calls st))
                  (Z.to_nat (Z.shiftl (ip_hl (byte_val b)) 2)))
      = ICMP_UNREACH ->
      byte_val (os_stack os (count_select (calls st))
                  (Z.to_nat (Z.shiftl (ip_hl (byte_val b)) 2 + 1)))
      = ICMP_UNREACH_PORT ->
      verdict_of (fst (receive_response prog os udp_sock icmp_sock port
                         service_name rfc st)) = Some Closed
      /\ stdout (snd (receive_response prog os udp_sock icmp_sock port
                        service_name rfc st))
         = line_closed prog port :: stdout st
      /\ stats (snd (receive_response prog os udp_sock icmp_sock port
                       service_name rfc st))
         = incr_closed (stats st)).
Proof.
  intros Hs Hu Hi Hd Hshort.
  destruct (receive_response_spec prog os udp_sock icmp_sock port
              service_name rfc st) as (Hv & Ht & Ho & _).
  rewrite Hv, Ht, Ho. unfold report_at.
  rewrite (verdict_at_ready os _ Hs).
  rewrite (no_udp_reply_test os _ Hu).
  rewrite Hi.
  assert (Hpos : 0 < sizeof (b :: rest))
    by (unfold sizeof; cbn [List.length]; lia).
  assert (Hfirst : icmp_buffer os (count_select (calls st)) 0
                   = byte_val b).
  { unfold icmp_buffer. rewrite Hd. unfold buffer_at.
    cbn [recv_len].
    replace (0 <? Z.min (sizeof (b :: rest)) MAX_PACKET_SIZE) with true
      by (symmetry; apply Z.ltb_lt; unfold MAX_PACKET_SIZE; lia).
    reflexivity. }
  assert (Hoff : icmp_hdr (icmp_buffer os (count_select (calls st)))
                 = Z.shiftl (ip_hl (byte_val b)) 2).
  { unfold icmp_hdr. rewrite Hfirst. reflexivity. }
  assert (Hshort' : sizeof (b :: rest)
                    <= icmp_hdr (buffer_at (recv_datagram (b :: rest))
                                   (os_stack os (count_select (calls st))))).
  { unfold icmp_buffer in Hoff. rewrite Hd in Hoff. rewrite Hoff.
    exact Hshort. }
  destruct (header_past_the_datagram (b :: rest)
              (os_stack os (count_select (calls st))) Hshort')
    as (Htype & Hcode).
  assert (Hlen : (recv_len (os_recv_icmp os (count_select (calls st))) >? 0)
                 = true).
  { rewrite Hd. cbn [recv_len]. rewrite Z.gtb_ltb. apply Z.ltb_lt.
    unfold MAX_PACKET_SIZE. lia. }
  rewrite Hlen. cbn [andb].
  unfold icmp_buffer in *. rewrite Hd in *.
  rewrite Htype, Hcode, Hoff.
  split.
  - reflexivity.
  - intros E3 E3'. rewrite E3, E3'. repeat split; reflexivity.
Qed.

Lemma short_datagram_reads_stack_witness :
  fst (receive_response udp_scanner one_byte_datagram 3 4 53 (Some "DNS")
         None initial_state) = 2
  /\ verdict_of (fst (receive_response udp_scanner one_byte_datagram 3 4 53
                        (Some "DNS") None initial_state)) = Some Closed
  /\ stdout (snd (receive_response udp_scanner one_byte_datagram 3 4 53
                    (Some "DNS") None initial_state))
     = [line_closed udp_scanner 53]
  /\ stats (snd (receive_response udp_scanner one_byte_datagram 3 4 53
                   (Some "DNS") None initial_state))
     = mk_stats 0 0 1 0.
Proof.
  destruct (short_datagram_reads_stack udp_scanner one_byte_datagram 3 4 53
              (Some "DNS") None initial_state x45 [])
    as (H & G).
  - vm_compute; reflexivity.
  - left; reflexivity.
  - reflexivity.
  - reflexivity.
  - vm_compute; discriminate.
  - split; [ exact H | apply G; reflexivity ].
Defined.

(** ** Sockets, pauses and stderr *)

Ltac simp_trace :=
  cbn [fst snd stats stdout stderr calls count_select count_sendto
       count_socket sent drop_reads closed pauses Nat.pred andb orb negb
       app].

Ltac done_trace :=
  repeat split;
  first [ reflexivity | intro; discriminate | intro; reflexivity ].

(** [receive_response] closes nothing and takes no pause; in
    udp_scanner_extended.c it writes nothing on stderr. *)
Lemma receive_response_trace (prog : program) (os : OS)
    (udp_sock icmp_sock port : Z) (service_name rfc : option string)
    (st : state) :
  let res := receive_response prog os udp_sock icmp_sock port service_name
               rfc st in
  closed (calls (snd res)) = closed (calls st)
  /\ pauses (calls (snd res)) = pauses (calls st)
  /\ (prog = udp_scanner_extended -> stderr (snd res) = stderr st).
Proof.
  intro res; subst res.
  destruct st as [sts out err cs]. run_scan.
  destruct (sel_ret (os_select os (count_select cs)) <? 0);
    [ destruct prog; done_trace | ].
  destruct (sel_ret (os_select os (count_select cs)) =? 0);
    [ done_trace | ].
  destruct (udp_ready (os_select os (count_select cs))); simp_trace;
    destruct (recv_len (os_recv_udp os (count_select cs)) >? 0); simp_trace;
    try done_trace;
    destruct (icmp_ready (os_select os (count_select cs))); simp_trace;
    try done_trace;
    destruct (recv_len (os_recv_icmp os (count_select cs)) >? 0); simp_trace;
    try done_trace;
    destruct (icmp_type (buffer_at (os_recv_icmp os (count_select cs))
                           (os_stack os (count_select cs)))
                =? ICMP_UNREACH); simp_trace;
    try done_trace;
    destruct (icmp_code (buffer_at (os_recv_icmp os (count_select cs))
                           (os_stack os (count_select cs)))
                =? ICMP_UNREACH_PORT); simp_trace;
    done_trace.
Qed.

Lemma send_udp_probe_trace (prog : program) (os : OS) (sockfd : Z)
    (target_ip : string) (port : Z) (payload : list byte) (payload_len : Z)
    (st : state) :
  let res := send_udp_probe prog os sockfd target_ip port payload
               payload_len st in
  closed (calls (snd res)) = closed (calls st)
  /\ pauses (calls (snd res)) = pauses (calls st)
  /\ (prog = udp_scanner_extended -> stderr (snd res) = stderr st).
Proof.
  intro res; subst res.
  destruct st as [sts out err cs]. run_scan.
  destruct (payload_len >? 0); simp_trace;
    destruct (os_sendto os (count_sendto cs) <? 0); simp_trace;
    destruct prog; done_trace.
Qed.

(** The retry loop closes both sockets when it leaves through the
    [return] of a failed send, and nothing otherwise. *)
Lemma probe_loop_trace (prog : program) (os : OS) (udp_sock icmp_sock : Z)
    (target_ip : string) (port : Z) (payload : list byte) (payload_len : Z)
    (service_name rfc : option string) (left : nat) :
  forall st : state,
  let res := probe_loop prog os left udp_sock icmp_sock target_ip port
               payload payload_len service_name rfc st in
  closed (calls (snd res))
  = ((if fst res then [icmp_sock; udp_sock] else []) ++ closed (calls st))%list
  /\ pauses (calls (snd res)) = pauses (calls st)
  /\ (prog = udp_scanner_extended -> stderr (snd res) = stderr st).
Proof.
  induction left as [| left IH]; intros st res; subst res.
  - cbn. done_trace.
  - cbn [probe_loop]. unfold bind, close, issue, ret.
    destruct (send_udp_probe_trace prog os udp_sock target_ip port payload
                payload_len st) as (Sc & Sp & Se).
    set (s1 := snd (send_udp_probe prog os udp_sock target_ip port payload
                      payload_len st)) in *.
    destruct (fst (send_udp_probe prog os udp_sock target_ip port payload
                     payload_len st) <? 0).
    + simp_trace. rewrite Sc, Sp. repeat split; try reflexivity. exact Se.
    + destruct (receive_response_trace prog os udp_sock icmp_sock port
                  service_name rfc s1) as (Rc & Rp & Re).
      set (s2 := snd (receive_response prog os udp_sock icmp_sock port
                        service_name rfc s1)) in *.
      destruct ((fst (receive_response prog os udp_sock icmp_sock port
                        service_name rfc s1) =? 0) || _).
      * simp_trace. rewrite Rc, Rp, Sc, Sp.
        repeat split; try reflexivity.
        intro E. rewrite (Re E). exact (Se E).
      * destruct (IH s2) as (Ic & Ip & Ie).
        rewrite Ic, Ip, Rc, Rp, Sc, Sp.
        repeat split; try reflexivity.
        intro E. rewrite (Ie E), (Re E). exact (Se E).
Qed.

Lemma scan_udp_port_trace (prog : program) (os : OS) (target_ip : string)
    (port : Z) (st : state) :
  let udp_sock := os_socket os (count_socket (calls st)) SOCK_DGRAM in
  let icmp_sock := os_socket os (S (count_socket (calls st))) SOCK_RAW in
  let final := snd (scan_udp_port prog os target_ip port st) in
  closed (calls final)
  = ((if udp_sock <? 0 then []
      else if icmp_sock <? 0 then [udp_sock]
      else [icmp_sock; udp_sock]) ++ closed (calls st))%list
  /\ pauses (calls final) = pauses (calls st)
  /\ (prog = udp_scanner_extended -> stderr final = stderr st).
Proof.
  intros udp_sock icmp_sock final. subst final.
  remember (scan_udp_port prog os target_ip port st) as run eqn:E.
  unfold scan_udp_port, bind at 1 in E. unfold socket, issue in E.
  cbn [fst snd calls count_socket] in E. fold udp_sock in E.
  destruct (udp_sock <? 0).
  - subst run. destruct prog; done_trace.
  - unfold bind at 1 in E. cbn [fst snd calls count_socket] in E.
    fold icmp_sock in E.
    destruct (icmp_sock <? 0).
    + subst run. destruct prog; done_trace.
    + cbv zeta in E. unfold bind at 1 in E.
      match type of E with
      | context [probe_loop ?p ?o ?l ?u ?i ?t ?q ?pl ?len ?sn ?r ?s] =>
          destruct (probe_loop_trace p o u i t q pl len sn r l s)
            as (Lc & Lp & Le);
          set (res := probe_loop p o l u i t q pl len sn r s) in *
      end.
      cbn [calls stderr closed pauses] in Lc, Lp, Le.
      destruct (fst res); subst run.
      * unfold ret. cbn [snd]. rewrite Lc, Lp.
        repeat split; try reflexivity. exact Le.
      * unfold bind, close, issue. simp_trace. rewrite Lc, Lp.
        repeat split; try reflexivity. exact Le.
Qed.

(** X10: [scan_udp_port] releases what it acquired on every path.  When it
    returns, the descriptors it has closed are exactly the sockets it
    managed to create: none when the UDP socket failed, the UDP socket when
    the raw socket failed, both otherwise, whether the port was scanned to
    the end or given up on a failed send. *)
Theorem sockets_released (prog : program) (os : OS) (target_ip : string)
    (port : Z) (st : state) :
  closed (calls (snd (scan_udp_port prog os target_ip port st)))
  = ((if os_socket os (count_socket (calls st)) SOCK_DGRAM <? 0 then []
      else if os_socket os (S (count_socket (calls st))) SOCK_RAW <? 0
           then [os_socket os (count_socket (calls st)) SOCK_DGRAM]
           else [os_socket os (S (count_socket (calls st))) SOCK_RAW;
                 os_socket os (count_socket (calls st)) SOCK_DGRAM])
     ++ closed (calls st))%list.
Proof.
  apply (scan_udp_port_trace prog os target_ip port st).
Qed.

(** X11: a failed send ends the port at once.  When the first [sendto]
    fails, nothing is waited for, printed or counted and there is no second
    send; when the first attempt settled nothing and the second [sendto]
    fails, the port ends there with the one wait made.  In both cases the
    two sockets are closed. *)
Theorem failed_send_gives_up_port (prog : program) (os : OS)
    (target_ip : string) (port : Z) (st : state) :
  0 <= os_socket os (count_socket (calls st)) SOCK_DGRAM ->
  0 <= os_socket os (S (count_socket (calls st))) SOCK_RAW ->
  let final := snd (scan_udp_port prog os target_ip port st) in
  (os_sendto os (count_sendto (calls st)) < 0 ->
     stats final = stats st
     /\ stdout final = stdout st
     /\ List.length (sent (calls final)) = S (List.length (sent (calls st)))
     /\ count_select (calls final) = count_select (calls st))
  /\ (0 <= os_sendto os (count_sendto (calls st)) ->
      verdict_at os (count_select (calls st)) <> 0 ->
      verdict_at os (count_select (calls st)) <> 2 ->
      os_sendto os (S (count_sendto (calls st))) < 0 ->
      stats final = tally (verdict_at os (count_select (calls st))) (stats st)
      /\ List.length (sent (calls final))
         = S (S (List.length (sent (calls st))))
      /\ count_select (calls final) = S (count_select (calls st))).
Proof.
  intros Hu Hi final. subst final.
  destruct (scan_with_sockets prog os target_ip port st Hu Hi)
    as (Hs & Ho & Hc & Hk & _).
  rewrite Hs, Ho, Hc, Hk. change MAX_RETRIES with 2%nat.
  split.
  - intro Hfail.
    match goal with
    | |- context [loop ?a ?b ?c ?d ?e ?f ?g ?h ?i ?j 2 ?s] =>
        destruct (loop_send_fails a b c d e f g h i j 1 s Hfail)
          as (_ & Ls & Lo & Lc & Lk & _)
    end.
    rewrite Ls, Lo, Lc, Lk. repeat split; reflexivity.
  - intros Hok Hv0 Hv2 Hfail.
    rewrite loop_retry by assumption.
    attempt_facts (with_sockets st) As Ao Ac Ak.
    cbn [with_sockets stats stdout calls sent count_select] in As, Ao, Ac, Ak.
    match goal with
    | |- context [loop ?a ?b ?c ?d ?e ?f ?g ?h ?i ?j 1 ?s] =>
        destruct (loop_send_fails a b c d e f g h i j 0 s)
          as (_ & Ls & Lo & Lc & Lk & _)
    end.
    + rewrite count_sendto_sent, Ac. cbn [List.length].
      rewrite <- count_sendto_sent. exact Hfail.
    + rewrite Ls, Lc, Lk, As, Ac, Ak. repeat split; reflexivity.
Qed.

Lemma failed_send_gives_up_port_witness :
  stats (snd (scan_udp_port udp_scanner send_refused "10.0.0.1" 53
                initial_state)) = mk_stats 0 0 0 0
  /\ stdout (snd (scan_udp_port udp_scanner send_refused "10.0.0.1" 53
                    initial_state)) = []
  /\ List.length (sent (calls (snd (scan_udp_port udp_scanner send_refused
                                      "10.0.0.1" 53 initial_state))))
     = 1%nat
  /\ count_select (calls (snd (scan_udp_port udp_scanner send_refused
                                 "10.0.0.1" 53 initial_state))) = 0%nat.
Proof.
  destruct (failed_send_gives_up_port udp_scanner send_refused "10.0.0.1" 53
              initial_state) as (H & _).
  - vm_compute; discriminate.
  - vm_compute; discriminate.
  - apply H. reflexivity.
Defined.

(** ** What a port can add to the counters *)

Lemma tally_other (v : Z) (sts : scan_stats_t) :
  v <> 0 -> v <> 2 ->
  open_ports (tally v sts) = open_ports sts
  /\ closed_ports (tally v sts) = closed_ports sts
  /\ filtered_ports sts <= filtered_ports (tally v sts)
     <= filtered_ports sts + 1.
Proof.
  intros H0 H2.
  destruct v as [| p | p]; [ contradiction | | cbn; lia ].
  destruct p as [[q | q |] | [q | q |] |]; cbn; lia.
Qed.

Section Counters.

Variables (prog : program) (os : OS).

(** The retry loop counts a port as open or as closed at most once, never
    as both, and adds at most one to the counters per iteration. *)
Lemma loop_counts (udp_sock icmp_sock : Z) (target_ip : string) (port : Z)
    (payload : list byte) (payload_len : Z)
    (service_name rfc : option string) (left : nat) :
  forall st : state,
  let s := stats st in
  let s' := stats (snd (loop prog os udp_sock icmp_sock target_ip port
                          payload payload_len service_name rfc left st)) in
  open_ports s <= open_ports s'
  /\ closed_ports s <= closed_ports s'
  /\ filtered_ports s <= filtered_ports s'
  /\ open_ports s' + closed_ports s' <= open_ports s + closed_ports s + 1
  /\ open_ports s' + closed_ports s' + filtered_ports s'
     <= open_ports s + closed_ports s + filtered_ports s + Z.of_nat left.
Proof.
  induction left as [| left IH]; intros st s s'; subst s s'.
  - cbn. lia.
  - destruct (Z.lt_ge_cases (os_sendto os (count_sendto (calls st))) 0)
      as [Hf | Hok].
    + destruct (loop_send_fails prog os udp_sock icmp_sock target_ip port
                  payload payload_len service_name rfc left st Hf)
        as (_ & Hs & _).
      rewrite Hs. lia.
    + assert (Hok' : 0 <= os_sendto os (count_sendto (calls st))) by lia.
      destruct (after_attempt_spec prog os udp_sock icmp_sock target_ip port
                  payload payload_len service_name rfc st) as (Hs & _).
      destruct (Z.eq_dec (verdict_at os (count_select (calls st))) 0)
        as [H0 | H0];
        [ | destruct (Z.eq_dec (verdict_at os (count_select (calls st))) 2)
              as [H2 | H2] ].
      * rewrite loop_definitive by auto. cbn [snd].
        rewrite Hs, H0. cbn. lia.
      * rewrite loop_definitive by auto. cbn [snd].
        rewrite Hs, H2. cbn. lia.
      * rewrite loop_retry by assumption.
        specialize (IH (after_attempt prog os udp_sock icmp_sock target_ip
                          port payload payload_len service_name rfc st)).
        cbv zeta in IH. rewrite Hs in IH.
        destruct (tally_other _ (stats st) H0 H2) as (To & Tc & Tf).
        rewrite To, Tc in IH. lia.
Qed.

Lemma scan_counts (target_ip : string) (port : Z) (st : state) :
  let s := stats st in
  let s' := stats (snd (scan_udp_port prog os target_ip port st)) in
  total_ports s' = total_ports s
  /\ open_ports s <= open_ports s'
  /\ closed_ports s <= closed_ports s'
  /\ filtered_ports s <= filtered_ports s'
  /\ open_ports s' + closed_ports s' <= open_ports s + closed_ports s + 1
  /\ open_ports s' + closed_ports s' + filtered_ports s'
     <= open_ports s + closed_ports s + filtered_ports s
        + Z.of_nat MAX_RETRIES.
Proof.
  intros s s'; subst s s'.
  split; [ apply (scan_frame prog os target_ip port st) | ].
  destruct (Z.lt_ge_cases (os_socket os (count_socket (calls st)) SOCK_DGRAM)
              0) as [Hu | Hu].
  - destruct (scan_without_udp_socket prog os target_ip port st Hu)
      as (Hs & _).
    rewrite Hs. lia.
  - destruct (Z.lt_ge_cases
                (os_socket os (S (count_socket (calls st))) SOCK_RAW) 0)
      as [Hi | Hi].
    + destruct (scan_without_raw_socket prog os target_ip port st)
        as (Hs & _); [ lia | exact Hi | ].
      rewrite Hs. lia.
    + destruct (scan_with_sockets prog os target_ip port st)
        as (Hs & _); [ lia | lia | ].
      rewrite Hs.
      apply (loop_counts
               (os_socket os (count_socket (calls st)) SOCK_DGRAM)
               (os_socket os (S (count_socket (calls st))) SOCK_RAW)
               target_ip port (chosen_payload prog port)
               (chosen_len prog port) (chosen_service prog port)
               (chosen_rfc prog port) MAX_RETRIES (with_sockets st)).
Qed.

Lemma scan_ports_counts (target_ip : string) (end_port : Z) (fuel : nat) :
  forall (port : Z) (st : state),
  Z.of_nat fuel = end_port - port + 1 ->
  let s := stats st in
  let s' := stats (snd (scan_ports prog os fuel target_ip port end_port
                          st)) in
  total_ports s' = total_ports s + Z.of_nat fuel
  /\ open_ports s <= open_ports s'
  /\ closed_ports s <= closed_ports s'
  /\ filtered_ports s <= filtered_ports s'
  /\ open_ports s' + closed_ports s'
     <= open_ports s + closed_ports s + Z.of_nat fuel
  /\ open_ports s' + closed_ports s' + filtered_ports s'
     <= open_ports s + closed_ports s + filtered_ports s
        + Z.of_nat MAX_RETRIES * Z.of_nat fuel.
Proof.
  induction fuel as [| fuel IH]; intros port st H s s'; subst s s'.
  - cbn. lia.
  - rewrite scan_ports_step by lia.
    specialize (IH (port + 1) (after_port prog os target_ip port st)).
    cbv zeta in IH.
    destruct IH as (It & Io & Ic & If & Id & Ia); [ lia | ].
    destruct (after_port_spec prog os target_ip port st) as (As & _).
    rewrite As in It, Io, Ic, If, Id, Ia.
    cbn [incr_total total_ports open_ports closed_ports filtered_ports]
      in It, Io, Ic, If, Id, Ia.
    pose proof (scan_counts target_ip port st) as P. cbv zeta in P.
    change (Z.of_nat MAX_RETRIES) with 2 in *.
    lia.
Qed.

End Counters.

(** X12: one port adds at most one to [open_ports] and [closed_ports]
    taken together, so it is never counted both open and closed; it adds
    at most [MAX_RETRIES] to the three outcome counters taken together;
    no counter ever goes down and [total_ports] is left alone. *)
Theorem port_counted_at_most_twice (prog : program) (os : OS)
    (target_ip : string) (port : Z) (st : state) :
  let s := stats st in
  let s' := stats (snd (scan_udp_port prog os target_ip port st)) in
  total_ports s' = total_ports s
  /\ open_ports s <= open_ports s'
  /\ closed_ports s <= closed_ports s'
  /\ filtered_ports s <= filtered_ports s'
  /\ open_ports s' + closed_ports s' <= open_ports s + closed_ports s + 1
  /\ open_ports s' + closed_ports s' + filtered_ports s'
     <= open_ports s + closed_ports s + filtered_ports s + 2.
Proof.
  apply (scan_counts prog os target_ip port st).
Qed.

(** ** More on a whole run *)

Section Whole.

Variables (prog : program) (os : OS) (atoi : string -> Z).

(** A run on a valid range, with all that precedes the scan loop spelled
    out. *)
Lemma main_valid_start (argv : list string) (st : state) :
  List.length argv = 4%nat ->
  invalid_range (atoi (nth 2 argv "")) (atoi (nth 3 argv "")) = false ->
  exists st0 : state,
    main prog os atoi argv st
    = (0, snd (print_statistics os
                 (snd (scan_ports prog os
                         (Z.to_nat (atoi (nth 3 argv "")
                                    - atoi (nth 2 argv "") + 1))
                         (nth 1 argv "") (atoi (nth 2 argv ""))
                         (atoi (nth 3 argv "")) st0))))
    /\ stats st0 = stats st
    /\ calls st0 = sys_gettimeofday start_time :: sys_geteuid :: calls st
    /\ stderr st0
       = ((if os_geteuid os =? 0 then [] else warning) ++ stderr st)%list.
Proof.
  intros Hargc Hrange.
  eexists. split.
  - unfold main. rewrite Hargc. cbn [Z.of_nat Pos.of_succ_nat Pos.succ
                                     Z.eqb Pos.eqb negb].
    rewrite Hrange. unfold bind. cbn [fst snd]. reflexivity.
  - unfold geteuid, gettimeofday, issue, printf, eprintf, ret.
    cbn [fst snd].
    destruct (os_geteuid os =? 0); cbn; repeat split; reflexivity.
Qed.

Lemma main_usage (argv : list string) (st : state) :
  List.length argv <> 4%nat ->
  main prog os atoi argv st
  = (1, snd (print_usage prog (nth 0 argv "") st)).
Proof.
  intro H. unfold main.
  replace (Z.of_nat (List.length argv) =? 4) with false
    by (symmetry; apply Z.eqb_neq; lia).
  reflexivity.
Qed.

Lemma print_usage_quiet (prog_name : string) (st : state) :
  stats (snd (print_usage prog prog_name st)) = stats st
  /\ stderr (snd (print_usage prog prog_name st)) = stderr st
  /\ calls (snd (print_usage prog prog_name st)) = calls st.
Proof. destruct prog; repeat split; reflexivity. Qed.

Lemma repeat_app_cons {A : Type} (x : A) (n : nat) (l : list A) :
  (repeat x n ++ x :: l)%list = x :: (repeat x n ++ l)%list.
Proof.
  induction n as [| n IH]; [ reflexivity | ].
  cbn [repeat app]. rewrite IH. reflexivity.
Qed.

Lemma scan_ports_trace (target_ip : string) (end_port : Z) (fuel : nat) :
  forall (port : Z) (st : state),
  Z.of_nat fuel = end_port - port + 1 ->
  pauses (calls (snd (scan_ports prog os fuel target_ip port end_port st)))
  = (repeat 10000 fuel ++ pauses (calls st))%list
  /\ (prog = udp_scanner_extended ->
      stderr (snd (scan_ports prog os fuel target_ip port end_port st))
      = stderr st).
Proof.
  induction fuel as [| fuel IH]; intros port st H.
  - split; [ reflexivity | intros _; reflexivity ].
  - rewrite scan_ports_step by lia.
    destruct (IH (port + 1) (after_port prog os target_ip port st))
      as (Ip & Ie); [ lia | ].
    destruct (after_port_spec prog os target_ip port st)
      as (_ & _ & Ae & Ac).
    destruct (scan_udp_port_trace prog os target_ip port st)
      as (_ & Sp & Se).
    rewrite Ip, Ac. cbn [pauses repeat]. rewrite Sp.
    split.
    + apply repeat_app_cons.
    + intro E. rewrite (Ie E), Ae. exact (Se E).
Qed.

End Whole.

(** X13: however the ports of a run turn out, the statistics of a run
    that starts from zero stay within bounds: no counter is negative,
    [open_ports + closed_ports] never exceeds [total_ports], the three
    outcome counters together never exceed twice [total_ports], and
    [total_ports] is at most 65535, so every counter fits a C [int]. *)
Theorem run_counters_bounded (prog : program) (os : OS)
    (atoi : string -> Z) (argv : list string) :
  List.length argv = 4%nat ->
  1 <= atoi (nth 2 argv "") <= atoi (nth 3 argv "")
  /\ atoi (nth 3 argv "") <= 65535 ->
  let s := stats (snd (main prog os atoi argv initial_state)) in
  0 <= open_ports s /\ 0 <= closed_ports s /\ 0 <= filtered_ports s
  /\ open_ports s + closed_ports s <= total_ports s
  /\ open_ports s + closed_ports s + filtered_ports s <= 2 * total_ports s
  /\ total_ports s <= 65535
  /\ filtered_ports s < 2 ^ 31.
Proof.
  intros Hargc Hrange s. subst s.
  assert (Hv : invalid_range (atoi (nth 2 argv ""))
                 (atoi (nth 3 argv "")) = false)
    by (apply valid_range_iff; exact Hrange).
  destruct (main_valid prog os atoi argv initial_state Hargc Hv)
    as (st0 & E & Hs & _).
  rewrite E. cbn [snd]. rewrite print_statistics_stats.
  pose proof (scan_ports_counts prog os (nth 1 argv "")
                (atoi (nth 3 argv ""))
                (Z.to_nat (atoi (nth 3 argv "") - atoi (nth 2 argv "") + 1))
                (atoi (nth 2 argv "")) st0 ltac:(lia)) as P.
  cbv zeta in P. rewrite Hs in P.
  cbn [initial_state stats total_ports open_ports closed_ports
       filtered_ports] in P.
  change (Z.of_nat MAX_RETRIES) with 2 in P.
  lia.
Qed.

Lemma run_counters_bounded_witness :
  open_ports (stats (snd (main udp_scanner reply_then_silence atoi_decimal
                            ["scan"; "10.0.0.1"; "53"; "54"]
                            initial_state)))
  + closed_ports (stats (snd (main udp_scanner reply_then_silence
                                atoi_decimal
                                ["scan"; "10.0.0.1"; "53"; "54"]
                                initial_state)))
  <= total_ports (stats (snd (main udp_scanner reply_then_silence
                                atoi_decimal
                                ["scan"; "10.0.0.1"; "53"; "54"]
                                initial_state))).
Proof.
  destruct (run_counters_bounded udp_scanner reply_then_silence atoi_decimal
              ["scan"; "10.0.0.1"; "53"; "54"])
    as (_ & _ & _ & H & _).
  - reflexivity.
  - vm_compute. repeat split; discriminate.
  - exact H.
Defined.

(** ** The log of system calls *)

Ltac log_segment cs :=
  simp_scan;
  match goal with
  | |- exists seg, ?a :: ?b :: ?c :: cs = _ /\ _ => exists [a; b; c]
  | |- exists seg, ?a :: ?b :: cs = _ /\ _ => exists [a; b]
  | |- exists seg, ?a :: cs = _ /\ _ => exists [a]
  | |- exists seg, cs = _ /\ _ => exists []
  end;
  split; reflexivity.

(** [receive_response] adds a [select] and reads to the log. *)
Lemma receive_response_log (prog : program) (os : OS)
    (udp_sock icmp_sock port : Z) (service_name rfc : option string)
    (st : state) :
  exists seg : list syscall,
    calls (snd (receive_response prog os udp_sock icmp_sock port
                  service_name rfc st)) = (seg ++ calls st)%list
    /\ forallb inside_scan seg = true.
Proof.
  destruct st as [sts out err cs]. run_scan.
  destruct (sel_ret (os_select os (count_select cs)) <? 0);
    [ destruct prog; log_segment cs | ].
  destruct (sel_ret (os_select os (count_select cs)) =? 0);
    [ log_segment cs | ].
  destruct (udp_ready (os_select os (count_select cs))); simp_scan;
    destruct (recv_len (os_recv_udp os (count_select cs)) >? 0); simp_scan;
    try log_segment cs;
    destruct (icmp_ready (os_select os (count_select cs))); simp_scan;
    try log_segment cs;
    destruct (recv_len (os_recv_icmp os (count_select cs)) >? 0); simp_scan;
    try log_segment cs;
    destruct (icmp_type (buffer_at (os_recv_icmp os (count_select cs))
                           (os_stack os (count_select cs)))
                =? ICMP_UNREACH); simp_scan;
    try log_segment cs;
    destruct (icmp_code (buffer_at (os_recv_icmp os (count_select cs))
                           (os_stack os (count_select cs)))
                =? ICMP_UNREACH_PORT); simp_scan;
    log_segment cs.
Qed.

Lemma send_udp_probe_log (prog : program) (os : OS) (sockfd : Z)
    (target_ip : string) (port : Z) (payload : list byte) (payload_len : Z)
    (st : state) :
  exists seg : list syscall,
    calls (snd (send_udp_probe prog os sockfd target_ip port payload
                  payload_len st)) = (seg ++ calls st)%list
    /\ forallb inside_scan seg = true.
Proof.
  destruct st as [sts out err cs]. run_scan.
  destruct (payload_len >? 0); simp_scan;
    destruct (os_sendto os (count_sendto cs) <? 0); simp_scan;
    destruct prog; log_segment cs.
Qed.

Lemma probe_loop_log (prog : program) (os : OS) (udp_sock icmp_sock : Z)
    (target_ip : string) (port : Z) (payload : list byte) (payload_len : Z)
    (service_name rfc : option string) (left : nat) :
  forall st : state,
  exists seg : list syscall,
    calls (snd (probe_loop prog os left udp_sock icmp_sock target_ip port
                  payload payload_len service_name rfc st))
    = (seg ++ calls st)%list
    /\ forallb inside_scan seg = true.
Proof.
  induction left as [| left IH]; intro st.
  - exists []. split; reflexivity.
  - cbn [probe_loop]. unfold bind, close, issue, ret.
    destruct (send_udp_probe_log prog os udp_sock target_ip port payload
                payload_len st) as (seg1 & S1 & F1).
    set (s1 := snd (send_udp_probe prog os udp_sock target_ip port payload
                      payload_len st)) in *.
    destruct (fst (send_udp_probe prog os udp_sock target_ip port payload
                     payload_len st) <? 0).
    + cbn [fst snd calls]. rewrite S1.
      exists (sys_close icmp_sock :: sys_close udp_sock :: seg1).
      split; [ reflexivity | exact F1 ].
    + destruct (receive_response_log prog os udp_sock icmp_sock port
                  service_name rfc s1) as (seg2 & S2 & F2).
      set (s2 := snd (receive_response prog os udp_sock icmp_sock port
                        service_name rfc s1)) in *.
      destruct ((fst (receive_response prog os udp_sock icmp_sock port
                        service_name rfc s1) =? 0) || _).
      * cbn [snd]. rewrite S2, S1. exists (seg2 ++ seg1)%list.
        split; [ apply app_assoc | ].
        rewrite forallb_app, F2, F1. reflexivity.
      * destruct (IH s2) as (seg3 & S3 & F3).
        rewrite S3, S2, S1. exists (seg3 ++ seg2 ++ seg1)%list.
        split; [ rewrite <- !app_assoc; reflexivity | ].
        rewrite !forallb_app, F3, F2, F1. reflexivity.
Qed.

(** A port's scan creates its UDP socket first; whatever it does after
    that is a raw socket, sends, waits, reads and closes. *)
Lemma scan_udp_port_log (prog : program) (os : OS) (target_ip : string)
    (port : Z) (st : state) :
  exists scan : list syscall,
    calls (snd (scan_udp_port prog os target_ip port st))
    = (scan ++ sys_socket SOCK_DGRAM :: calls st)%list
    /\ forallb inside_scan scan = true.
Proof.
  remember (scan_udp_port prog os target_ip port st) as run eqn:E.
  unfold scan_udp_port, bind at 1 in E. unfold socket, issue in E.
  cbn [fst snd calls count_socket] in E.
  destruct (os_socket os (count_socket (calls st)) SOCK_DGRAM <? 0).
  - subst run. exists []. split; [ destruct prog; reflexivity | reflexivity ].
  - unfold bind at 1 in E. cbn [fst snd calls count_socket] in E.
    destruct (os_socket os (S (count_socket (calls st))) SOCK_RAW <? 0).
    + subst run. exists [sys_close (os_socket os (count_socket (calls st))
                                      SOCK_DGRAM); sys_socket SOCK_RAW].
      split; [ destruct prog; reflexivity | reflexivity ].
    + cbv zeta in E. unfold bind at 1 in E.
      match type of E with
      | context [probe_loop ?p ?o ?l ?u ?i ?t ?q ?pl ?len ?sn ?r ?s] =>
          destruct (probe_loop_log p o u i t q pl len sn r l s)
            as (seg & Lc & Lf);
          set (res := probe_loop p o l u i t q pl len sn r s) in *
      end.
      cbn [calls] in Lc.
      destruct (fst res); subst run.
      * unfold ret. cbn [snd]. rewrite Lc.
        exists (seg ++ [sys_socket SOCK_RAW])%list.
        split; [ rewrite <- app_assoc; reflexivity | ].
        rewrite forallb_app, Lf. reflexivity.
      * unfold bind, close, issue. cbn [fst snd calls]. rewrite Lc.
        exists (sys_close (os_socket os (S (count_socket (calls st)))
                             SOCK_RAW)
                  :: sys_close (os_socket os (count_socket (calls st))
                                  SOCK_DGRAM)
                  :: seg ++ [sys_socket SOCK_RAW])%list.
        split; [ cbn [app]; rewrite <- app_assoc; reflexivity | ].
        cbn [forallb inside_scan andb]. rewrite forallb_app, Lf. reflexivity.
Qed.

(** The scan loop leaves one block on the log for each port. *)
Lemma scan_ports_log (prog : program) (os : OS) (target_ip : string)
    (end_port : Z) (fuel : nat) :
  forall (port : Z) (st : state),
  Z.of_nat fuel = end_port - port + 1 ->
  exists scans : list (list syscall),
    List.length scans = fuel
    /\ forallb (forallb inside_scan) scans = true
    /\ calls (snd (scan_ports prog os fuel target_ip port end_port st))
       = (flat_map port_block scans ++ calls st)%list.
Proof.
  induction fuel as [| fuel IH]; intros port st H.
  - exists []. repeat split; reflexivity.
  - rewrite scan_ports_step by lia.
    destruct (IH (port + 1) (after_port prog os target_ip port st))
      as (scans & Hl & Hf & Hc); [ lia | ].
    destruct (after_port_spec prog os target_ip port st)
      as (_ & _ & _ & Ac).
    destruct (scan_udp_port_log prog os target_ip port st)
      as (scan & Sc & Sf).
    exists (scans ++ [scan])%list. split; [ | split ].
    + rewrite length_app, Hl. cbn [List.length]. lia.
    + rewrite forallb_app, Hf. cbn [forallb]. rewrite Sf. reflexivity.
    + rewrite Hc, Ac, Sc, flat_map_app. cbn [flat_map].
      rewrite app_nil_r, <- app_assoc. unfold port_block.
      cbn [app]. rewrite <- app_assoc. reflexivity.
Qed.

(** The calls of a scan do not touch the clock. *)
Lemma inside_scan_clock (os : OS) (field : time_field)
    (scan cs : list syscall) :
  forallb inside_scan scan = true ->
  count_gettimeofday (scan ++ cs) = count_gettimeofday cs
  /\ stored_time os field (scan ++ cs) = stored_time os field cs.
Proof.
  induction scan as [| c scan IH]; intro H.
  - split; reflexivity.
  - cbn [forallb] in H. apply andb_prop in H. destruct H as (Hc & Hs).
    destruct (IH Hs) as (I1 & I2).
    destruct c; try discriminate Hc; cbn [app count_gettimeofday stored_time];
      split; assumption.
Qed.

Lemma port_blocks_clock (os : OS) (field : time_field)
    (scans : list (list syscall)) (cs : list syscall) :
  forallb (forallb inside_scan) scans = true ->
  count_gettimeofday (flat_map port_block scans ++ cs)
  = count_gettimeofday cs
  /\ stored_time os field (flat_map port_block scans ++ cs)
     = stored_time os field cs.
Proof.
  induction scans as [| scan scans IH]; intro H.
  - split; reflexivity.
  - cbn [forallb] in H. apply andb_prop in H. destruct H as (Hc & Hs).
    destruct (IH Hs) as (I1 & I2).
    cbn [flat_map]. unfold port_block at 1 3.
    cbn [app]. rewrite <- !app_assoc. cbn [count_gettimeofday stored_time].
    destruct (inside_scan_clock os field scan
                ([sys_socket SOCK_DGRAM]
                   ++ flat_map port_block scans ++ cs)%list Hc)
      as (J1 & J2).
    rewrite J1, J2. cbn [app count_gettimeofday stored_time].
    split; assumption.
Qed.

(** X14: a run over a valid range pauses once after every port, the last
    one included, each time for 10000 microseconds, and nowhere else.  The
    calls of the run are, in the order issued: [geteuid], the clock, then
    for each port of the range the creation of its UDP socket, the other
    calls of its scan (raw socket, sends, waits, reads, closes) and the
    pause, and after the last port's pause the clock again. *)
Theorem run_pauses_after_every_port (prog : program) (os : OS)
    (atoi : string -> Z) (argv : list string) (st : state) :
  List.length argv = 4%nat ->
  1 <= atoi (nth 2 argv "") <= atoi (nth 3 argv "")
  /\ atoi (nth 3 argv "") <= 65535 ->
  pauses (calls (snd (main prog os atoi argv st)))
  = (repeat 10000
       (Z.to_nat (atoi (nth 3 argv "") - atoi (nth 2 argv "") + 1))
     ++ pauses (calls st))%list
  /\ exists scans : list (list syscall),
       List.length scans
       = Z.to_nat (atoi (nth 3 argv "") - atoi (nth 2 argv "") + 1)
       /\ forallb (forallb inside_scan) scans = true
       /\ calls (snd (main prog os atoi argv st))
          = (sys_gettimeofday end_time
               :: flat_map port_block scans
               ++ sys_gettimeofday start_time :: sys_geteuid :: calls st)%list.
Proof.
  intros Hargc Hrange.
  assert (Hv : invalid_range (atoi (nth 2 argv ""))
                 (atoi (nth 3 argv "")) = false)
    by (apply valid_range_iff; exact Hrange).
  destruct (main_valid_start prog os atoi argv st Hargc Hv)
    as (st0 & E & _ & Hc & _).
  rewrite E. cbn [snd]. rewrite print_statistics_calls. cbn [pauses].
  split.
  - destruct (scan_ports_trace prog os (nth 1 argv "") (atoi (nth 3 argv ""))
                (Z.to_nat (atoi (nth 3 argv "") - atoi (nth 2 argv "") + 1))
                (atoi (nth 2 argv "")) st0) as (Hp & _); [ lia | ].
    rewrite Hp, Hc. reflexivity.
  - destruct (scan_ports_log prog os (nth 1 argv "") (atoi (nth 3 argv ""))
                (Z.to_nat (atoi (nth 3 argv "") - atoi (nth 2 argv "") + 1))
                (atoi (nth 2 argv "")) st0) as (scans & Hl & Hf & Hs);
      [ lia | ].
    exists scans. rewrite Hs, Hc. repeat split; assumption.
Qed.

Lemma run_pauses_after_every_port_witness :
  pauses (calls (snd (main udp_scanner_extended silent atoi_decimal
                        ["scan"; "10.0.0.1"; "1"; "3"] initial_state)))
  = [10000; 10000; 10000]
  /\ exists scans : list (list syscall),
       List.length scans = 3%nat
       /\ forallb (forallb inside_scan) scans = true
       /\ calls (snd (main udp_scanner_extended silent atoi_decimal
                        ["scan"; "10.0.0.1"; "1"; "3"] initial_state))
          = (sys_gettimeofday end_time
               :: flat_map port_block scans
               ++ [sys_gettimeofday start_time; sys_geteuid])%list.
Proof.
  apply (run_pauses_after_every_port udp_scanner_extended silent atoi_decimal
           ["scan"; "10.0.0.1"; "1"; "3"] initial_state).
  - reflexivity.
  - vm_compute. repeat split; discriminate.
Defined.

(** X15: udp_scanner_extended.c never reports a failed system call.  A
    scan of a port writes nothing on stderr whatever fails, and a whole
    run by root over a valid range leaves stderr as it was. *)
Theorem extended_scanner_is_silent (os : OS) :
  (forall (target_ip : string) (port : Z) (st : state),
     stderr (snd (scan_udp_port udp_scanner_extended os target_ip port st))
     = stderr st)
  /\ (forall (atoi : string -> Z) (argv : list string) (st : state),
        List.length argv = 4%nat ->
        1 <= atoi (nth 2 argv "") <= atoi (nth 3 argv "")
        /\ atoi (nth 3 argv "") <= 65535 ->
        os_geteuid os = 0 ->
        stderr (snd (main udp_scanner_extended os atoi argv st))
        = stderr st).
Proof.
  split.
  - intros target_ip port st.
    apply (scan_udp_port_trace udp_scanner_extended os target_ip port st).
    reflexivity.
  - intros atoi argv st Hargc Hrange Hroot.
    assert (Hv : invalid_range (atoi (nth 2 argv ""))
                   (atoi (nth 3 argv "")) = false)
      by (apply valid_range_iff; exact Hrange).
    destruct (main_valid_start udp_scanner_extended os atoi argv st Hargc Hv)
      as (st0 & E & _ & _ & He).
    rewrite E. cbn [snd]. rewrite print_statistics_stderr.
    destruct (scan_ports_trace udp_scanner_extended os (nth 1 argv "")
                (atoi (nth 3 argv ""))
                (Z.to_nat (atoi (nth 3 argv "") - atoi (nth 2 argv "") + 1))
                (atoi (nth 2 argv "")) st0) as (_ & Hs); [ lia | ].
    rewrite (Hs eq_refl), He, Hroot. reflexivity.
Qed.

Lemma extended_scanner_is_silent_witness :
  stderr (snd (main udp_scanner_extended send_refused atoi_decimal
                 ["scan"; "10.0.0.1"; "53"; "54"] initial_state)) = [].
Proof.
  destruct (extended_scanner_is_silent send_refused) as (_ & H).
  apply (H atoi_decimal ["scan"; "10.0.0.1"; "53"; "54"] initial_state).
  - reflexivity.
  - vm_compute. repeat split; discriminate.
  - reflexivity.
Defined.



(** ** [checksum] *)

(** The two folding steps and the complement, on a sum that has not
    overflowed. *)
Lemma fold_steps (sum : Z) :
  0 <= sum < 2 ^ 32 ->
  u16 (Z.lnot (u32 (u32 (Z.shiftr sum 16 + Z.land sum 65535)
                    + Z.shiftr (u32 (Z.shiftr sum 16 + Z.land sum 65535))
                        16)))
  = 65535 - fold16 sum.
Proof.
  intro H. unfold u16, u32, fold16, Z.lnot.
  change 65535 with (Z.ones 16) at 1 2.
  rewrite !Z.land_ones by lia.
  rewrite !Z.shiftr_div_pow2 by lia.
  change (2 ^ 16) with 65536. change (2 ^ 32) with 4294967296 in *.
  change (Z.ones 16) with 65535.
  destruct (sum =? 0) eqn:E.
  - apply Z.eqb_eq in E. subst sum. reflexivity.
  - apply Z.eqb_neq in E.
    Z.to_euclidean_division_equations; lia.
Qed.

Lemma fold16_validates (sum : Z) :
  0 <= sum -> fold16 (sum + (65535 - fold16 sum)) = 65535.
Proof.
  intro H. unfold fold16.
  destruct (sum =? 0) eqn:E.
  - apply Z.eqb_eq in E. subst sum. reflexivity.
  - apply Z.eqb_neq in E.
    destruct (sum + (65535 - ((sum - 1) mod 65535 + 1)) =? 0) eqn:F.
    + apply Z.eqb_eq in F. Z.to_euclidean_division_equations; lia.
    + Z.to_euclidean_division_equations; lia.
Qed.

Lemma load16_range (big_endian : bool) (buf : list byte) :
  0 <= load16 big_endian buf <= 65535.
Proof.
  unfold load16.
  pose proof (byte_val_range (nth 0 buf x00)).
  pose proof (byte_val_range (nth 1 buf x00)).
  destruct big_endian; lia.
Qed.

(** Induction over a buffer two bytes at a time. *)
Lemma pairs_ind (P : list byte -> Prop) :
  P [] -> (forall b0, P [b0]) ->
  (forall b0 b1 rest, P rest -> P (b0 :: b1 :: rest)) ->
  forall b, P b.
Proof.
  intros H0 H1 H2.
  assert (H : forall b, P b /\ forall b0, P (b0 :: b)).
  { induction b as [| x b [IH IH']].
    - split; [ exact H0 | exact H1 ].
    - split; [ apply IH' | intro b0; apply H2; exact IH ]. }
  intro b. apply H.
Qed.

Lemma word_sum_range (big_endian : bool) (b : list byte) :
  0 <= word_sum big_endian b <= 65535 * sizeof b.
Proof.
  induction b as [| b0 | b0 b1 rest IH] using pairs_ind.
  - cbn. lia.
  - pose proof (byte_val_range b0). cbn [word_sum]. unfold sizeof.
    cbn [List.length]. lia.
  - pose proof (load16_range big_endian [b0; b1]).
    cbn [word_sum]. unfold sizeof in *. cbn [List.length]. lia.
Qed.

Lemma word_sum_app (big_endian : bool) (pre l : list byte) :
  Nat.even (List.length pre) = true ->
  word_sum big_endian (pre ++ l)
  = word_sum big_endian pre + word_sum big_endian l.
Proof.
  induction pre as [| b0 | b0 b1 rest IH] using pairs_ind; intro H.
  - reflexivity.
  - discriminate H.
  - cbn [app word_sum]. rewrite IH by exact H. lia.
Qed.

Lemma checksum_loop_spec (big_endian : bool) (fuel : nat) :
  forall (b : list byte) (sum : Z),
  (List.length b <= 2 * fuel + 1)%nat ->
  0 <= sum -> sum + word_sum big_endian b < 2 ^ 32 ->
  (let '(buf, len', s) :=
     checksum_loop fuel big_endian b (sizeof b) sum in
   if len' =? 1 then u32 (s + byte_val (nth 0 buf x00)) else s)
  = sum + word_sum big_endian b.
Proof.
  assert (Short : forall (b : list byte) (sum : Z),
            (List.length b <= 1)%nat ->
            0 <= sum -> sum + word_sum big_endian b < 2 ^ 32 ->
            (if sizeof b =? 1 then u32 (sum + byte_val (nth 0 b x00))
             else sum) = sum + word_sum big_endian b).
  { intros b sum Hl Hs Hb.
    destruct b as [| b0 [| b1 rest]]; cbn [List.length] in Hl; [ | | lia ].
    - cbn. lia.
    - cbn [word_sum] in *. pose proof (byte_val_range b0).
      cbn [sizeof List.length Z.of_nat Pos.of_succ_nat Z.eqb Pos.eqb nth].
      unfold u32. apply Z.mod_small. lia. }
  induction fuel as [| fuel IH]; intros b sum Hl Hs Hb.
  - cbn [checksum_loop]. apply Short; [ lia | exact Hs | exact Hb ].
  - cbn [checksum_loop].
    destruct b as [| b0 [| b1 rest]].
    + cbn. lia.
    + change (sizeof [b0] >? 1) with false. cbv iota.
      apply Short; [ cbn; lia | exact Hs | exact Hb ].
    + replace (sizeof (b0 :: b1 :: rest) >? 1) with true
        by (symmetry; rewrite Z.gtb_ltb; apply Z.ltb_lt;
            unfold sizeof; cbn [List.length]; lia).
      cbn [skipn].
      replace (sizeof (b0 :: b1 :: rest) - 2) with (sizeof rest)
        by (unfold sizeof; cbn [List.length]; lia).
      change (load16 big_endian (b0 :: b1 :: rest))
        with (load16 big_endian [b0; b1]).
      cbn [word_sum] in Hb |- *.
      pose proof (load16_range big_endian [b0; b1]) as Hw.
      pose proof (word_sum_range big_endian rest) as Hr.
      unfold u32 at 1. rewrite Z.mod_small by lia.
      rewrite IH; [ lia | cbn [List.length] in Hl; lia | lia | lia ].
Qed.

Lemma checksum_sum_spec (big_endian : bool) (b : list byte) :
  sizeof b <= MAX_PACKET_SIZE ->
  checksum_sum big_endian b (sizeof b) = word_sum big_endian b
  /\ 0 <= word_sum big_endian b < 2 ^ 32.
Proof.
  intro H. pose proof (word_sum_range big_endian b) as Hr.
  unfold MAX_PACKET_SIZE in H.
  assert (Hb : 0 <= word_sum big_endian b < 2 ^ 32)
    by (change (2 ^ 32) with 4294967296; lia).
  split; [ | exact Hb ].
  unfold checksum_sum.
  pose proof (checksum_loop_spec big_endian (Z.to_nat (sizeof b)) b 0) as L.
  destruct (checksum_loop (Z.to_nat (sizeof b)) big_endian b (sizeof b) 0)
    as [[buf len'] s].
  rewrite L; [ lia | unfold sizeof; lia | lia | lia ].
Qed.

(** X17: on a buffer of at most 65536 bytes, [checksum] is the Internet
    checksum: the complement, in 16 bits, of the one's-complement sum of
    the buffer's 16-bit words, an odd last byte being added as it stands.
    For a length of zero or less nothing is read and the result is
    0xFFFF. *)
Theorem checksum_is_ones_complement (big_endian : bool) (b : list byte) :
  (sizeof b <= MAX_PACKET_SIZE ->
   checksum big_endian b (sizeof b)
   = 65535 - fold16 (word_sum big_endian b))
  /\ (forall len : Z, len <= 0 -> checksum big_endian b len = 65535).
Proof.
  split.
  - intro H. destruct (checksum_sum_spec big_endian b H) as (E & R).
    unfold checksum. rewrite E. cbv zeta. apply fold_steps. exact R.
  - intros len H. unfold checksum, checksum_sum.
    replace (Z.to_nat len) with 0%nat by lia.
    cbn [checksum_loop].
    replace (len =? 1) with false by (symmetry; apply Z.eqb_neq; lia).
    reflexivity.
Qed.

Lemma checksum_is_ones_complement_witness :
  checksum false [x45; x00; x00; x1c; xff] 5
  = 65535 - fold16 (word_sum false [x45; x00; x00; x1c; xff]).
Proof.
  destruct (checksum_is_ones_complement false [x45; x00; x00; x1c; xff])
    as (H & _).
  apply H. vm_compute. discriminate.
Defined.

(** X18: a buffer that carries its own checksum checks to zero.  When the
    two bytes at an even offset hold, in host byte order, the checksum
    computed over the buffer with those two bytes zeroed, the checksum of
    the whole buffer is 0; this holds for either byte order and for odd
    lengths as well. *)
Theorem checksum_validates (big_endian : bool) (pre post : list byte)
    (c0 c1 : byte) :
  Nat.even (List.length pre) = true ->
  sizeof (pre ++ c0 :: c1 :: post) <= MAX_PACKET_SIZE ->
  load16 big_endian [c0; c1]
  = checksum big_endian (pre ++ x00 :: x00 :: post)
      (sizeof (pre ++ x00 :: x00 :: post)) ->
  checksum big_endian (pre ++ c0 :: c1 :: post)
    (sizeof (pre ++ c0 :: c1 :: post)) = 0.
Proof.
  intros Heven Hlen Hc.
  assert (Hlen0 : sizeof (pre ++ x00 :: x00 :: post) <= MAX_PACKET_SIZE).
  { unfold sizeof in *. rewrite length_app in *. exact Hlen. }
  destruct (checksum_is_ones_complement big_endian
              (pre ++ x00 :: x00 :: post)) as (E0 & _).
  destruct (checksum_is_ones_complement big_endian
              (pre ++ c0 :: c1 :: post)) as (E1 & _).
  rewrite (E1 Hlen). rewrite (E0 Hlen0) in Hc.
  rewrite word_sum_app in Hc |- * by exact Heven.
  cbn [word_sum] in Hc |- *.
  replace (load16 big_endian [x00; x00]) with 0 in Hc
    by (destruct big_endian; reflexivity).
  rewrite Hc.
  pose proof (word_sum_range big_endian pre) as Hp.
  pose proof (word_sum_range big_endian post) as Hq.
  replace (word_sum big_endian pre
           + (65535 - fold16 (word_sum big_endian pre
                              + (0 + word_sum big_endian post))
              + word_sum big_endian post))
    with ((word_sum big_endian pre + (0 + word_sum big_endian post))
          + (65535 - fold16 (word_sum big_endian pre
                             + (0 + word_sum big_endian post))))
    by lia.
  rewrite fold16_validates by lia. reflexivity.
Qed.

Lemma checksum_validates_witness :
  checksum false [x08; x00; xf7; xff; x00; x00; x00; x00] 8 = 0.
Proof.
  apply (checksum_validates false [x08; x00] [x00; x00; x00; x00] xf7 xff).
  - reflexivity.
  - vm_compute. discriminate.
  - reflexivity.
Defined.

(** ** The summary and the entries of the databases *)

(** The closing lines of the summary. *)
Lemma print_statistics_stdout (os : OS) (st : state) :
  stdout (snd (print_statistics os st))
  = ("Scan rate: "
       ++ fmt_f (to_double (total_ports (stats st))
                 / elapsed_between (stored_time os start_time (calls st))
                     (os_gettimeofday os (count_gettimeofday (calls st))))
       ++ " ports/sec" ++ nl)
    :: ("Scan duration: "
          ++ fmt_f (elapsed_between (stored_time os start_time (calls st))
                      (os_gettimeofday os (count_gettimeofday (calls st))))
          ++ " seconds" ++ nl)
    :: ("Filtered/Open|Filtered: " ++ fmt_d (filtered_ports (stats st)) ++ nl)
    :: ("Closed ports: " ++ fmt_d (closed_ports (stats st)) ++ nl)
    :: ("Open ports: " ++ fmt_d (open_ports (stats st)) ++ nl)
    :: ("Total ports scanned: " ++ fmt_d (total_ports (stats st)) ++ nl)
    :: (nl ++ "=== Scan Statistics ===" ++ nl)
    :: stdout st.
Proof. reflexivity. Qed.

(** X19: the summary a run prints is that of its final state.  The last
    seven lines on stdout are the heading, the four counters as they stand
    when [main] returns, the duration, which is the time between the clock
    reading [main] takes before the first port and the one
    [print_statistics] takes, and the rate, which is the final
    [total_ports] divided by that duration; both are printed with two
    decimals. *)
Theorem summary_reports_final_counters (prog : program) (os : OS)
    (atoi : string -> Z) (argv : list string) (st : state) :
  List.length argv = 4%nat ->
  1 <= atoi (nth 2 argv "") <= atoi (nth 3 argv "")
  /\ atoi (nth 3 argv "") <= 65535 ->
  exists earlier : list string,
    stdout (snd (main prog os atoi argv st))
    = ("Scan rate: "
         ++ fmt_f (to_double
                     (total_ports (stats (snd (main prog os atoi argv st))))
                   / elapsed_between
                       (os_gettimeofday os (count_gettimeofday (calls st)))
                       (os_gettimeofday os
                          (S (count_gettimeofday (calls st)))))
         ++ " ports/sec" ++ nl)
      :: ("Scan duration: "
            ++ fmt_f (elapsed_between
                        (os_gettimeofday os (count_gettimeofday (calls st)))
                        (os_gettimeofday os
                           (S (count_gettimeofday (calls st)))))
            ++ " seconds" ++ nl)
      :: ("Filtered/Open|Filtered: "
            ++ fmt_d (filtered_ports (stats (snd (main prog os atoi argv st))))
            ++ nl)
      :: ("Closed ports: "
            ++ fmt_d (closed_ports (stats (snd (main prog os atoi argv st))))
            ++ nl)
      :: ("Open ports: "
            ++ fmt_d (open_ports (stats (snd (main prog os atoi argv st))))
            ++ nl)
      :: ("Total ports scanned: "
            ++ fmt_d (total_ports (stats (snd (main prog os atoi argv st))))
            ++ nl)
      :: (nl ++ "=== Scan Statistics ===" ++ nl)
      :: earlier.
Proof.
  intros Hargc Hrange.
  assert (Hv : invalid_range (atoi (nth 2 argv ""))
                 (atoi (nth 3 argv "")) = false)
    by (apply valid_range_iff; exact Hrange).
  destruct (main_valid_start prog os atoi argv st Hargc Hv)
    as (st0 & E & _ & Hc & _).
  rewrite E. cbn [snd].
  rewrite print_statistics_stdout, print_statistics_stats.
  destruct (scan_ports_log prog os (nth 1 argv "") (atoi (nth 3 argv ""))
              (Z.to_nat (atoi (nth 3 argv "") - atoi (nth 2 argv "") + 1))
              (atoi (nth 2 argv "")) st0) as (scans & _ & Hf & Hs);
    [ lia | ].
  destruct (port_blocks_clock os start_time scans (calls st0) Hf)
    as (Hn & Ht).
  rewrite Hs, Hn, Ht, Hc.
  cbn [stored_time count_gettimeofday].
  eexists. reflexivity.
Qed.

Lemma summary_reports_final_counters_witness :
  exists earlier : list string,
    stdout (snd (main udp_scanner reply_then_silence atoi_decimal
                   ["scan"; "10.0.0.1"; "53"; "54"] initial_state))
    = ("Scan rate: 0.62 ports/sec" ++ nl)
      :: ("Scan duration: 3.25 seconds" ++ nl)
      :: ("Filtered/Open|Filtered: 2" ++ nl)
      :: ("Closed ports: 0" ++ nl)
      :: ("Open ports: 1" ++ nl)
      :: ("Total ports scanned: 2" ++ nl)
      :: (nl ++ "=== Scan Statistics ===" ++ nl)
      :: earlier.
Proof.
  apply (summary_reports_final_counters udp_scanner reply_then_silence
           atoi_decimal ["scan"; "10.0.0.1"; "53"; "54"] initial_state).
  - reflexivity.
  - vm_compute. repeat split; discriminate.
Defined.

(** X20: every named entry of a protocol database is the probe returned
    for its own port, with one exception: the second DNS entry of
    udp_scanner_extended.c, which stands behind the first. *)
Theorem entries_reachable (prog : program) (e : udp_probe_t) :
  In e (udp_probes prog) -> service_name e <> None ->
  get_probe_for_port prog (port_of e) = Some e
  \/ (prog = udp_scanner_extended
      /\ e = mk_probe 53 (Some "DNS") Extended.dns_version_probe
               (sizeof Extended.dns_version_probe) (Some "RFC 1035")).
Proof.
  intros Hin Hn.
  destruct prog;
    cbv [udp_probes Basic.udp_probes Extended.udp_probes] in Hin;
    cbn [In] in Hin;
    repeat (destruct Hin as [<- | Hin];
            [ first [ left; reflexivity
                    | right; split; reflexivity
                    | exfalso; apply Hn; reflexivity ] | ]);
    destruct Hin.
Qed.

Lemma entries_reachable_witness :
  get_probe_for_port udp_scanner 5060
  = Some (mk_probe 5060 (Some "SIP") Basic.sip_probe
            (strlen Basic.sip_probe) (Some "SIP response"))
  \/ (udp_scanner = udp_scanner_extended
      /\ mk_probe 5060 (Some "SIP") Basic.sip_probe (strlen Basic.sip_probe)
           (Some "SIP response")
         = mk_probe 53 (Some "DNS") Extended.dns_version_probe
             (sizeof Extended.dns_version_probe) (Some "RFC 1035")).
Proof.
  apply (entries_reachable udp_scanner
           (mk_probe 5060 (Some "SIP") Basic.sip_probe
              (strlen Basic.sip_probe) (Some "SIP response"))).
  - do 7 right. left. reflexivity.
  - discriminate.
Defined.
